(** * Broker messaging core of the auth and gateway services

    A shallow embedding of [auth/service.py] ([connect_to_rabbitmq],
    [send_otp]) and [gateway/rpc_client.py] ([OcrRpcClient]) over an abstract
    pika runtime, together with a small executable broker used to run the
    code on concrete inputs. *)

From Stdlib Require Import ZArith Lia Ascii String.
From stdpp Require Import gmap strings list pretty.


(** ** Python exceptions *)

(** The exception classes that can reach the handlers of the two modules.
    [AMQPError] is the base class of pika's exceptions; [StreamLostError]
    and [ConnectionWrongStateError] are subclasses of [AMQPConnectionError],
    while [ChannelClosedByBroker] and [ChannelWrongStateError] derive from
    [AMQPChannelError]; [KeyboardInterrupt] derives from [BaseException]
    only. *)
Inductive exn_class :=
  | AMQPError
  | AMQPConnectionError
  | StreamLostError
  | ChannelClosedByBroker
  | ChannelWrongStateError
  | ConnectionWrongStateError
  | TypeError
  | JSONDecodeError
  | AttributeError
  | KeyboardInterrupt.

Record exn := mk_exn { exn_cls : exn_class; exn_str : string }.

(** [isinstance(e, pika.exceptions.AMQPConnectionError)] *)
Definition is_AMQPConnectionError (e : exn) : bool :=
  match exn_cls e with
  | AMQPConnectionError | StreamLostError | ConnectionWrongStateError => true
  | _ => false
  end.

(** [isinstance(e, Exception)] *)
Definition is_Exception (e : exn) : bool :=
  match exn_cls e with
  | KeyboardInterrupt => false
  | _ => true
  end.

(** What a single library call does: it returns or it raises. *)
Inductive result (A : Type) :=
  | Ret (a : A)
  | Exc (e : exn).
Arguments Ret {A} a.
Arguments Exc {A} e.

Definition raised {A} (r : result A) : option exn :=
  match r with Ret _ => None | Exc e => Some e end.

(** ** Python values that travel through [json] *)

#[local] Set Warnings "-register-all".
Inductive pyvalue :=
  | PyNone
  | PyBool (b : bool)
  | PyInt (z : Z)
  | PyStr (s : string)
  | PyList (l : list pyvalue)
  | PyDict (d : list (string * pyvalue)).

(** [json.dumps] and [json.loads] of the Python standard library. *)
Class JsonCodec := {
  json_dumps : pyvalue -> result string;
  json_loads : string -> result pyvalue;
}.

(** ** Messages *)

(** [pika.BasicProperties] restricted to the fields the code sets or reads. *)
Record BasicProperties := mk_props {
  reply_to : option string;
  correlation_id : option string;
  delivery_mode : option Z;
}.

(** [pika.spec.PERSISTENT_DELIVERY_MODE] *)
Definition PERSISTENT_DELIVERY_MODE : Z := 2.

(** What the consumer callback receives besides channel and method. *)
Record delivery := mk_delivery {
  d_properties : BasicProperties;
  d_body : string;
}.

(** ** The pika runtime *)

(** Every call to the outside world, with what came back. *)
Inductive event :=
  | EConnect (host : option string) (r : option exn)
  | EChannel (r : option exn)
  | EQueueDeclare (queue : string) (passive durable exclusive : bool)
                  (r : result string)
  | EQueueDelete (queue : string) (r : option exn)
  | EPublish (exchange routing_key : string) (properties : BasicProperties)
             (body : string) (r : option exn)
  | EConsume (queue : string) (auto_ack : bool) (r : option exn)
  | EPump (r : result (list delivery))
  | EChannelClose (r : option exn)
  | EConnectionClose (r : option exn)
  | EUuid4 (s : string)
  | EPrint (line : string)
  | ESleep (secs : Z).

(** The operations of pika (and [uuid]) that the two modules call, over a
    world [W] holding the broker and everything else outside the process,
    and the environment variable both modules read the broker address from.
    [queue_declare] returns [method.queue] of the Declare-Ok frame.
    [process_data_events] returns the messages it hands, in order, to the
    callback registered with [basic_consume]; running the callback on them
    is the client's part. *)
Class Pika (W conn chan : Type) := {
  RABBITMQ_URL : option string;
  BlockingConnection : option string -> W -> result conn * W;
  connection_channel : conn -> W -> result chan * W;
  queue_declare : chan -> string -> bool -> bool -> bool -> W -> result string * W;
  queue_delete : chan -> string -> W -> result unit * W;
  basic_publish : chan -> string -> string -> BasicProperties -> string ->
                  W -> result unit * W;
  basic_consume : chan -> string -> bool -> W -> result unit * W;
  process_data_events : conn -> W -> result (list delivery) * W;
  channel_close : chan -> W -> result unit * W;
  connection_close : conn -> W -> result unit * W;
  uuid4 : W -> string * W;
}.

(** ** Computations: state, exceptions and unfinished loops *)

Inductive outcome (A : Type) :=
  | Returned (a : A)
  | Raised (e : exn)
  | Running.
Arguments Returned {A} a.
Arguments Raised {A} e.
Arguments Running {A}.

(** A run threads the world and the log of events so far. [Running] is the
    outcome of a loop that has not finished within the steps it was given. *)

Definition M (W A : Type) : Type :=
  W * list event -> outcome A * (W * list event).

Section Runtime.
Context {W : Type}.

Definition ret {A} (a : A) : M W A := fun s => (Returned a, s).
Definition raise {A} (e : exn) : M W A := fun s => (Raised e, s).
Definition still_running {A} : M W A := fun s => (Running, s).

Definition bind {A B} (m : M W A) (k : A -> M W B) : M W B :=
  fun s => match m s with
           | (Returned a, s') => k a s'
           | (Raised e, s') => (Raised e, s')
           | (Running, s') => (Running, s')
           end.

(** [try: m / except C as err: h err], where [h] answers [None] for an
    exception the clause does not match. *)
Definition try_except {A} (m : M W A) (h : exn -> option (M W A)) : M W A :=
  fun s => match m s with
           | (Raised e, s') =>
               match h e with
               | Some k => k s'
               | None => (Raised e, s')
               end
           | other => other
           end.

(** [try: m / finally: fin]. An exception of [fin] replaces the outcome
    of [m]; a body that is still running never reaches [fin]. *)
Definition try_finally {A} (m : M W A) (fin : M W unit) : M W A :=
  fun s => match m s with
           | (Running, s') => (Running, s')
           | (o, s') =>
               match fin s' with
               | (Returned _, s'') => (o, s'')
               | (Raised e, s'') => (Raised e, s'')
               | (Running, s'') => (Running, s'')
               end
           end.

(** A value computed inside the process. *)
Definition lift {A} (r : result A) : M W A :=
  match r with Ret a => ret a | Exc e => raise e end.

(** A call to the outside world, logged with what came back. *)
Definition perform {A} (op : W -> result A * W) (log : result A -> event) : M W A :=
  fun '(w, t) =>
    let '(r, w') := op w in
    (match r with Ret a => Returned a | Exc e => Raised e end, (w', t ++ [log r])).

Definition emit (ev : event) : M W unit :=
  fun '(w, t) => (Returned tt, (w, t ++ [ev])).

Definition print (line : string) : M W unit := emit (EPrint line).
Definition time_sleep (secs : Z) : M W unit := emit (ESleep secs).
End Runtime.

Declare Scope py_scope.
Delimit Scope py_scope with py.
Notation "x <- m ;; k" := (bind m (fun x => k))
  (at level 100, m at next level, right associativity) : py_scope.
Notation "m ;;; k" := (bind m (fun _ => k))
  (at level 100, right associativity) : py_scope.
Open Scope py_scope.

(** ** Logged calls into pika *)

Section Calls.
Context {W conn chan : Type} `{!Pika W conn chan}.

Definition connect (host : option string) : M W conn :=
  perform (BlockingConnection host) (fun r => EConnect host (raised r)).

Definition open_channel (connection : conn) : M W chan :=
  perform (connection_channel connection) (fun r => EChannel (raised r)).

Definition declare (channel : chan) (queue : string)
    (passive durable exclusive : bool) : M W string :=
  perform (queue_declare channel queue passive durable exclusive)
          (EQueueDeclare queue passive durable exclusive).

Definition delete_queue (channel : chan) (queue : string) : M W unit :=
  perform (queue_delete channel queue) (fun r => EQueueDelete queue (raised r)).

Definition publish (channel : chan) (exchange routing_key : string)
    (properties : BasicProperties) (body : string) : M W unit :=
  perform (basic_publish channel exchange routing_key properties body)
          (fun r => EPublish exchange routing_key properties body (raised r)).

Definition close_channel (channel : chan) : M W unit :=
  perform (channel_close channel) (fun r => EChannelClose (raised r)).

Definition close_connection (connection : conn) : M W unit :=
  perform (connection_close connection) (fun r => EConnectionClose (raised r)).

Definition consume (channel : chan) (queue : string) (auto_ack : bool) : M W unit :=
  perform (basic_consume channel queue auto_ack)
          (fun r => EConsume queue auto_ack (raised r)).

Definition pump (connection : conn) : M W (list delivery) :=
  perform (process_data_events connection) EPump.

Definition fresh_uuid : M W string :=
  fun '(w, t) => let '(u, w') := uuid4 w in (Returned u, (w', t ++ [EUuid4 u])).
End Calls.

(** ** auth/service.py *)

Section Service.
Context {W conn chan : Type} `{!Pika W conn chan} `{!JsonCodec}.

Definition connect_retry_line : string :=
  "Failed to connect to RabbitMQ. Retrying in 5 seconds...".

(** [connect_to_rabbitmq]: the [while True] loop, unrolled at most [fuel]
    times; [Running] when all [fuel] attempts ended in the handler. *)
Fixpoint connect_to_rabbitmq (fuel : nat) : M W conn :=
  match fuel with
  | O => still_running
  | S fuel' =>
      try_except
        (connection <- connect RABBITMQ_URL ;;
         ret connection)
        (fun e =>
           if is_AMQPConnectionError e then
             Some (print connect_retry_line ;;;
                   time_sleep 5 ;;;
                   connect_to_rabbitmq fuel')
           else None)
  end.

(** The newline character. *)
Definition LF : string := String (Ascii.ascii_of_nat 10) EmptyString.

Definition otp_subject : string := "Account Verification OTP Notification".

(** The f-string of the message body. *)
Definition otp_body (otp : string) : string :=
  "Your OTP for account verification is: " +:+ otp +:+ " " +:+ LF +:+
  " Please enter this OTP on the verification page to complete your account setup. "
  +:+ LF +:+
  " If you did not request this OTP, please ignore this message." +:+ LF +:+
  " Thank you ".

Definition otp_message (email otp : string) : pyvalue :=
  PyDict [("email", PyStr email);
          ("subject", PyStr otp_subject);
          ("other", PyStr "null");
          ("body", PyStr (otp_body otp))].

(** Truth value of a Python [str]. *)
Definition truthy (s : string) : bool :=
  match s with EmptyString => false | _ => true end.

Definition persistent_properties : BasicProperties :=
  {| reply_to := None; correlation_id := None;
     delivery_mode := Some PERSISTENT_DELIVERY_MODE |}.

(** The body of the [try] block of [send_otp]. [declared_queue] is
    [queue_declare_ok.method.queue]. *)
Definition send_otp_try (channel : chan) (message : pyvalue) : M W unit :=
  declared_queue <- declare channel "email_notification" true false false ;;
  let current_durable := declared_queue in
  (if truthy current_durable then
     if negb (String.eqb declared_queue current_durable) then
       delete_queue channel "email_notification" ;;;
       _ <- declare channel "email_notification" false true false ;;
       ret tt
     else ret tt
   else
     _ <- declare channel "email_notification" false true false ;;
     ret tt) ;;;
  body <- lift (json_dumps message) ;;
  publish channel "" "email_notification" persistent_properties body ;;;
  print "Sent OTP email notification".

Definition send_otp_except (err : exn) : option (M W unit) :=
  if is_Exception err
  then Some (print ("Failed to publish message: " +:+ exn_str err))
  else None.

(** [send_otp(email, otp, channel)]. The caller passes its module-level
    [channel], which is [None] until its startup has connected. *)
Definition send_otp (fuel : nat) (email otp : string) (channel : option chan)
    : M W unit :=
  connection <- connect_to_rabbitmq fuel ;;
  channel <- open_channel connection ;;
  let message := otp_message email otp in
  try_finally
    (try_except (send_otp_try channel message) send_otp_except)
    (close_channel channel ;;; close_connection connection).
End Service.

(** ** gateway/rpc_client.py *)

(** The attributes of an [OcrRpcClient] object. [corr_id] is [None] while
    the attribute has not been assigned ([__init__] does not assign it);
    [response] is [None] for Python's [None], the only value it is read as
    before [on_response] stores a body. *)
Record OcrRpcClient (conn chan : Type) := mk_client {
  connection : conn;
  channel : chan;
  callback_queue : string;
  response : option string;
  corr_id : option string;
}.
Arguments mk_client {conn chan}.
Arguments connection {conn chan}.
Arguments channel {conn chan}.
Arguments callback_queue {conn chan}.
Arguments response {conn chan}.
Arguments corr_id {conn chan}.

Definition set_response {conn chan} (self : OcrRpcClient conn chan)
    (r : option string) : OcrRpcClient conn chan :=
  mk_client (connection self) (channel self) (callback_queue self) r (corr_id self).

Definition set_corr_id {conn chan} (self : OcrRpcClient conn chan)
    (c : option string) : OcrRpcClient conn chan :=
  mk_client (connection self) (channel self) (callback_queue self) (response self) c.

Section RpcClient.
Context {W conn chan : Type} `{!Pika W conn chan} `{!JsonCodec}.

(** [OcrRpcClient.__init__] *)
Definition OcrRpcClient_init : M W (OcrRpcClient conn chan) :=
  connection <- connect RABBITMQ_URL ;;
  channel <- open_channel connection ;;
  callback_queue <- declare channel "" false false true ;;
  consume channel callback_queue true ;;;
  ret (mk_client connection channel callback_queue None None).

(** [OcrRpcClient.on_response]; reading an unassigned [self.corr_id]
    raises [AttributeError]. *)
Definition on_response (self : OcrRpcClient conn chan)
    (properties : BasicProperties) (body : string)
    : result (OcrRpcClient conn chan) :=
  match corr_id self with
  | None => Exc (mk_exn AttributeError
                   "'OcrRpcClient' object has no attribute 'corr_id'")
  | Some c =>
      if decide (Some c = correlation_id properties)
      then Ret (set_response self (Some body))
      else Ret self
  end.

(** The callback applied to the messages one [process_data_events] hands
    over, in arrival order. *)
Fixpoint dispatch (self : OcrRpcClient conn chan) (batch : list delivery)
    : result (OcrRpcClient conn chan) :=
  match batch with
  | [] => Ret self
  | d :: rest =>
      match on_response self (d_properties d) (d_body d) with
      | Ret self' => dispatch self' rest
      | Exc e => Exc e
      end
  end.

(** [while self.response is None: self.connection.process_data_events()],
    unrolled at most [fuel] times. *)
Fixpoint wait_response (fuel : nat) (self : OcrRpcClient conn chan)
    : M W (OcrRpcClient conn chan) :=
  match response self with
  | Some _ => ret self
  | None =>
      match fuel with
      | O => still_running
      | S fuel' =>
          batch <- pump (connection self) ;;
          self' <- lift (dispatch self batch) ;;
          wait_response fuel' self'
      end
  end.

Definition request_properties (self : OcrRpcClient conn chan) : BasicProperties :=
  {| reply_to := Some (callback_queue self);
     correlation_id := corr_id self;
     delivery_mode := None |}.

(** Python reads [self.response] as bytes; the loop left with it set. *)
Definition response_bytes (self : OcrRpcClient conn chan) : string :=
  default EmptyString (response self).

(** [OcrRpcClient.call]; returns the decoded reply and the object as the
    call leaves it. *)
Definition call (fuel : nat) (self : OcrRpcClient conn chan)
    (image_data : pyvalue) : M W (pyvalue * OcrRpcClient conn chan) :=
  let self := set_response self None in
  u <- fresh_uuid ;;
  let self := set_corr_id self (Some u) in
  body <- lift (json_dumps (PyDict [("image_data", image_data)])) ;;
  publish (channel self) "" "ocr_service" (request_properties self) body ;;;
  self <- wait_response fuel self ;;
  v <- lift (json_loads (response_bytes self)) ;;
  ret (v, self).
End RpcClient.

(** ** A JSON codec to run the code with

    The encoder follows the defaults of [json.dumps] (separators [", "] and
    [": "], [ensure_ascii]); a Rocq character stands for the code point of the
    same number. The decoder reads what the encoder writes, with optional
    white space; numbers with a fraction or an exponent are outside
    [pyvalue] and are refused. *)
Module PyJson.
(** The double-quote character. *)
Definition dquote : string := String (ascii_of_nat 34) "".

Definition hex_digit (n : N) : ascii :=
  ascii_of_N (if (n <? 10)%N then 48 + n else 87 + n).

(** [\u00xy] for the code point of [c]. *)
Definition escape_u (c : ascii) : string :=
  let n := N_of_ascii c in
  "\u00" +:+ String (hex_digit (n / 16)) (String (hex_digit (n mod 16)) "").

Definition escape_char (c : ascii) : string :=
  let n := N_of_ascii c in
  if (n =? 34)%N then "\" +:+ dquote
  else if (n =? 92)%N then "\\"
  else if (n =? 10)%N then "\n"
  else if (n =? 13)%N then "\r"
  else if (n =? 9)%N then "\t"
  else if (n =? 8)%N then "\b"
  else if (n =? 12)%N then "\f"
  else if ((n <? 32) || (126 <? n))%N then escape_u c
  else String c "".

Fixpoint escape (s : string) : string :=
  match s with
  | EmptyString => ""
  | String c rest => escape_char c +:+ escape rest
  end.

Definition quote (s : string) : string := dquote +:+ escape s +:+ dquote.

Fixpoint join (sep : string) (parts : list string) : string :=
  match parts with
  | [] => ""
  | [p] => p
  | p :: rest => p +:+ sep +:+ join sep rest
  end.

Fixpoint encode (v : pyvalue) : string :=
  match v with
  | PyNone => "null"
  | PyBool true => "true"
  | PyBool false => "false"
  | PyInt z => pretty z
  | PyStr s => quote s
  | PyList l => "[" +:+ join ", " (map encode l) +:+ "]"
  | PyDict d =>
      "{" +:+ join ", " (map (fun kv => quote (fst kv) +:+ ": " +:+ encode (snd kv)) d)
      +:+ "}"
  end.

Definition is_ws (c : ascii) : bool :=
  let n := N_of_ascii c in
  ((n =? 32) || (n =? 10) || (n =? 13) || (n =? 9))%N.

Fixpoint skip_ws (s : string) : string :=
  match s with
  | String c rest => if is_ws c then skip_ws rest else s
  | EmptyString => s
  end.

Definition hex_value (c : ascii) : option N :=
  let n := N_of_ascii c in
  if ((48 <=? n) && (n <=? 57))%N then Some (n - 48)%N
  else if ((97 <=? n) && (n <=? 102))%N then Some (n - 87)%N
  else if ((65 <=? n) && (n <=? 70))%N then Some (n - 55)%N
  else None.

Definition code_point (a b c d : ascii) : option N :=
  x ← hex_value a; y ← hex_value b; z ← hex_value c; w ← hex_value d;
  Some (((x * 16 + y) * 16 + z) * 16 + w)%N.

Definition push (c : ascii) (r : option (string * string)) : option (string * string) :=
  '(t, rest) ← r; Some (String c t, rest).

(** The text of a string literal, read from just after its opening quote,
    and what follows its closing quote. *)
Fixpoint parse_string (s : string) : option (string * string) :=
  match s with
  | EmptyString => None
  | String c rest =>
      let n := N_of_ascii c in
      if (n =? 34)%N then Some ("", rest)
      else if (n =? 92)%N then
        match rest with
        | String e rest' =>
            match N_of_ascii e with
            | 34%N => push (ascii_of_N 34) (parse_string rest')
            | 92%N => push (ascii_of_N 92) (parse_string rest')
            | 47%N => push (ascii_of_N 47) (parse_string rest')
            | 98%N => push (ascii_of_N 8) (parse_string rest')
            | 102%N => push (ascii_of_N 12) (parse_string rest')
            | 110%N => push (ascii_of_N 10) (parse_string rest')
            | 114%N => push (ascii_of_N 13) (parse_string rest')
            | 116%N => push (ascii_of_N 9) (parse_string rest')
            | 117%N =>
                match rest' with
                | String a (String b (String c' (String d rest''))) =>
                    match code_point a b c' d with
                    | Some k =>
                        if (k <? 256)%N
                        then push (ascii_of_N k) (parse_string rest'')
                        else None
                    | None => None
                    end
                | _ => None
                end
            | _ => None
            end
        | EmptyString => None
        end
      else if (n <? 32)%N then None
      else push c (parse_string rest)
  end.

Definition is_digit (c : ascii) : bool :=
  let n := N_of_ascii c in ((48 <=? n) && (n <=? 57))%N.

Fixpoint parse_digits (acc : N) (s : string) : N * string :=
  match s with
  | String c rest =>
      if is_digit c then parse_digits (acc * 10 + (N_of_ascii c - 48))%N rest
      else (acc, s)
  | EmptyString => (acc, s)
  end.

(** A JSON integer without sign: [0], or digits not starting with [0];
    a fraction or an exponent after it is refused. *)
Definition parse_nat (s : string) : option (N * string) :=
  match s with
  | String c rest =>
      if is_digit c then
        let '(n, rest') :=
          if (N_of_ascii c =? 48)%N then (0%N, rest) else parse_digits 0 s in
        match rest' with
        | String d _ =>
            let k := N_of_ascii d in
            if ((k =? 46) || (k =? 101) || (k =? 69))%N then None
            else Some (n, rest')
        | EmptyString => Some (n, rest')
        end
      else None
  | EmptyString => None
  end.

Definition parse_int (s : string) : option (Z * string) :=
  match s with
  | String c rest =>
      if (N_of_ascii c =? 45)%N
      then '(n, r) ← parse_nat rest; Some (- Z.of_N n, r)%Z
      else '(n, r) ← parse_nat s; Some (Z.of_N n, r)
  | EmptyString => None
  end.

Fixpoint strip_prefix (p s : string) : option string :=
  match p, s with
  | EmptyString, _ => Some s
  | String a p', String b s' => if Ascii.eqb a b then strip_prefix p' s' else None
  | _, _ => None
  end.

(** The rest of a bracketed sequence, read from just after an item. *)
Fixpoint parse_items {A} (item : string -> option (A * string)) (close : N)
    (fuel : nat) (s : string) : option (list A * string) :=
  match fuel with
  | O => None
  | S fuel' =>
      match skip_ws s with
      | String c rest =>
          if (N_of_ascii c =? close)%N then Some ([], rest)
          else if (N_of_ascii c =? 44)%N then
            '(a, s1) ← item rest;
            '(l, s2) ← parse_items item close fuel' s1;
            Some (a :: l, s2)
          else None
      | EmptyString => None
      end
  end.

(** A bracketed sequence, read from just after the opening bracket. *)
Definition parse_seq {A} (item : string -> option (A * string)) (close : N)
    (s : string) : option (list A * string) :=
  match skip_ws s with
  | String c rest =>
      if (N_of_ascii c =? close)%N then Some ([], rest)
      else
        '(a, s1) ← item s;
        '(l, s2) ← parse_items item close (S (String.length s1)) s1;
        Some (a :: l, s2)
  | EmptyString => None
  end.

Definition parse_member (value : string -> option (pyvalue * string))
    (s : string) : option ((string * pyvalue) * string) :=
  match skip_ws s with
  | String q rest =>
      if (N_of_ascii q =? 34)%N then
        '(k, s1) ← parse_string rest;
        match skip_ws s1 with
        | String c s2 =>
            if (N_of_ascii c =? 58)%N
            then '(v, s3) ← value s2; Some ((k, v), s3)
            else None
        | EmptyString => None
        end
      else None
  | EmptyString => None
  end.

(** Assignment [d[k] = v] on a dict: a later value replaces an earlier
    one in place. *)
Fixpoint dict_set (d : list (string * pyvalue)) (k : string) (v : pyvalue)
    : list (string * pyvalue) :=
  match d with
  | [] => [(k, v)]
  | (k', v') :: d' =>
      if String.eqb k k' then (k, v) :: d' else (k', v') :: dict_set d' k v
  end.

Definition dict_of_pairs (l : list (string * pyvalue)) : list (string * pyvalue) :=
  fold_left (fun d kv => dict_set d (fst kv) (snd kv)) l [].

Fixpoint parse_value (fuel : nat) (s : string) : option (pyvalue * string) :=
  match fuel with
  | O => None
  | S fuel' =>
      match skip_ws s with
      | EmptyString => None
      | String c rest as s' =>
          let n := N_of_ascii c in
          if (n =? 34)%N then
            '(t, r) ← parse_string rest; Some (PyStr t, r)
          else if (n =? 91)%N then
            '(l, r) ← parse_seq (parse_value fuel') 93 rest; Some (PyList l, r)
          else if (n =? 123)%N then
            '(l, r) ← parse_seq (parse_member (parse_value fuel')) 125 rest;
            Some (PyDict (dict_of_pairs l), r)
          else
            match strip_prefix "null" s', strip_prefix "true" s',
                  strip_prefix "false" s' with
            | Some r, _, _ => Some (PyNone, r)
            | _, Some r, _ => Some (PyBool true, r)
            | _, _, Some r => Some (PyBool false, r)
            | _, _, _ => '(z, r) ← parse_int s'; Some (PyInt z, r)
            end
      end
  end.

Definition decode_error : exn := mk_exn JSONDecodeError "Expecting value".

Definition decode (s : string) : result pyvalue :=
  match parse_value (S (String.length s)) s with
  | Some (v, rest) =>
      match skip_ws rest with
      | EmptyString => Ret v
      | _ => Exc (mk_exn JSONDecodeError "Extra data")
      end
  | None => Exc decode_error
  end.

#[export] Instance codec : JsonCodec :=
  {| json_dumps v := Ret (encode v); json_loads := decode |}.
End PyJson.

(** ** A broker to run the code against

    One AMQP broker with its default exchange, seen through pika's blocking
    adapter, and one worker consuming the queue [ocr_service]. Handles are
    numbers. A channel-level error (a passive declare of a missing queue, a
    declare that conflicts with the existing queue) closes the channel, and
    closing what is already closed raises. *)
Module Broker.
Record squeue := mk_queue {
  q_durable : bool;
  q_exclusive : bool;
  q_messages : list delivery;
}.

Record world := mk_world {
  refusals : option nat;    (* connection attempts still refused; None: all *)
  queues : gmap string squeue;
  conns : list nat;         (* open connections *)
  chans : list (nat * nat); (* open channels, each with its connection *)
  consumers : list (nat * string);  (* channel and the queue it consumes *)
  next_id : nat;            (* source of handles, names and uuids *)
  worker : option (delivery -> list delivery);
                            (* replies the worker sends for a request *)
  worker_delay : nat;       (* rounds before the worker handles requests *)
  publish_fault : option exn;  (* what basic_publish raises, if anything *)
}.

Definition with_refusals (w : world) (r : option nat) : world :=
  mk_world r (queues w) (conns w) (chans w) (consumers w) (next_id w)
           (worker w) (worker_delay w) (publish_fault w).
Definition with_queues (w : world) (q : gmap string squeue) : world :=
  mk_world (refusals w) q (conns w) (chans w) (consumers w) (next_id w)
           (worker w) (worker_delay w) (publish_fault w).
Definition with_conns (w : world) (c : list nat) : world :=
  mk_world (refusals w) (queues w) c (chans w) (consumers w) (next_id w)
           (worker w) (worker_delay w) (publish_fault w).
Definition with_chans (w : world) (c : list (nat * nat)) : world :=
  mk_world (refusals w) (queues w) (conns w) c (consumers w) (next_id w)
           (worker w) (worker_delay w) (publish_fault w).
Definition with_consumers (w : world) (c : list (nat * string)) : world :=
  mk_world (refusals w) (queues w) (conns w) (chans w) c (next_id w)
           (worker w) (worker_delay w) (publish_fault w).
Definition with_next_id (w : world) (n : nat) : world :=
  mk_world (refusals w) (queues w) (conns w) (chans w) (consumers w) n
           (worker w) (worker_delay w) (publish_fault w).
Definition with_worker_delay (w : world) (n : nat) : world :=
  mk_world (refusals w) (queues w) (conns w) (chans w) (consumers w) (next_id w)
           (worker w) n (publish_fault w).

Definition connection_refused : exn :=
  mk_exn AMQPConnectionError "connection refused".
Definition channel_is_closed : exn :=
  mk_exn ChannelWrongStateError "Channel is closed.".
Definition connection_is_closed : exn :=
  mk_exn ConnectionWrongStateError "Connection is closed.".
Definition not_found (queue : string) : exn :=
  mk_exn ChannelClosedByBroker ("(404, NOT_FOUND - no queue '" +:+ queue +:+ "')").
Definition precondition_failed (queue : string) : exn :=
  mk_exn ChannelClosedByBroker
    ("(406, PRECONDITION_FAILED - inequivalent arg for queue '" +:+ queue +:+ "')").

Definition chan_open (ch : nat) (w : world) : bool :=
  bool_decide (ch ∈ (chans w).*1).
Definition conn_open (c : nat) (w : world) : bool :=
  bool_decide (c ∈ conns w).

Definition drop_chan (ch : nat) (w : world) : world :=
  with_consumers
    (with_chans w (filter (fun p => p.1 ≠ ch) (chans w)))
    (filter (fun p => p.1 ≠ ch) (consumers w)).

Definition sim_connect (host : option string) (w : world) : result nat * world :=
  match refusals w with
  | None => (Exc connection_refused, w)
  | Some (S n) => (Exc connection_refused, with_refusals w (Some n))
  | Some O =>
      let c := next_id w in
      (Ret c, with_next_id (with_conns w (c :: conns w)) (S c))
  end.

Definition sim_channel (c : nat) (w : world) : result nat * world :=
  if conn_open c w then
    let ch := next_id w in
    (Ret ch, with_next_id (with_chans w ((ch, c) :: chans w)) (S ch))
  else (Exc connection_is_closed, w).

Definition sim_queue_declare (ch : nat) (queue : string)
    (passive durable exclusive : bool) (w : world) : result string * world :=
  if negb (chan_open ch w) then (Exc channel_is_closed, w)
  else if negb passive && bool_decide (queue = "") then
    let name := "amq.gen-" +:+ pretty (next_id w) in
    (Ret name,
     with_next_id
       (with_queues w (<[name := mk_queue durable exclusive []]> (queues w)))
       (S (next_id w)))
  else
    match queues w !! queue with
    | Some q =>
        if passive then (Ret queue, w)
        else if bool_decide (q_durable q = durable)
                && bool_decide (q_exclusive q = exclusive)
        then (Ret queue, w)
        else (Exc (precondition_failed queue), drop_chan ch w)
    | None =>
        if passive then (Exc (not_found queue), drop_chan ch w)
        else (Ret queue,
              with_queues w (<[queue := mk_queue durable exclusive []]> (queues w)))
    end.

Definition sim_queue_delete (ch : nat) (queue : string) (w : world)
    : result unit * world :=
  if chan_open ch w
  then (Ret tt, with_queues w (delete queue (queues w)))
  else (Exc channel_is_closed, w).

(** The default exchange routes by queue name; a message for a queue that
    does not exist is dropped. *)
Definition route (queue : string) (d : delivery) (qs : gmap string squeue)
    : gmap string squeue :=
  match qs !! queue with
  | Some q =>
      <[queue := mk_queue (q_durable q) (q_exclusive q) (q_messages q ++ [d])]> qs
  | None => qs
  end.

Definition sim_publish (ch : nat) (exchange routing_key : string)
    (properties : BasicProperties) (body : string) (w : world)
    : result unit * world :=
  if negb (chan_open ch w) then (Exc channel_is_closed, w)
  else
    match publish_fault w with
    | Some e => (Exc e, w)
    | None =>
        if bool_decide (exchange = "")
        then (Ret tt,
              with_queues w (route routing_key (mk_delivery properties body) (queues w)))
        else (Ret tt, w)
    end.

Definition sim_consume (ch : nat) (queue : string) (auto_ack : bool) (w : world)
    : result unit * world :=
  if negb (chan_open ch w) then (Exc channel_is_closed, w)
  else
    match queues w !! queue with
    | Some _ => (Ret tt, with_consumers w (consumers w ++ [(ch, queue)]))
    | None => (Exc (not_found queue), drop_chan ch w)
    end.

Definition clear (queue : string) (qs : gmap string squeue) : gmap string squeue :=
  match qs !! queue with
  | Some q => <[queue := mk_queue (q_durable q) (q_exclusive q) []]> qs
  | None => qs
  end.

Definition pending (queue : string) (qs : gmap string squeue) : list delivery :=
  match qs !! queue with
  | Some q => q_messages q
  | None => []
  end.

(** The worker answers a request on the queue named by its [reply_to]. *)
Definition answer (f : delivery -> list delivery) (qs : gmap string squeue)
    (request : delivery) : gmap string squeue :=
  match reply_to (d_properties request) with
  | Some queue => fold_left (fun qs r => route queue r qs) (f request) qs
  | None => qs
  end.

Definition worker_step (w : world) : world :=
  match worker w with
  | None => w
  | Some f =>
      match worker_delay w with
      | S n => with_worker_delay w n
      | O =>
          let requests := pending "ocr_service" (queues w) in
          with_queues w
            (fold_left (answer f) requests (clear "ocr_service" (queues w)))
      end
  end.

(** One round of I/O: the worker moves, then every queue consumed over
    this connection hands its messages to the callback. *)
Definition sim_pump (c : nat) (w : world) : result (list delivery) * world :=
  if negb (conn_open c w) then (Exc connection_is_closed, w)
  else
    let w1 := worker_step w in
    let mine :=
      filter (fun p => bool_decide ((p.1, c) ∈ chans w1)) (consumers w1) in
    let batch := flat_map (fun p => pending p.2 (queues w1)) mine in
    (Ret batch,
     with_queues w1 (fold_left (fun qs p => clear p.2 qs) mine (queues w1))).

Definition sim_channel_close (ch : nat) (w : world) : result unit * world :=
  if chan_open ch w then (Ret tt, drop_chan ch w)
  else (Exc channel_is_closed, w).

Definition sim_connection_close (c : nat) (w : world) : result unit * world :=
  if conn_open c w then
    let closing := filter (fun p => p.2 = c) (chans w) in
    let w1 := fold_left (fun w p => drop_chan p.1 w) closing w in
    (Ret tt, with_conns w1 (filter (fun x => x ≠ c) (conns w1)))
  else (Exc connection_is_closed, w).

Definition sim_uuid4 (w : world) : string * world :=
  ("uuid-" +:+ pretty (next_id w), with_next_id w (S (next_id w))).

#[export] Instance pika : Pika world nat nat := {|
  RABBITMQ_URL := Some "rabbitmq";
  BlockingConnection := sim_connect;
  connection_channel := sim_channel;
  queue_declare := sim_queue_declare;
  queue_delete := sim_queue_delete;
  basic_publish := sim_publish;
  basic_consume := sim_consume;
  process_data_events := sim_pump;
  channel_close := sim_channel_close;
  connection_close := sim_connection_close;
  uuid4 := sim_uuid4;
|}.
End Broker.

(** * The vocabulary of the properties *)

(** A run from world [w] with an empty log. *)
Definition run {W A} (m : M W A) (w : W) : outcome A * (W * list event) :=
  m (w, []).

Definition log_of {W A} (r : outcome A * (W * list event)) : list event := r.2.2.
Definition world_of {W A} (r : outcome A * (W * list event)) : W := r.2.1.

(** ** Runs of connect_to_rabbitmq *)

Section ConnectTerms.
Context {W conn chan : Type} `{!Pika W conn chan}.

(** [refused w es w']: starting in [w], the next attempts raise the
    connection errors [es] one after the other and leave the world [w']. *)
Inductive refused : W -> list exn -> W -> Prop :=
  | refused_nil w : refused w [] w
  | refused_cons w e w1 es w' :
      BlockingConnection RABBITMQ_URL w = (Exc e, w1) ->
      is_AMQPConnectionError e = true ->
      refused w1 es w' ->
      refused w (e :: es) w'.

(** What one trip through the handler logs. *)
Definition retry_events (e : exn) : list event :=
  [EConnect RABBITMQ_URL (Some e); EPrint connect_retry_line; ESleep 5].

Definition retry_log (es : list exn) : list event := flat_map retry_events es.

(** The three ways a run of [fuel] attempts can go. *)
Inductive connect_run (fuel : nat) (w : W) (t : list event)
    : outcome conn * (W * list event) -> Prop :=
  | connect_connected es w1 c w' :
      length es < fuel -> refused w es w1 ->
      BlockingConnection RABBITMQ_URL w1 = (Ret c, w') ->
      connect_run fuel w t
        (Returned c, (w', t ++ retry_log es ++ [EConnect RABBITMQ_URL None]))
  | connect_failed es w1 e w' :
      length es < fuel -> refused w es w1 ->
      BlockingConnection RABBITMQ_URL w1 = (Exc e, w') ->
      is_AMQPConnectionError e = false ->
      connect_run fuel w t
        (Raised e, (w', t ++ retry_log es ++ [EConnect RABBITMQ_URL (Some e)]))
  | connect_retrying es w' :
      length es = fuel -> refused w es w' ->
      connect_run fuel w t (Running, (w', t ++ retry_log es)).
End ConnectTerms.

Definition is_publish (ev : event) : bool :=
  match ev with EPublish _ _ _ _ _ => true | _ => false end.

Definition is_queue_delete (ev : event) : bool :=
  match ev with EQueueDelete _ _ => true | _ => false end.

(** [d[k]] on a dict. *)
Fixpoint dict_get (d : list (string * pyvalue)) (k : string) : option pyvalue :=
  match d with
  | [] => None
  | (k', v) :: d' => if String.eqb k k' then Some v else dict_get d' k
  end.

(** [needle in hay] on strings. *)
Definition contains (needle hay : string) : Prop :=
  exists pre post, hay = pre +:+ needle +:+ post.

(** The calls to [basic_publish] in a log. *)
Definition publishes (l : list event) : list event := List.filter is_publish l.

(** ** Runs of send_otp *)

Section SendOtpTerms.
Context {W conn chan : Type} `{!Pika W conn chan} `{!JsonCodec}.

(** What [send_otp] does once it holds a connection. *)
Definition send_otp_connected (email otp : string) (connection : conn) : M W unit :=
  channel <- open_channel connection ;;
  let message := otp_message email otp in
  try_finally
    (try_except (send_otp_try channel message) send_otp_except)
    (close_channel channel ;;; close_connection connection).

Definition notification_queue : string := "email_notification".
Definition sent_line : string := "Sent OTP email notification".
Definition failed_line (e : exn) : string :=
  "Failed to publish message: " +:+ exn_str e.

Definition passive_declare (r : result string) : event :=
  EQueueDeclare notification_queue true false false r.
Definition durable_declare (r : result string) : event :=
  EQueueDeclare notification_queue false true false r.
Definition publication (body : string) (r : option exn) : event :=
  EPublish "" notification_queue persistent_properties body r.

(** The provisioning step: what it logs and the exception it ends with,
    if any. The queue is declared durable only when the passive declare
    answered with an empty name. *)
Inductive provision_shape : option exn -> list event -> Prop :=
  | provision_found q :
      truthy q = true ->
      provision_shape None [passive_declare (Ret q)]
  | provision_missing e :
      provision_shape (Some e) [passive_declare (Exc e)]
  | provision_unnamed r :
      provision_shape (raised r) [passive_declare (Ret ""); durable_declare r].

(** The [try] block. *)
Inductive try_shape (message : pyvalue) : outcome unit -> list event -> Prop :=
  | try_unprovisioned e pre :
      provision_shape (Some e) pre ->
      try_shape message (Raised e) pre
  | try_unencoded e pre :
      provision_shape None pre -> json_dumps message = Exc e ->
      try_shape message (Raised e) pre
  | try_unpublished e pre body :
      provision_shape None pre -> json_dumps message = Ret body ->
      try_shape message (Raised e) (pre ++ [publication body (Some e)])
  | try_sent pre body :
      provision_shape None pre -> json_dumps message = Ret body ->
      try_shape message (Returned tt)
                (pre ++ [publication body None; EPrint sent_line]).

(** The [except Exception] clause after it. *)
Inductive except_shape : outcome unit -> outcome unit -> list event -> Prop :=
  | except_none : except_shape (Returned tt) (Returned tt) []
  | except_caught e :
      is_Exception e = true ->
      except_shape (Raised e) (Returned tt) [EPrint (failed_line e)]
  | except_passed e :
      is_Exception e = false ->
      except_shape (Raised e) (Raised e) [].

(** The [finally] clause. *)
Inductive finally_shape : option exn -> list event -> Prop :=
  | finally_channel e : finally_shape (Some e) [EChannelClose (Some e)]
  | finally_connection r :
      finally_shape r [EChannelClose None; EConnectionClose r].

Definition after_finally (r : option exn) (o : outcome unit) : outcome unit :=
  match r with Some e => Raised e | None => o end.

(** [send_otp] from the moment it holds a connection. *)
Inductive connected_shape (message : pyvalue) : outcome unit -> list event -> Prop :=
  | connected_no_channel e :
      connected_shape message (Raised e) [EChannel (Some e)]
  | connected_channel o1 l1 o2 l2 r l3 :
      try_shape message o1 l1 ->
      except_shape o1 o2 l2 ->
      finally_shape r l3 ->
      connected_shape message (after_finally r o2)
                      (EChannel None :: l1 ++ l2 ++ l3).

(** The first statements of the [try] block. *)
Definition provision (channel : chan) : M W unit :=
  declared_queue <- declare channel "email_notification" true false false ;;
  let current_durable := declared_queue in
  if truthy current_durable then
    if negb (String.eqb declared_queue current_durable) then
      delete_queue channel "email_notification" ;;;
      _ <- declare channel "email_notification" false true false ;;
      ret tt
    else ret tt
  else
    _ <- declare channel "email_notification" false true false ;;
    ret tt.

(** The rest of it. *)
Definition encode_and_publish (channel : chan) (message : pyvalue) : M W unit :=
  body <- lift (json_dumps message) ;;
  publish channel "" "email_notification" persistent_properties body ;;;
  print "Sent OTP email notification".

(** Every run of [send_otp] is some refused attempts followed by nothing
    (still retrying), by an attempt that raised something else, or by a
    successful attempt and a run of [send_otp_connected]. *)
Inductive send_otp_shape (email otp : string) : outcome unit -> list event -> Prop :=
  | send_otp_retrying es :
      send_otp_shape email otp Running (retry_log es)
  | send_otp_not_connected es e :
      is_AMQPConnectionError e = false ->
      send_otp_shape email otp (Raised e)
                     (retry_log es ++ [EConnect RABBITMQ_URL (Some e)])
  | send_otp_was_connected es o new :
      connected_shape (otp_message email otp) o new ->
      send_otp_shape email otp o
                     (retry_log es ++ EConnect RABBITMQ_URL None :: new).

Definition is_close (ev : event) : bool :=
  match ev with EChannelClose _ | EConnectionClose _ => true | _ => false end.

(** The calls to [close] in a log. *)
Definition closes (l : list event) : list event := List.filter is_close l.
End SendOtpTerms.

(** [d] carries the correlation id [cid]. *)
Definition matching (cid : string) (d : delivery) : bool :=
  bool_decide (correlation_id (d_properties d) = Some cid).

(** The response slot after the messages of [batch] went through the
    callback of a client waiting for [cid]: the body of the last matching
    one, or the slot as it was. *)
Definition deliver (cid : string) (slot : option string) (batch : list delivery)
    : option string :=
  fold_left (fun slot d => if matching cid d then Some (d_body d) else slot)
            batch slot.

(** ** Runs of OcrRpcClient *)

Section RpcTerms.
Context {W conn chan : Type} `{!Pika W conn chan} `{!JsonCodec}.
Implicit Types self : OcrRpcClient conn chan.

(** [quiet c cid w bs w']: from [w], the next rounds of
    [process_data_events] hand over the batches [bs], none of them with a
    message for [cid], and leave the world [w']. *)
Inductive quiet (c : conn) (cid : string) : W -> list (list delivery) -> W -> Prop :=
  | quiet_nil w : quiet c cid w [] w
  | quiet_cons w batch w1 bs w' :
      process_data_events c w = (Ret batch, w1) ->
      Forall (fun d => matching cid d = false) batch ->
      quiet c cid w1 bs w' ->
      quiet c cid w (batch :: bs) w'.

Definition pump_log (bs : list (list delivery)) : list event :=
  map (fun batch => EPump (Ret batch)) bs.

(** The three ways the loop can go within [fuel] rounds. *)
Inductive wait_run (fuel : nat) self (cid : string) (w : W) (t : list event)
    : outcome (OcrRpcClient conn chan) * (W * list event) -> Prop :=
  | wait_replied bs w1 batch w' body :
      length bs < fuel -> quiet (connection self) cid w bs w1 ->
      process_data_events (connection self) w1 = (Ret batch, w') ->
      deliver cid None batch = Some body ->
      wait_run fuel self cid w t
        (Returned (set_response self (Some body)),
         (w', t ++ pump_log bs ++ [EPump (Ret batch)]))
  | wait_broken bs w1 e w' :
      length bs < fuel -> quiet (connection self) cid w bs w1 ->
      process_data_events (connection self) w1 = (Exc e, w') ->
      wait_run fuel self cid w t
        (Raised e, (w', t ++ pump_log bs ++ [EPump (Exc e)]))
  | wait_waiting bs w' :
      length bs = fuel -> quiet (connection self) cid w bs w' ->
      wait_run fuel self cid w t (Running, (w', t ++ pump_log bs)).

(** The object as [call] leaves it before waiting. *)
Definition waiting self (cid : string) : OcrRpcClient conn chan :=
  set_corr_id (set_response self None) (Some cid).

Definition envelope (image_data : pyvalue) : pyvalue :=
  PyDict [("image_data", image_data)].

Definition request self (cid body : string) (r : option exn) : event :=
  EPublish "" "ocr_service" (request_properties (waiting self cid)) body r.

(** In [w] the call draws [cid], encodes the envelope as [body] and gets
    it published; [w'] is the world in which it starts to wait. *)
Definition requested self (image_data : pyvalue) (w : W)
    (cid body : string) (w' : W) : Prop :=
  (uuid4 w).1 = cid /\
  json_dumps (envelope image_data) = Ret body /\
  basic_publish (channel self) "" "ocr_service"
    (request_properties (waiting self cid)) body (uuid4 w).2 = (Ret tt, w').

(** What [call] makes of the end of its loop. *)
Definition decode_reply (r : outcome (OcrRpcClient conn chan) * (W * list event))
    : outcome (pyvalue * OcrRpcClient conn chan) * (W * list event) :=
  match r with
  | (Returned self', s) =>
      match json_loads (response_bytes self') with
      | Ret v => (Returned (v, self'), s)
      | Exc e => (Raised e, s)
      end
  | (Raised e, s) => (Raised e, s)
  | (Running, s) => (Running, s)
  end.

(** Every run of [call]. *)
Inductive call_shape (fuel : nat) self (image_data : pyvalue) (w : W)
    : outcome (pyvalue * OcrRpcClient conn chan) * (W * list event) -> Prop :=
  | call_unencoded e :
      json_dumps (envelope image_data) = Exc e ->
      call_shape fuel self image_data w
        (Raised e, ((uuid4 w).2, [EUuid4 (uuid4 w).1]))
  | call_unpublished body e w' :
      json_dumps (envelope image_data) = Ret body ->
      call_shape fuel self image_data w
        (Raised e,
         (w', [EUuid4 (uuid4 w).1; request self (uuid4 w).1 body (Some e)]))
  | call_waited body w2 r :
      requested self image_data w (uuid4 w).1 body w2 ->
      wait_run fuel (waiting self (uuid4 w).1) (uuid4 w).1 w2
               [EUuid4 (uuid4 w).1; request self (uuid4 w).1 body None] r ->
      call_shape fuel self image_data w (decode_reply r).

(** The request of this call goes out and the next [n] rounds bring
    nothing for it. *)
Definition unanswered self (image_data : pyvalue) (w : W) (n : nat) : Prop :=
  exists body w2 bs w3,
    requested self image_data w (uuid4 w).1 body w2 /\
    quiet (connection self) (uuid4 w).1 w2 bs w3 /\
    length bs = n.

(** The same, and the round after those hands over [batch]. *)
Definition answered self (image_data : pyvalue) (w : W) (n : nat)
    (batch : list delivery) : Prop :=
  exists body w2 bs w3 w4,
    requested self image_data w (uuid4 w).1 body w2 /\
    quiet (connection self) (uuid4 w).1 w2 bs w3 /\
    length bs = n /\
    process_data_events (connection self) w3 = (Ret batch, w4).

(** [batch] has a message for [cid], and each such message has the body
    [reply]: the worker copied the correlation id and sent [reply]. *)
Definition echoes (cid reply : string) (batch : list delivery) : Prop :=
  (exists d, d ∈ batch /\ correlation_id (d_properties d) = Some cid) /\
  (forall d, d ∈ batch -> correlation_id (d_properties d) = Some cid ->
             d_body d = reply).
End RpcTerms.

(** ** Brokers to run against *)

Module Worlds.
Import Broker.
#[local] Existing Instance Broker.pika.
#[local] Existing Instance PyJson.codec.

(** The broker once [auth/main.py] has started: its [lifespan] opened
    connection 0 with channel 1 and declared [email_notification] with
    the default parameters, so the queue exists and is not durable. *)
Definition auth_started : world :=
  {| refusals := Some 0;
     queues := {[ "email_notification" := mk_queue false false [] ]};
     conns := [0]; chans := [(1, 0)]; consumers := [];
     next_id := 2; worker := None; worker_delay := 0;
     publish_fault := None |}.



Definition otp_json : string :=
  Eval vm_compute in PyJson.encode (otp_message "a@b.com" "123456").

Definition unreachable : world :=
  {| refusals := None; queues := ∅; conns := []; chans := []; consumers := [];
     next_id := 0; worker := None; worker_delay := 0; publish_fault := None |}.

(** A broker that refuses the next [n] connections and has no queue. *)
Definition starting (n : nat) : world :=
  {| refusals := Some n; queues := ∅; conns := []; chans := []; consumers := [];
     next_id := 0; worker := None; worker_delay := 0; publish_fault := None |}.

(** The broker once [gateway/main.py] has started and declared
    [ocr_service], with a worker that takes [delay] rounds to answer. *)
Definition gateway_started (f : option (delivery -> list delivery)) (delay : nat)
    : world :=
  {| refusals := Some 0;
     queues := {[ "ocr_service" := mk_queue false false [] ]};
     conns := [0]; chans := [(1, 0)]; consumers := [];
     next_id := 2; worker := f; worker_delay := delay;
     publish_fault := None |}.

(** The client the [/ocr] route creates there, and the broker after it. *)
Definition ocr_rpc : OcrRpcClient nat nat := mk_client 2 3 "amq.gen-4" None None.

Definition gateway_ready (f : option (delivery -> list delivery)) (delay : nat)
    : world :=
  {| refusals := Some 0;
     queues := {[ "ocr_service" := mk_queue false false [];
                  "amq.gen-4" := mk_queue false true [] ]};
     conns := [2; 0]; chans := [(3, 2); (1, 0)]; consumers := [(3, "amq.gen-4")];
     next_id := 5; worker := f; worker_delay := delay;
     publish_fault := None |}.

(** The request [call] publishes there for [payload], and the broker
    once it is published: the request sits in [ocr_service] until the
    worker, if any, takes it. *)
Definition request_for (payload : pyvalue) : delivery :=
  mk_delivery {| reply_to := Some "amq.gen-4"; correlation_id := Some "uuid-5";
                 delivery_mode := None |}
              (PyJson.encode (envelope payload)).

Definition gateway_requested (payload : pyvalue)
    (f : option (delivery -> list delivery)) (delay : nat) : world :=
  {| refusals := Some 0;
     queues := {[ "ocr_service" := mk_queue false false [request_for payload];
                  "amq.gen-4" := mk_queue false true [] ]};
     conns := [2; 0]; chans := [(3, 2); (1, 0)]; consumers := [(3, "amq.gen-4")];
     next_id := 6; worker := f; worker_delay := delay;
     publish_fault := None |}.

(** The reply of a worker that sends [payload] back. *)
Definition reply_for (payload : pyvalue) : delivery :=
  mk_delivery {| reply_to := None; correlation_id := Some "uuid-5";
                 delivery_mode := None |}
              (PyJson.encode payload).

Definition image : pyvalue := PyStr "aGVsbG8=".

(** A stub worker: it answers a request with the JSON text of [payload]
    under the correlation id of the request. *)
Definition echo_worker (payload : pyvalue) (request : delivery) : list delivery :=
  [mk_delivery {| reply_to := None;
                  correlation_id := correlation_id (d_properties request);
                  delivery_mode := None |}
               (PyJson.encode payload)].

(** A reply left over from another call. *)
Definition stale_reply : delivery :=
  mk_delivery {| reply_to := None; correlation_id := Some "uuid-1";
                 delivery_mode := None |}
              (PyJson.encode (PyStr "stale")).

(** The stub worker behind a reply queue that also receives [stale_reply]. *)
Definition noisy_echo_worker (payload : pyvalue) (request : delivery)
    : list delivery :=
  stale_reply :: echo_worker payload request.

(** A worker that sends back the body it received, unchanged: what the call
    returns then is the dict that [call] wrapped the payload in. *)
Definition body_echo_worker (request : delivery) : list delivery :=
  [mk_delivery {| reply_to := None;
                  correlation_id := correlation_id (d_properties request);
                  delivery_mode := None |}
               (d_body request)].
End Worlds.

(** ** A service started without [RABBITMQ_URL]

    [os.getenv] answers [None] for a variable that is not set, and
    [pika.ConnectionParameters(None)] raises [TypeError] before a socket is
    opened. With a host the broker is the one of [Broker]. *)
Module Unconfigured.
Definition host_must_be_str : exn :=
  mk_exn TypeError "host must be a str or unicode str, but got None".

Definition sim_connect (host : option string) (w : Broker.world)
    : result nat * Broker.world :=
  match host with
  | None => (Exc host_must_be_str, w)
  | Some _ => Broker.sim_connect host w
  end.

#[export] Instance pika : Pika Broker.world nat nat := {|
  RABBITMQ_URL := None;
  BlockingConnection := sim_connect;
  connection_channel := Broker.sim_channel;
  queue_declare := Broker.sim_queue_declare;
  queue_delete := Broker.sim_queue_delete;
  basic_publish := Broker.sim_publish;
  basic_consume := Broker.sim_consume;
  process_data_events := Broker.sim_pump;
  channel_close := Broker.sim_channel_close;
  connection_close := Broker.sim_connection_close;
  uuid4 := Broker.sim_uuid4;
|}.
End Unconfigured.
(** * The services around the messaging core

    The rest of [auth/service.py], the routes and start-up of
    [auth/main.py] and [gateway/main.py], and the health check of
    [auth/check_services.py]. They run in [App], which adds to [M] the
    exceptions and the calls of the other libraries they use. *)

(** ** hashlib.sha256

    SHA-256 (FIPS 180-4) on byte strings, with the digest written as
    [hexdigest] writes it. A 32-bit word is a number below [2^32]. *)
Module Hashlib.
Definition mask32 : N := 4294967295.

Definition add32 (x y : N) : N := N.land (x + y) mask32.

Definition rotr (n x : N) : N :=
  N.lor (N.shiftr x n) (N.land (N.shiftl x (32 - n)) mask32).

Definition Ch (x y z : N) : N :=
  N.lxor (N.land x y) (N.land (N.lxor x mask32) z).

Definition Maj (x y z : N) : N :=
  N.lxor (N.lxor (N.land x y) (N.land x z)) (N.land y z).

Definition Sigma0 (x : N) : N := N.lxor (N.lxor (rotr 2 x) (rotr 13 x)) (rotr 22 x).
Definition Sigma1 (x : N) : N := N.lxor (N.lxor (rotr 6 x) (rotr 11 x)) (rotr 25 x).
Definition sigma0 (x : N) : N := N.lxor (N.lxor (rotr 7 x) (rotr 18 x)) (N.shiftr x 3).
Definition sigma1 (x : N) : N := N.lxor (N.lxor (rotr 17 x) (rotr 19 x)) (N.shiftr x 10).

Definition K : list N :=
  [1116352408; 1899447441; 3049323471; 3921009573; 961987163; 1508970993;
   2453635748; 2870763221; 3624381080; 310598401; 607225278; 1426881987;
   1925078388; 2162078206; 2614888103; 3248222580; 3835390401; 4022224774;
   264347078; 604807628; 770255983; 1249150122; 1555081692; 1996064986;
   2554220882; 2821834349; 2952996808; 3210313671; 3336571891; 3584528711;
   113926993; 338241895; 666307205; 773529912; 1294757372; 1396182291;
   1695183700; 1986661051; 2177026350; 2456956037; 2730485921; 2820302411;
   3259730800; 3345764771; 3516065817; 3600352804; 4094571909; 275423344;
   430227734; 506948616; 659060556; 883997877; 958139571; 1322822218;
   1537002063; 1747873779; 1955562222; 2024104815; 2227730452; 2361852424;
   2428436474; 2756734187; 3204031479; 3329325298]%N.

Definition state : Type := N * N * N * N * N * N * N * N.

Definition H0 : state :=
  (1779033703, 3144134277, 1013904242, 2773480762,
   1359893119, 2600822924, 528734635, 1541459225)%N.

(** The message followed by the bit 1, zeros up to 56 modulo 64 bytes, and
    the length in bits as a 64-bit big-endian number. *)
Definition big_endian (bytes : nat) (x : N) : list N :=
  map (fun i => N.land (N.shiftr x (8 * N.of_nat i)) 255) (rev (seq 0 bytes)).

Definition pad (message : list N) : list N :=
  let l := length message in
  message ++ [128%N] ++ replicate ((119 - l mod 64) mod 64) 0%N
          ++ big_endian 8 (8 * N.of_nat l).

Fixpoint words (bytes : list N) : list N :=
  match bytes with
  | a :: b :: c :: d :: rest =>
      (N.shiftl a 24 + N.shiftl b 16 + N.shiftl c 8 + d)%N :: words rest
  | _ => []
  end.

(** The message schedule, latest word first. *)
Fixpoint extend (n : nat) (w : list N) : list N :=
  match n with
  | O => w
  | S n' =>
      let at_ i := nth i w 0%N in
      extend n' (add32 (add32 (add32 (sigma1 (at_ 1)) (at_ 6)) (sigma0 (at_ 14)))
                       (at_ 15) :: w)
  end.

Definition schedule (block : list N) : list N := rev (extend 48 (rev block)).

Definition round (s : state) (kw : N * N) : state :=
  let '(a, b, c, d, e, f, g, h) := s in
  let t1 := add32 (add32 (add32 (add32 h (Sigma1 e)) (Ch e f g)) kw.1) kw.2 in
  let t2 := add32 (Sigma0 a) (Maj a b c) in
  (add32 t1 t2, a, b, c, add32 d t1, e, f, g).

Definition compress (s : state) (block : list N) : state :=
  let '(a, b, c, d, e, f, g, h) := s in
  let '(a', b', c', d', e', f', g', h') :=
    fold_left round (zip K (schedule block)) s in
  (add32 a a', add32 b b', add32 c c', add32 d d',
   add32 e e', add32 f f', add32 g g', add32 h h').

Fixpoint blocks (n : nat) (s : state) (ws : list N) : state :=
  match n with
  | O => s
  | S n' => blocks n' (compress s (take 16 ws)) (drop 16 ws)
  end.

Definition sha256 (message : list N) : state :=
  let ws := words (pad message) in
  blocks (length ws / 16) H0 ws.

Definition hex_digit (n : N) : ascii :=
  ascii_of_N (if (n <? 10)%N then 48 + n else 87 + n).

Definition nibble (x : N) (i : N) : ascii :=
  hex_digit (N.land (N.shiftr x (4 * i)) 15).

Definition hex8 (x : N) (rest : string) : string :=
  String (nibble x 7) (String (nibble x 6) (String (nibble x 5)
  (String (nibble x 4) (String (nibble x 3) (String (nibble x 2)
  (String (nibble x 1) (String (nibble x 0) rest))))))).

Definition bytes_of (s : string) : list N :=
  map N_of_ascii (list_ascii_of_string s).

(** [hashlib.sha256(s).hexdigest()] *)
Definition sha256_hexdigest (s : string) : string :=
  let '(a, b, c, d, e, f, g, h) := sha256 (bytes_of s) in
  hex8 a (hex8 b (hex8 c (hex8 d (hex8 e (hex8 f (hex8 g (hex8 h ""))))))).

End Hashlib.

(** ** auth/service.py: passwords and one-time codes *)

(** [_prepare_password]. A password is held as its UTF-8 encoding, one
    character per byte, so that [String.length] is the length the code
    compares with 72; the hexadecimal digest is its own encoding. *)
Definition _prepare_password (password : string) : string :=
  if 72 <? String.length password
  then Hashlib.sha256_hexdigest password
  else password.

(** [random.randint(a, b)] draws from the world; what the library promises
    is the range. *)
Class Random (W : Type) := {
  randint : Z -> Z -> W -> Z * W;
  randint_range a b w : (a <= b)%Z -> (a <= (randint a b w).1 <= b)%Z;
}.

(** [generate_otp]; [str] of an [int] is its decimal numeral. *)
Definition generate_otp {W} `{!Random W} (w : W) : string * W :=
  let '(n, w') := randint 100000 999999 w in (pretty n, w').

(** ** base64.b64encode *)

Module Base64.
Definition b64_char (n : N) : ascii :=
  ascii_of_N (if (n <? 26)%N then 65 + n
              else if (n <? 52)%N then 71 + n
              else if (n <? 62)%N then n - 4
              else if (n =? 62)%N then 43 else 47).

Fixpoint encode (bytes : list N) : string :=
  match bytes with
  | a :: b :: c :: rest =>
      let n := (a * 65536 + b * 256 + c)%N in
      String (b64_char (n / 262144)) (String (b64_char (n / 4096 mod 64))
        (String (b64_char (n / 64 mod 64)) (String (b64_char (n mod 64))
          (encode rest))))
  | [a; b] =>
      let n := (a * 65536 + b * 256)%N in
      String (b64_char (n / 262144)) (String (b64_char (n / 4096 mod 64))
        (String (b64_char (n / 64 mod 64)) "="))
  | [a] =>
      let n := (a * 65536)%N in
      String (b64_char (n / 262144)) (String (b64_char (n / 4096 mod 64)) "==")
  | [] => ""
  end.

(** [base64.b64encode(data).decode()] *)
Definition b64encode (data : string) : string := encode (Hashlib.bytes_of data).
End Base64.

(** ** The service layer: routes over a database, HTTP and files

    The routes raise and catch exceptions of more libraries than the broker
    code does, and call more of the outside world. *)

Inductive app_exn :=
  | Library (e : exn)                     (* raised by pika, json or uuid *)
  | OperationalError (msg : string)       (* sqlalchemy.exc.OperationalError *)
  | DatabaseUnavailable (msg : string)    (* service.DatabaseUnavailable *)
  | HTTPException (status_code : Z) (detail : pyvalue)
  | EmailNotValidError (msg : string)     (* email_validator *)
  | ConnectionError (msg : string)        (* requests.exceptions.ConnectionError *)
  | DecodeError (msg : string)            (* jwt.exceptions.DecodeError *)
  | Psycopg2OperationalError (msg : string)
  | KeyError (key : string)
  | OtherException (name msg : string).   (* any other subclass of Exception *)

(** [isinstance(e, Exception)] *)
Definition app_is_Exception (e : app_exn) : bool :=
  match e with Library e => is_Exception e | _ => true end.

Inductive app_result (A : Type) :=
  | Value (a : A)
  | Throws (e : app_exn).
Arguments Value {A} a.
Arguments Throws {A} e.

Definition failure {A} (r : app_result A) : option app_exn :=
  match r with Value _ => None | Throws e => Some e end.

Inductive log_level := INFO | ERROR.

(** Every call of a route to the outside world. [Logging level text e] is
    a call of [logging.info] or [logging.error] with [text], followed by
    [str(e)] when an exception is formatted into the message. [Stdout text e r]
    is a call of [print] with [text], followed by [str(e)] likewise, and
    the exception the call raised, if any. *)
Inductive app_event :=
  | Amqp (ev : event)
  | Logging (level : log_level) (text : string) (e : option app_exn)
  | DbCreateAll (r : option app_exn)
  | DbFirst (email : string) (r : option app_exn)
  | DbGet (id : pyvalue) (r : option app_exn)
  | DbStoreOtp (otp : string) (r : option app_exn)
  | DbInsert (email name hashed_password : string) (r : option app_exn)
  | ValidateEmail (email : string) (r : app_result string)
  | BcryptHash (secret : string) (r : app_result string)
  | Post (url : string) (json : pyvalue) (r : app_result Z)
  | FileWrite (name data : string) (r : option app_exn)
  | FileRead (name : string) (r : app_result string)
  | FileRemove (name : string) (r : option app_exn)
  | PgConnect (r : option app_exn)
  | PgClose (r : option app_exn)
  | Stdout (text : string) (e : option app_exn) (r : option app_exn).

Inductive app_outcome (A : Type) :=
  | Done (a : A)
  | Failed (e : app_exn)
  | Pending.
Arguments Done {A} a.
Arguments Failed {A} e.
Arguments Pending {A}.

Definition App (W A : Type) : Type :=
  W * list app_event -> app_outcome A * (W * list app_event).

Section AppRuntime.
Context {W : Type}.

Definition app_ret {A} (a : A) : App W A := fun s => (Done a, s).
Definition app_raise {A} (e : app_exn) : App W A := fun s => (Failed e, s).

Definition app_bind {A B} (m : App W A) (k : A -> App W B) : App W B :=
  fun s => match m s with
           | (Done a, s') => k a s'
           | (Failed e, s') => (Failed e, s')
           | (Pending, s') => (Pending, s')
           end.

(** [try: m / except ...: h], as [try_except]. *)
Definition app_try {A} (m : App W A) (h : app_exn -> option (App W A)) : App W A :=
  fun s => match m s with
           | (Failed e, s') =>
               match h e with
               | Some k => k s'
               | None => (Failed e, s')
               end
           | other => other
           end.

Definition app_lift {A} (r : app_result A) : App W A :=
  match r with Value a => app_ret a | Throws e => app_raise e end.

Definition app_perform {A} (op : W -> app_result A * W)
    (log : app_result A -> app_event) : App W A :=
  fun '(w, t) =>
    let '(r, w') := op w in
    (match r with Value a => Done a | Throws e => Failed e end, (w', t ++ [log r])).

(** Code of the broker layer run from a route. *)
Definition from_M {A} (m : M W A) : App W A :=
  fun '(w, t) =>
    let '(o, (w', l)) := m (w, []) in
    (match o with
     | Returned a => Done a
     | Raised e => Failed (Library e)
     | Running => Pending
     end, (w', t ++ map Amqp l)).

Definition logging_info (text : string) : App W unit :=
  fun '(w, t) => (Done tt, (w, t ++ [Logging INFO text None])).

Definition logging_error (text : string) (e : app_exn) : App W unit :=
  fun '(w, t) => (Done tt, (w, t ++ [Logging ERROR text (Some e)])).
End AppRuntime.

Declare Scope app_scope.
Delimit Scope app_scope with app.
Notation "x <- m ;; k" := (app_bind m (fun x => k))
  (at level 100, m at next level, right associativity) : app_scope.
Notation "m ;;; k" := (app_bind m (fun _ => k))
  (at level 100, right associativity) : app_scope.

(** [d[k]] and [del d[k]] *)
Definition subscript (d : pyvalue) (k : string) : app_result pyvalue :=
  match d with
  | PyDict d =>
      match dict_get d k with
      | Some v => Value v
      | None => Throws (KeyError k)
      end
  | _ => Throws (Library (mk_exn TypeError "object is not subscriptable"))
  end.

Definition dict_del (d : list (string * pyvalue)) (k : string)
    : app_result (list (string * pyvalue)) :=
  match dict_get d k with
  | Some _ => Value (List.filter (fun kv => negb (String.eqb k kv.1)) d)
  | None => Throws (KeyError k)
  end.

(** The database session and the [User] model ([models.py], [database.py]):
    the two queries of the code, what it reads off a [User] and the writes
    it commits. A [User] object is truthy. *)
Class Database (W user : Type) := {
  create_all : W -> app_result unit * W;
  first_by_email : string -> W -> app_result (option user) * W;
  get_by_id : pyvalue -> W -> app_result (option user) * W;
  is_verified : user -> bool;
  verify_password : user -> string -> app_result bool;
  store_otp : user -> string -> W -> app_result unit * W;
  insert_user : string -> string -> string -> W -> app_result user * W;
}.

(** [schemas.User.from_orm], the dict of its [model_dump], and PyJWT with
    the secret and algorithm of the module. *)
Class Tokens (user : Type) := {
  from_orm : option user -> app_result pyvalue;
  model_dump : user -> app_result (list (string * pyvalue));
  jwt_encode : list (string * pyvalue) -> app_result string;
  jwt_decode : string -> app_result pyvalue;
}.

(** [email_validator.validate_email(...).email] and [bcrypt.hash]. *)
Class Registration (W : Type) := {
  validate_email : string -> W -> app_result string * W;
  bcrypt_hash : string -> W -> app_result string * W;
}.

Module AuthService.
Section AuthService.
Context {W conn chan user : Type} `{!Pika W conn chan} `{!JsonCodec}
  `{!Database W user} `{!Tokens user} `{!Registration W} `{!Random W}.
#[local] Open Scope app_scope.

Definition database_is_unavailable : app_exn :=
  DatabaseUnavailable "Database is unavailable".

(** [except _sa_exc.OperationalError: raise DatabaseUnavailable(...)] *)
Definition on_operational_error {A} (e : app_exn) : option (App W A) :=
  match e with
  | OperationalError _ => Some (app_raise database_is_unavailable)
  | _ => None
  end.

Definition get_user_by_email (email : string) : App W (option user) :=
  app_try
    (app_perform (first_by_email email) (fun r => DbFirst email (failure r)))
    on_operational_error.

Definition create_user (name email password : string) : App W user :=
  email <- app_try
    (app_perform (validate_email email) (ValidateEmail email))
    (fun e => match e with
              | EmailNotValidError _ =>
                  Some (app_raise (HTTPException 404 (PyStr "Please enter a valid email")))
              | _ => None
              end) ;;
  app_try
    (let password_prepared := _prepare_password password in
     hashed_password <- app_perform (bcrypt_hash password_prepared)
                                    (BcryptHash password_prepared) ;;
     app_perform (insert_user email name hashed_password)
                 (fun r => DbInsert email name hashed_password (failure r)))
    on_operational_error.

(** What [authenticate_user] returns: [False], the string
    ['is_verified_false'], or the user. *)
Inductive authenticated :=
  | NotAuthenticated
  | IsVerifiedFalse
  | Authenticated (u : user).

Definition authenticate_user (email password : string) : App W authenticated :=
  user <- get_user_by_email email ;;
  match user with
  | None => app_ret NotAuthenticated
  | Some user =>
      if negb (is_verified user) then app_ret IsVerifiedFalse
      else
        ok <- app_lift (verify_password user password) ;;
        if negb ok then app_ret NotAuthenticated
        else app_ret (Authenticated user)
  end.

Definition create_token (user : user) : App W pyvalue :=
  user_dict <- app_lift (model_dump user) ;;
  user_dict <- app_lift (dict_del user_dict "date_created") ;;
  token <- app_lift (jwt_encode user_dict) ;;
  app_ret (PyDict [("access_token", PyStr token); ("token_type", PyStr "bearer")]).

Definition invalid_email_or_password : app_exn :=
  HTTPException 401 (PyStr "Invalid Email or Password").

(** [get_current_user]; the outer clause is a bare [except:]. *)
Definition get_current_user (token : string) : App W pyvalue :=
  user <- app_try
    (payload <- app_lift (jwt_decode token) ;;
     app_try
       (id <- app_lift (subscript payload "id") ;;
        app_perform (get_by_id id) (fun r => DbGet id (failure r)))
       on_operational_error)
    (fun _ => Some (app_raise invalid_email_or_password)) ;;
  app_lift (from_orm user).

(** [generate_otp] as a step of a route. *)
Definition draw_otp : App W string :=
  fun '(w, t) => let '(otp, w') := generate_otp w in (Done otp, (w', t)).
End AuthService.
End AuthService.

(** ** auth/main.py *)

Module AuthMain.
Import AuthService.
Section AuthMain.
Context {W conn chan user : Type} `{!Pika W conn chan} `{!JsonCodec}
  `{!Database W user} `{!Tokens user} `{!Registration W} `{!Random W}.
#[local] Open Scope app_scope.

Definition rabbitmq_failed {A} (globals : A) (e : app_exn) : option (App W A) :=
  if app_is_Exception e
  then Some (logging_error "Failed to connect to RabbitMQ: " e ;;; app_ret globals)
  else None.

(** The first [try] block of [lifespan]. *)
Definition create_tables : App W unit :=
  app_try
    (app_perform create_all (fun r => DbCreateAll (failure r)) ;;;
     logging_info "Database tables created or already exist")
    (fun e =>
       if app_is_Exception e
       then Some (logging_error "Failed to connect to database: " e)
       else None).

(** The second one. It returns the module's globals [connection] and
    [channel] as it leaves them: assigned up to the statement that raised. *)
Definition connect_broker : App W (option conn * option chan) :=
  app_try
    (connection <- from_M (connect (Some "localhost")) ;;
     app_try
       (channel <- from_M (open_channel connection) ;;
        app_try
          (from_M (declare channel "email_notification" false false false) ;;;
           logging_info "Connected to RabbitMQ" ;;;
           app_ret (Some connection, Some channel))
          (rabbitmq_failed (Some connection, Some channel)))
       (rabbitmq_failed (Some connection, None)))
    (rabbitmq_failed (None, None)).

(** [lifespan] up to its [yield]. *)
Definition lifespan : App W (option conn * option chan) :=
  create_tables ;;; connect_broker.

Definition database_service_is_unavailable : app_exn :=
  HTTPException 503 (PyStr "Database service is unavailable").

Definition on_database_unavailable {A} (e : app_exn) : option (App W A) :=
  match e with
  | DatabaseUnavailable _ => Some (app_raise database_service_is_unavailable)
  | _ => None
  end.

Definition verification_pending : string :=
  "Email verification is pending. Please verify your email to proceed.".

(** The route [POST /api/token]. *)
Definition generate_token (username password : string) : App W pyvalue :=
  app_try
    (user <- authenticate_user username password ;;
     match user with
     | IsVerifiedFalse =>
         logging_info "Email verification is pending. Please verify your email to proceed. " ;;;
         app_raise (HTTPException 403 (PyStr verification_pending))
     | NotAuthenticated =>
         logging_info "Invalid Credentials" ;;;
         app_raise (HTTPException 401 (PyStr "Invalid Credentials"))
     | Authenticated user =>
         logging_info "JWT Token Generated" ;;;
         create_token user
     end)
    on_database_unavailable.

Definition otp_sent : string := "OTP sent to your email".

(** The route [POST /api/users/generate_otp]; [channel] is the module's
    global. *)
Definition send_otp_mail (fuel : nat) (channel : option chan) (email : string)
    : App W string :=
  app_try
    (user <- get_user_by_email email ;;
     match user with
     | None => app_raise (HTTPException 404 (PyStr "User not found"))
     | Some user =>
         if is_verified user
         then app_raise (HTTPException 400 (PyStr "User is already verified"))
         else
           otp <- draw_otp ;;
           from_M (print otp) ;;;
           from_M (send_otp fuel email otp channel) ;;;
           app_perform (store_otp user otp) (fun r => DbStoreOtp otp (failure r)) ;;;
           app_ret otp_sent
     end)
    (fun e =>
       match e with
       | DatabaseUnavailable _ | OperationalError _ =>
           Some (app_raise database_service_is_unavailable)
       | _ => None
       end).
End AuthMain.
End AuthMain.

(** ** gateway/main.py *)

(** [requests.post(url, json=...)]: the status of the response and what
    its [json()] gives. *)
Record http_response := mk_response {
  response_status : Z;
  response_json : app_result pyvalue;
}.

Class Requests (W : Type) := {
  AUTH_BASE_URL : option string;
  requests_post : string -> pyvalue -> W -> app_result http_response * W;
}.

(** [open(name, "wb").write], [open(name, "rb").read] and [os.remove]. *)
Class Files (W : Type) := {
  file_write : string -> string -> W -> app_result unit * W;
  file_read : string -> W -> app_result string * W;
  os_remove : string -> W -> app_result unit * W;
}.

Module GatewayMain.
Section GatewayMain.
Context {W conn chan : Type} `{!Pika W conn chan} `{!JsonCodec}
  `{!Requests W} `{!Files W}.
#[local] Open Scope app_scope.

(** [lifespan] up to its [yield]; nothing in the module reads the globals
    it assigns. *)
Definition lifespan : App W unit :=
  app_try
    (connection <- from_M (connect RABBITMQ_URL) ;;
     channel <- from_M (open_channel connection) ;;
     from_M (declare channel "gatewayservice" false false false) ;;;
     from_M (declare channel "ocr_service" false false false) ;;;
     logging_info "Connected to RabbitMQ and declared queues")
    (fun e =>
       if app_is_Exception e
       then Some (logging_error "Failed to connect to RabbitMQ: " e)
       else None).

(** [f"{AUTH_BASE_URL}{path}"] *)
Definition auth_url (path : string) : string :=
  default "None" AUTH_BASE_URL +:+ path.

Definition post (url : string) (json : pyvalue) : App W http_response :=
  app_perform (requests_post url json)
    (fun r => Post url json
                (match r with
                 | Value response => Value (response_status response)
                 | Throws e => Throws e
                 end)).

(** The statements the four forwarding routes share: the request and what
    is made of the response. *)
Definition forward (path : string) (json : pyvalue) (expected : Z) : App W pyvalue :=
  response <- post (auth_url path) json ;;
  if (response_status response =? expected)%Z
  then app_lift (response_json response)
  else
    detail <- app_lift (response_json response) ;;
    app_raise (HTTPException (response_status response) detail).

Definition service_unavailable : app_exn :=
  HTTPException 503 (PyStr "Authentication service is unavailable").
Definition internal_server_error : app_exn :=
  HTTPException 500 (PyStr "Internal Server Error").

(** ... and their two [except] clauses. *)
Definition forward_failed {A} (text : string) (e : app_exn) : option (App W A) :=
  match e with
  | ConnectionError _ => Some (app_raise service_unavailable)
  | _ =>
      if app_is_Exception e
      then Some (logging_error text e ;;; app_raise internal_server_error)
      else None
  end.

Definition login (username password : string) : App W pyvalue :=
  app_try
    (forward "/api/token"
       (PyDict [("username", PyStr username); ("password", PyStr password)]) 200)
    (forward_failed "Error during login: ").

Definition registration (name email password : string) : App W pyvalue :=
  app_try
    (from_M (print (default "None" AUTH_BASE_URL)) ;;;
     forward "/api/users"
       (PyDict [("name", PyStr name); ("email", PyStr email);
                ("password", PyStr password)]) 201)
    (forward_failed "Error during registration: ").

Definition generate_otp (email : string) : App W pyvalue :=
  app_try
    (forward "/api/users/generate_otp" (PyDict [("email", PyStr email)]) 200)
    (forward_failed "Error during OTP generation: ").


(** The route [POST /ocr]; [payload] is the dict its dependency
    [jwt_validation] decoded from the token. *)
Definition ocr (fuel : nat) (filename upload : string) (payload : pyvalue)
    : App W pyvalue :=
  app_perform (file_write filename upload)
              (fun r => FileWrite filename upload (failure r)) ;;;
  ocr_rpc <- from_M OcrRpcClient_init ;;
  file_data <- app_perform (file_read filename) (FileRead filename) ;;
  let file_base64 := Base64.b64encode file_data in
  user_name <- app_lift (subscript payload "name") ;;
  user_email <- app_lift (subscript payload "email") ;;
  user_id <- app_lift (subscript payload "id") ;;
  let request_json :=
    PyDict [("user_name", user_name); ("user_email", user_email);
            ("user_id", user_id); ("file", PyStr file_base64)] in
  response <- from_M (call fuel ocr_rpc request_json) ;;
  app_perform (os_remove filename) (fun r => FileRemove filename (failure r)) ;;;
  app_ret response.1.
End GatewayMain.
End GatewayMain.

(** ** auth/check_services.py *)

Class Postgres (W pgconn : Type) := {
  psycopg2_connect : W -> app_result pgconn * W;
  pgconn_close : pgconn -> W -> app_result unit * W;
}.

(** [print] writes to [sys.stdout] and raises what the stream raises:
    [UnicodeEncodeError] when the encoding of the stream lacks a character
    of the line, as ascii and cp1252 lack the status marks of this script,
    [OSError] on a closed pipe. [stdout_print text None] is [print(text)],
    and [stdout_print text (Some e)] is [print] of [text] followed by
    [str(e)]. *)
Class Console (W : Type) := {
  stdout_print : string -> option app_exn -> W -> app_result unit * W;
}.

Module CheckServices.
Section CheckServices.
Context {W conn chan pgconn : Type} `{!Pika W conn chan} `{!Postgres W pgconn}
  `{!Console W}.
#[local] Open Scope app_scope.

Definition say (line : string) : App W unit :=
  app_perform (stdout_print line None) (fun r => Stdout line None (failure r)).

(** [print(f"...{e}")] *)
Definition say_error (text : string) (e : app_exn) : App W unit :=
  app_perform (stdout_print text (Some e))
              (fun r => Stdout text (Some e) (failure r)).

Definition postgresql_ok_line : string := "✅ PostgreSQL is running and accessible".
Definition postgresql_down_text : string := "❌ PostgreSQL is NOT accessible: ".
Definition postgresql_hint_line : string := "   Please start PostgreSQL service".

(** [check_postgresql]; [psycopg2_connect] stands for the call with the
    four [POSTGRES_*] variables of the environment. *)
Definition check_postgresql : App W bool :=
  app_try
    (conn <- app_perform psycopg2_connect (fun r => PgConnect (failure r)) ;;
     app_perform (pgconn_close conn) (fun r => PgClose (failure r)) ;;;
     say postgresql_ok_line ;;;
     app_ret true)
    (fun e =>
       match e with
       | Psycopg2OperationalError _ =>
           Some (say_error postgresql_down_text e ;;;
                 say postgresql_hint_line ;;;
                 app_ret false)
       | _ => None
       end).

Definition rabbitmq_ok_line : string := "✅ RabbitMQ is running and accessible".
Definition rabbitmq_down_text : string := "❌ RabbitMQ is NOT accessible: ".
Definition rabbitmq_hint_line : string := "   Please start RabbitMQ service".

(** [check_rabbitmq]; [os.environ.get] is given a default here. *)
Definition check_rabbitmq : App W bool :=
  app_try
    (let rabbitmq_host := default "localhost" RABBITMQ_URL in
     connection <- from_M (connect (Some rabbitmq_host)) ;;
     from_M (close_connection connection) ;;;
     say rabbitmq_ok_line ;;;
     app_ret true)
    (fun e =>
       if app_is_Exception e then
         Some (say_error rabbitmq_down_text e ;;;
               say rabbitmq_hint_line ;;;
               app_ret false)
       else None).

Definition checking_line : string :=
  LF +:+ "=== Checking External Services ===" +:+ LF.
Definition summary_line : string := LF +:+ "=== Summary ===".
Definition all_running_line : string :=
  "✅ All services are running. You can start the auth service.".
Definition returns_503_line : string :=
  "   Database-dependent endpoints will return 503 errors.".

(** The end of the [__main__] block, from the summary on. *)
Definition report (postgres_ok rabbitmq_ok : bool) : App W unit :=
  say summary_line ;;;
  if postgres_ok && rabbitmq_ok
  then say all_running_line
  else
    say "⚠️  Some services are not available." ;;;
    say "   The auth service will start but may have limited functionality." ;;;
    say returns_503_line.

(** The [__main__] block. *)
Definition main : App W unit :=
  say checking_line ;;;
  postgres_ok <- check_postgresql ;;
  rabbitmq_ok <- check_rabbitmq ;;
  report postgres_ok rabbitmq_ok.

(** [e] was raised in the [try] block of [check_rabbitmq]: by the
    connection attempt at [host], by the close, or by the print of the
    success line. *)
Definition raised_in_try (host : option string) (e : app_exn)
    (l : list app_event) : Prop :=
  (exists e', e = Library e' /\
              (Amqp (EConnect host (Some e')) ∈ l \/
               Amqp (EConnectionClose (Some e')) ∈ l))
  \/ Stdout rabbitmq_ok_line None (Some e) ∈ l.
End CheckServices.
End CheckServices.

(** * More vocabulary *)

Definition is_connect (ev : event) : bool :=
  match ev with EConnect _ _ => true | _ => false end.

Definition is_sleep (ev : event) : bool :=
  match ev with ESleep _ => true | _ => false end.

Definition is_declare (ev : event) : bool :=
  match ev with EQueueDeclare _ _ _ _ _ => true | _ => false end.

(** The calls to [queue_declare] in a log. *)
Definition declares (l : list event) : list event := List.filter is_declare l.

(** A run of a route from world [w] with an empty log. *)
Definition run_app {W A} (m : App W A) (w : W)
    : app_outcome A * (W * list app_event) := m (w, []).


(** The broker events of a log, in order. *)
Definition amqp_of (l : list app_event) : list event :=
  omap (fun ev => match ev with Amqp ev => Some ev | _ => None end) l.



Definition is_digit (c : ascii) : bool :=
  let n := N_of_ascii c in ((48 <=? n) && (n <=? 57))%N.

(** The answer of a route whose handler turns [DatabaseUnavailable] into
    503. *)
Definition handled_503 {W A} (o : app_outcome A * (W * list app_event))
    : app_outcome A * (W * list app_event) :=
  match o with
  | (Failed (DatabaseUnavailable _), s) =>
      (Failed AuthMain.database_service_is_unavailable, s)
  | other => other
  end.


Definition is_remove (ev : app_event) : bool :=
  match ev with FileRemove _ _ => true | _ => false end.

(** The calls to [os.remove] in a log. *)
Definition removes (l : list app_event) : list app_event := List.filter is_remove l.



(** The JSON document the [/ocr] route sends for a user and a file. *)
Definition ocr_request (user_name user_email user_id : pyvalue) (file_data : string)
    : pyvalue :=
  PyDict [("user_name", user_name); ("user_email", user_email);
          ("user_id", user_id); ("file", PyStr (Base64.b64encode file_data))].

Section GatewayTerms.
Context {W : Type} `{!Requests W}.


End GatewayTerms.

(** ** A site to run the routes against

    The broker of [Broker] next to a small user table, a database that can
    go down after a number of calls, a die for [random.randint], a file
    system, and a stub for the auth service as the gateway reaches it. A
    token is the JSON text of its payload, a stand-in for a signed one, and
    the stand-in for bcrypt puts a prefix before the secret. *)
Module Site.
Import Broker.

Record account := mk_account {
  account_id : Z;
  account_name : string;
  account_email : string;
  account_verified : bool;
  account_password : string;
  account_otp : option string;
}.

Record world := mk_site {
  broker : Broker.world;
  accounts : list account;
  database_budget : option nat;  (* database calls that still succeed; None: all *)
  die : Z;                       (* what [randint] draws, brought into range *)
  files : gmap string string;
  auth_service : option (string -> pyvalue -> http_response);
                                 (* the answer to a POST; None: unreachable *)
}.

Definition with_broker (w : world) (b : Broker.world) : world :=
  mk_site b (accounts w) (database_budget w) (die w) (files w) (auth_service w).
Definition with_accounts (w : world) (a : list account) : world :=
  mk_site (broker w) a (database_budget w) (die w) (files w) (auth_service w).
Definition with_database_budget (w : world) (n : option nat) : world :=
  mk_site (broker w) (accounts w) n (die w) (files w) (auth_service w).
Definition with_files (w : world) (f : gmap string string) : world :=
  mk_site (broker w) (accounts w) (database_budget w) (die w) f (auth_service w).

Definition on_broker {A} (op : Broker.world -> A * Broker.world) (w : world)
    : A * world :=
  let '(a, b) := op (broker w) in (a, with_broker w b).

#[export] Instance pika : Pika world nat nat := {|
  RABBITMQ_URL := Some "rabbitmq";
  BlockingConnection host := on_broker (sim_connect host);
  connection_channel c := on_broker (sim_channel c);
  queue_declare ch queue passive durable exclusive :=
    on_broker (sim_queue_declare ch queue passive durable exclusive);
  queue_delete ch queue := on_broker (sim_queue_delete ch queue);
  basic_publish ch exchange routing_key properties body :=
    on_broker (sim_publish ch exchange routing_key properties body);
  basic_consume ch queue auto_ack := on_broker (sim_consume ch queue auto_ack);
  process_data_events c := on_broker (sim_pump c);
  channel_close ch := on_broker (sim_channel_close ch);
  connection_close c := on_broker (sim_connection_close c);
  uuid4 := on_broker sim_uuid4;
|}.

Definition database_down : app_exn :=
  OperationalError "could not connect to server".

(** One call to the database: it goes through while the budget lasts. *)
Definition query {A} (f : world -> A * world) (w : world) : app_result A * world :=
  match database_budget w with
  | None => let '(a, w') := f w in (Value a, w')
  | Some (S n) =>
      let '(a, w') := f (with_database_budget w (Some n)) in (Value a, w')
  | Some O => (Throws database_down, w)
  end.

Definition has_email (email : string) (a : account) : bool :=
  String.eqb (account_email a) email.

Definition has_id (id : pyvalue) (a : account) : bool :=
  match id with PyInt n => (account_id a =? n)%Z | _ => false end.

Definition set_otp (email otp : string) (a : account) : account :=
  if has_email email a
  then mk_account (account_id a) (account_name a) (account_email a)
                  (account_verified a) (account_password a) (Some otp)
  else a.

Definition hashed (secret : string) : string := "$2b$" +:+ secret.

#[export] Instance database : Database world account := {|
  create_all := query (fun w => (tt, w));
  first_by_email email :=
    query (fun w => (List.find (has_email email) (accounts w), w));
  get_by_id id := query (fun w => (List.find (has_id id) (accounts w), w));
  is_verified := account_verified;
  verify_password a password :=
    Value (String.eqb (account_password a) (hashed (_prepare_password password)));
  store_otp a otp :=
    query (fun w => (tt, with_accounts w
                           (map (set_otp (account_email a) otp) (accounts w))));
  insert_user email name hashed_password :=
    query (fun w =>
             let a := mk_account (1 + Z.of_nat (length (accounts w))) name email
                                 false hashed_password None in
             (a, with_accounts w (accounts w ++ [a])));
|}.

Definition public (a : account) : list (string * pyvalue) :=
  [("id", PyInt (account_id a)); ("name", PyStr (account_name a));
   ("email", PyStr (account_email a)); ("date_created", PyStr "2024-01-01")].

#[export] Instance tokens : Tokens account := {|
  from_orm u :=
    match u with
    | Some a => Value (PyDict (public a))
    | None => Throws (OtherException "ValidationError" "Input should be a valid dictionary")
    end;
  model_dump a := Value (public a);
  jwt_encode payload := Value (PyJson.encode (PyDict payload));
  jwt_decode token :=
    match PyJson.decode token with
    | Ret payload => Value payload
    | Exc e => Throws (DecodeError "Not enough segments")
    end;
|}.

(** An address is taken as valid when it has an [@] in it, and comes back
    as it is. *)
Fixpoint has_at (s : string) : bool :=
  match s with
  | EmptyString => false
  | String c rest => Ascii.eqb c "@" || has_at rest
  end.

#[export] Instance registration : Registration world := {|
  validate_email email w :=
    (if has_at email then Value email
     else Throws (EmailNotValidError "An email address must have an @-sign."), w);
  bcrypt_hash secret w := (Value (hashed secret), w);
|}.

Definition roll (a b : Z) (w : world) : Z * world := (Z.max a (Z.min b (die w)), w).

#[export] Instance random : Random world := {|
  randint := roll;
  randint_range := ltac:(intros a b w Hab; unfold roll; cbn [fst]; lia);
|}.

#[export] Instance requests : Requests world := {|
  AUTH_BASE_URL := Some "http://auth:5000";
  requests_post url json w :=
    (match auth_service w with
     | Some answer => Value (answer url json)
     | None => Throws (ConnectionError "Connection refused")
     end, w);
|}.

Definition no_such_file (name : string) : app_exn :=
  OtherException "FileNotFoundError" name.

#[export] Instance file_system : Files world := {|
  file_write name data w := (Value tt, with_files w (<[name := data]> (files w)));
  file_read name w :=
    (match files w !! name with
     | Some data => Value data
     | None => Throws (no_such_file name)
     end, w);
  os_remove name w :=
    match files w !! name with
    | Some _ => (Value tt, with_files w (delete name (files w)))
    | None => (Throws (no_such_file name), w)
    end;
|}.

(** PostgreSQL is up while the database budget is not used up. *)
#[export] Instance postgres : Postgres world unit := {|
  psycopg2_connect w :=
    (match database_budget w with
     | Some O => Throws (Psycopg2OperationalError "connection refused")
     | _ => Value tt
     end, w);
  pgconn_close _ w := (Value tt, w);
|}.

(** A terminal in UTF-8 takes every line. *)
#[export] Instance console : Console world := {|
  stdout_print _ _ w := (Value tt, w);
|}.

Definition is_ascii_text (s : string) : bool :=
  forallb (fun c => (N_of_ascii c <? 128)%N) (list_ascii_of_string s).

Definition cannot_encode : app_exn :=
  OtherException "UnicodeEncodeError"
                 "'ascii' codec can't encode character: ordinal not in range(128)".

(** A stream in ascii takes the lines that are ASCII. The text of the
    script decides; the messages of the libraries are ASCII. *)
Definition ascii_console : Console world := {|
  stdout_print text _ w :=
    (if is_ascii_text text then Value tt else Throws cannot_encode, w);
|}.

(** The user of the examples, before and after verification. *)
Definition alice : account :=
  mk_account 1 "Alice" "a@b.com" false (hashed "secret") None.
Definition alice_verified : account :=
  mk_account 1 "Alice" "a@b.com" true (hashed "secret") None.

(** The auth service as the gateway sees it when the credentials are
    wrong. *)
Definition rejecting (url : string) (json : pyvalue) : http_response :=
  mk_response 401 (Value (PyDict [("detail", PyStr "Invalid Credentials")])).

Definition site (b : Broker.world) (users : list account) : world :=
  {| broker := b; accounts := users; database_budget := None; die := 123456;
     files := ∅; auth_service := Some rejecting |}.

(** The site once the auth service has started. *)
Definition started : world := site Worlds.auth_started [alice].


(** The site before the auth service starts: the broker has no queue. *)
Definition fresh : world := site (Worlds.starting 0) [alice].

(** The site of the gateway, with a worker that answers after [delay]
    rounds, if there is one. *)
Definition gateway (f : option (delivery -> list delivery)) (delay : nat) : world :=
  site (Worlds.gateway_started f delay) [alice_verified].

(** What [jwt_validation] hands to the [/ocr] route for the user. *)
Definition token_payload : pyvalue :=
  PyDict [("id", PyInt 1); ("name", PyStr "Alice"); ("email", PyStr "a@b.com")].
End Site.

Module MoreWorlds.
Import Broker Worlds.

(** The broker of [gateway_ready] after it has dropped the client's
    connection, which the client's channel has not noticed yet. *)
Definition gateway_connection_lost : world :=
  {| refusals := Some 0;
     queues := {[ "ocr_service" := mk_queue false false [];
                  "amq.gen-4" := mk_queue false true [] ]};
     conns := [0]; chans := [(3, 2); (1, 0)]; consumers := [(3, "amq.gen-4")];
     next_id := 5; worker := None; worker_delay := 0;
     publish_fault := None |}.

(** Two replies to the same request, and the client waiting for them. *)
Definition first_reply : delivery :=
  mk_delivery {| reply_to := None; correlation_id := Some "uuid-5";
                 delivery_mode := None |} "1".
Definition second_reply : delivery :=
  mk_delivery {| reply_to := None; correlation_id := Some "uuid-5";
                 delivery_mode := None |} "2".
Definition waiting_client : OcrRpcClient nat nat :=
  mk_client 2 3 "amq.gen-4" None (Some "uuid-5").

(** A password of 73 bytes. *)
Definition long_password : string :=
  "correct horse battery staple correct horse battery staple correct horse b".
End MoreWorlds.

(** * Properties *)

#[local] Set Warnings "-clear-no-such-hyp".

(** ** Elementary steps *)

Section Steps.
Context {W : Type}.

Lemma perform_eq {A} (op : W -> result A * W) (log : result A -> event) w t :
  perform op log (w, t) =
  (match (op w).1 with Ret a => Returned a | Exc e => Raised e end,
   ((op w).2, t ++ [log (op w).1])).
Proof. unfold perform. by destruct (op w). Qed.
End Steps.

(** ** connect_to_rabbitmq *)

Section ConnectFacts.
Context {W conn chan : Type} `{!Pika W conn chan}.

Lemma connect_step fuel w t :
  connect_to_rabbitmq (S fuel) (w, t) =
  match BlockingConnection RABBITMQ_URL w with
  | (Ret c, w1) => (Returned c, (w1, t ++ [EConnect RABBITMQ_URL None]))
  | (Exc e, w1) =>
      if is_AMQPConnectionError e
      then connect_to_rabbitmq fuel (w1, t ++ retry_events e)
      else (Raised e, (w1, t ++ [EConnect RABBITMQ_URL (Some e)]))
  end.
Proof.
  cbn [connect_to_rabbitmq]. unfold try_except, bind, connect.
  rewrite perform_eq.
  destruct (BlockingConnection RABBITMQ_URL w) as [[c|e] w1]; cbn; [done|].
  destruct (is_AMQPConnectionError e); [|done].
  unfold print, time_sleep, emit, retry_events. cbn.
  by rewrite <- !app_assoc.
Qed.

Lemma connect_to_rabbitmq_run fuel w t :
  connect_run fuel w t (connect_to_rabbitmq fuel (w, t)).
Proof.
  revert w t. induction fuel as [|fuel IH]; intros w t.
  - cbn. rewrite <- (app_nil_r t) at 2.
    by apply (connect_retrying 0 w t [] w); [|constructor].
  - rewrite connect_step.
    destruct (BlockingConnection RABBITMQ_URL w) as [[c|e] w1] eqn:Hc.
    + apply (connect_connected _ w t [] w c w1); [cbn; lia|constructor|done].
    + destruct (is_AMQPConnectionError e) eqn:He.
      * destruct (IH w1 (t ++ retry_events e))
          as [es w2 c w' Hlen Hr Hok|es w2 e' w' Hlen Hr Hex He'|es w' Hlen Hr].
        -- rewrite <- app_assoc, (app_assoc (retry_events e)).
           apply (connect_connected _ w t (e :: es) w2 c w');
             [cbn; lia|by econstructor|done].
        -- rewrite <- app_assoc, (app_assoc (retry_events e)).
           apply (connect_failed _ w t (e :: es) w2 e' w');
             [cbn; lia|by econstructor|done|done].
        -- rewrite <- app_assoc.
           apply (connect_retrying _ w t (e :: es) w');
             [cbn; lia|by econstructor].
      * apply (connect_failed _ w t [] w e w1); [cbn; lia|constructor|done|done].
Qed.

Lemma connect_after_refused w es w1 :
  refused w es w1 ->
  forall fuel t,
    connect_to_rabbitmq (length es + fuel) (w, t) =
    connect_to_rabbitmq fuel (w1, t ++ retry_log es).
Proof.
  induction 1 as [w|w e w1 es w' Hc He _ IH]; intros fuel t.
  - cbn. by rewrite app_nil_r.
  - cbn [length Nat.add]. rewrite connect_step, Hc, He, IH.
    cbn [retry_log flat_map]. by rewrite <- app_assoc.
Qed.

End ConnectFacts.

(** ** send_otp *)

Section SendOtpFacts.
Context {W conn chan : Type} `{!Pika W conn chan} `{!JsonCodec}.

Lemma send_otp_eq fuel email otp (ch : option chan) :
  send_otp fuel email otp ch =
  bind (connect_to_rabbitmq fuel) (send_otp_connected email otp).
Proof. reflexivity. Qed.

Lemma send_otp_try_eq channel message s :
  send_otp_try channel message s =
  bind (provision channel) (fun _ => encode_and_publish channel message) s.
Proof.
  unfold send_otp_try, provision, bind.
  by destruct (declare channel "email_notification" true false false s) as [[]].
Qed.

Lemma provision_run ch w t :
  exists r pre w',
    provision_shape r pre /\
    provision ch (w, t) =
      (match r with None => Returned tt | Some e => Raised e end, (w', t ++ pre)).
Proof.
  unfold provision, bind, declare. rewrite perform_eq.
  destruct (queue_declare ch "email_notification" true false false w)
    as [[q|e] w1]; cbn [fst snd].
  - destruct (truthy q) eqn:Hq.
    + rewrite String.eqb_refl. cbn [negb].
      exists None, [passive_declare (Ret q)], w1. split; [by constructor|done].
    + assert (q = "") as -> by (by destruct q).
      rewrite perform_eq.
      destruct (queue_declare ch "email_notification" false true false w1)
        as [r w2]; cbn [fst snd].
      exists (raised r), [passive_declare (Ret ""); durable_declare r], w2.
      split; [constructor|]. rewrite <- app_assoc. by destruct r.
  - exists (Some e), [passive_declare (Exc e)], w1. split; [constructor|done].
Qed.

Lemma send_otp_try_run ch message w t :
  exists o new w',
    try_shape message o new /\
    send_otp_try ch message (w, t) = (o, (w', t ++ new)).
Proof.
  rewrite send_otp_try_eq. unfold bind at 1.
  destruct (provision_run ch w t) as ([e|] & pre & w1 & Hpre & ->).
  { exists (Raised e), pre, w1. split; [by constructor|done]. }
  unfold encode_and_publish, bind, lift, publish, print, emit.
  destruct (json_dumps message) as [body|e] eqn:Hbody; cbn.
  - rewrite ?perform_eq.
    destruct (basic_publish ch "" "email_notification" persistent_properties
                            body w1) as [[[]|e] w2]; cbn.
    + exists (Returned tt), (pre ++ [publication body None; EPrint sent_line]), w2.
      split; [by constructor|]. by rewrite <- !app_assoc.
    + exists (Raised e), (pre ++ [publication body (Some e)]), w2.
      split; [by constructor|]. by rewrite <- !app_assoc.
  - exists (Raised e), pre, w1. split; [by apply try_unencoded|done].
Qed.

Lemma send_otp_handled_run ch message w t :
  exists o1 l1 o2 l2 w',
    try_shape message o1 l1 /\ except_shape o1 o2 l2 /\
    try_except (send_otp_try ch message) send_otp_except (w, t) =
      (o2, (w', t ++ l1 ++ l2)).
Proof.
  unfold try_except.
  destruct (send_otp_try_run ch message w t) as (o1 & l1 & w1 & Hshape & ->).
  destruct Hshape as [e pre Hpre|e pre Hpre Hb|e pre body Hpre Hb|pre body Hpre Hb].
  4: { eexists (Returned tt), _, (Returned tt), [], w1.
       split; [by apply try_sent|]. split; [constructor|]. by rewrite app_nil_r. }
  all: unfold send_otp_except; destruct (is_Exception e) eqn:He.
  all: try (eexists (Raised e), _, (Returned tt), [EPrint (failed_line e)], w1;
            split; [by econstructor|]; split; [by constructor|];
            unfold print, emit; cbn; by rewrite <- ?app_assoc).
  all: eexists (Raised e), _, (Raised e), [], w1;
       (split; [by econstructor|]); (split; [by constructor|]);
       by rewrite app_nil_r.
Qed.

Lemma finally_run ch c w t :
  exists r l w',
    finally_shape r l /\
    (close_channel ch ;;; close_connection c) (w, t) =
      (match r with None => Returned tt | Some e => Raised e end, (w', t ++ l)).
Proof.
  unfold bind, close_channel, close_connection. rewrite perform_eq.
  destruct (channel_close ch w) as [[[]|e] w1]; cbn.
  - rewrite ?perform_eq. destruct (connection_close c w1) as [[[]|e] w2]; cbn.
    + exists None, [EChannelClose None; EConnectionClose None], w2.
      split; [constructor|]. by rewrite <- app_assoc.
    + exists (Some e), [EChannelClose None; EConnectionClose (Some e)], w2.
      split; [constructor|]. by rewrite <- app_assoc.
  - exists (Some e), [EChannelClose (Some e)], w1. split; [constructor|done].
Qed.

Lemma send_otp_connected_run email otp c w t :
  exists o new w',
    connected_shape (otp_message email otp) o new /\
    send_otp_connected email otp c (w, t) = (o, (w', t ++ new)).
Proof.
  unfold send_otp_connected, bind, open_channel. rewrite perform_eq.
  destruct (connection_channel c w) as [[ch|e] w1]; cbn.
  2: { exists (Raised e), [EChannel (Some e)], w1. split; [constructor|done]. }
  unfold try_finally.
  destruct (send_otp_handled_run ch (otp_message email otp) w1 (t ++ [EChannel None]))
    as (o1 & l1 & o2 & l2 & w2 & Htry & Hexc & ->).
  destruct (finally_run ch c w2 ((t ++ [EChannel None]) ++ l1 ++ l2))
    as (r & l3 & w3 & Hfin & Hrun).
  exists (after_finally r o2), (EChannel None :: l1 ++ l2 ++ l3), w3.
  split; [by econstructor|].
  assert (o2 <> Running) as Ho2 by (by destruct Hexc).
  unfold bind in Hrun.
  destruct o2 as [[]|e|]; [| |done]; rewrite Hrun.
  all: destruct r; cbn; by rewrite <- !app_assoc.
Qed.

Lemma send_otp_run fuel email otp (ch : option chan) w :
  let r := run (send_otp fuel email otp ch) w in
  send_otp_shape email otp r.1 (log_of r).
Proof.
  unfold run, log_of. rewrite send_otp_eq. unfold bind.
  destruct (connect_to_rabbitmq_run fuel w [])
    as [es w1 c w' Hlen Hr Hok|es w1 e w' Hlen Hr Hex He|es w' Hlen Hr]; cbn.
  - destruct (send_otp_connected_run email otp c w'
                (retry_log es ++ [EConnect RABBITMQ_URL None]))
      as (o & new & w2 & Hshape & ->).
    cbn. rewrite <- app_assoc. by constructor.
  - by constructor.
  - by constructor.
Qed.

(** *** What is published *)

Lemma publishes_app l1 l2 : publishes (l1 ++ l2) = publishes l1 ++ publishes l2.
Proof. apply List.filter_app. Qed.

Lemma publishes_retry_log es : publishes (retry_log es) = [].
Proof. induction es as [|e es IH]; [done|]. cbn. exact IH. Qed.

Lemma publishes_provision r pre : provision_shape r pre -> publishes pre = [].
Proof. by destruct 1. Qed.

Lemma publishes_except o1 o2 l : except_shape o1 o2 l -> publishes l = [].
Proof. by destruct 1. Qed.

Lemma publishes_finally r l : finally_shape r l -> publishes l = [].
Proof. by destruct 1. Qed.

Lemma publishes_try message o l :
  try_shape message o l ->
  publishes l = [] \/
  exists body r,
    json_dumps message = Ret body /\ publishes l = [publication body r] /\
    (r = None <-> o = Returned tt).
Proof.
  destruct 1 as [e pre Hpre|e pre Hpre Hb|e pre body Hpre Hb|pre body Hpre Hb];
    rewrite ?publishes_app, (publishes_provision _ _ Hpre); cbn; eauto.
  - right. by exists body, (Some e).
  - right. by exists body, None.
Qed.

Lemma publishes_connected message o l :
  connected_shape message o l ->
  publishes l = [] \/
  exists body r,
    json_dumps message = Ret body /\ publishes l = [publication body r].
Proof.
  destruct 1 as [e|o1 l1 o2 l2 r l3 Htry Hexc Hfin]; [by left|].
  change (EChannel None :: l1 ++ l2 ++ l3) with ([EChannel None] ++ l1 ++ l2 ++ l3).
  rewrite !publishes_app, (publishes_except _ _ _ Hexc),
    (publishes_finally _ _ Hfin), !app_nil_r. cbn.
  destruct (publishes_try _ _ _ Htry) as [->|(body & r' & ? & -> & _)]; eauto.
Qed.

Lemma send_otp_publishes fuel email otp (ch : option chan) w :
  let l := log_of (run (send_otp fuel email otp ch) w) in
  publishes l = [] \/
  exists body r,
    json_dumps (otp_message email otp) = Ret body /\
    publishes l = [publication body r].
Proof.
  cbn zeta.
  destruct (send_otp_run fuel email otp ch w) as [es|es e He|es o new Hnew].
  - left. apply publishes_retry_log.
  - left. by rewrite publishes_app, publishes_retry_log.
  - change (EConnect RABBITMQ_URL None :: new)
      with ([EConnect RABBITMQ_URL None] ++ new).
    rewrite !publishes_app, publishes_retry_log. cbn.
    by apply publishes_connected in Hnew.
Qed.

(** *** When the success line is printed *)

Lemma elem_of_retry_log ev es :
  ev ∈ retry_log es ->
  (exists e, ev = EConnect RABBITMQ_URL (Some e))
  \/ ev = EPrint connect_retry_line \/ ev = ESleep 5.
Proof.
  induction es as [|e es IH]; cbn; [by intros ?%elem_of_nil|].
  rewrite !elem_of_cons. naive_solver.
Qed.

Lemma sent_not_in_retry_log es : EPrint sent_line ∉ retry_log es.
Proof. by intros [(? & ?)|[?|?]]%elem_of_retry_log. Qed.

Lemma sent_not_in_provision r pre :
  provision_shape r pre -> EPrint sent_line ∉ pre.
Proof. destruct 1; rewrite ?not_elem_of_cons; by repeat split; try apply not_elem_of_nil. Qed.



(** *** Exactly one message once the queue is there *)








(** C8. The body of whatever [send_otp] publishes is [json.dumps] of a
    dict with exactly the keys [email], [subject], [other] and [body],
    published to the queue [email_notification] through the default
    exchange; its [email] is the argument and its [body] text contains
    the OTP. *)
Theorem send_otp_body_shape
    (fuel : nat) (email otp : string) (ch : option chan) (w : W) :
  forall ev,
    ev ∈ publishes (log_of (run (send_otp fuel email otp ch) w)) ->
    exists properties body r d text,
      ev = EPublish "" "email_notification" properties body r /\
      json_dumps (PyDict d) = Ret body /\
      d.*1 = ["email"; "subject"; "other"; "body"] /\
      dict_get d "email" = Some (PyStr email) /\
      dict_get d "body" = Some (PyStr text) /\
      contains otp text.
Proof.
  intros ev.
  destruct (send_otp_publishes fuel email otp ch w) as [->|(b & r & Hb & ->)].
  - by intros ?%elem_of_nil.
  - intros ->%list_elem_of_singleton.
    eexists persistent_properties, b, r, _, (otp_body otp).
    split; [done|]. split; [exact Hb|]. repeat split.
    unfold contains, otp_body. eauto.
Qed.

(** C10. The [channel] argument of [send_otp] is rebound before it is
    read: runs that differ only in it have the same outcome, the same
    final world and the same log. *)
Theorem send_otp_ignores_channel_argument
    (fuel : nat) (email otp : string) (ch1 ch2 : option chan)
    (s : W * list event) :
  send_otp fuel email otp ch1 s = send_otp fuel email otp ch2 s.
Proof. reflexivity. Qed.

(** *** A publish that raises *)





Lemma closes_app l1 l2 : closes (l1 ++ l2) = closes l1 ++ closes l2.
Proof. apply List.filter_app. Qed.

Lemma closes_retry_log es : closes (retry_log es) = [].
Proof. induction es as [|e es IH]; [done|]. exact IH. Qed.

Lemma closes_provision r pre : provision_shape r pre -> closes pre = [].
Proof. by destruct 1. Qed.

Lemma closes_finally r l : finally_shape r l -> closes l = l.
Proof. by destruct 1. Qed.



(** *** Termination *)

Lemma connected_shape_finished message o l :
  connected_shape message o l -> o <> Running.
Proof.
  destruct 1 as [e|o1 l1 o2 l2 r l3 Htry Hexc Hfin]; [done|].
  destruct r; [done|]. by destruct Hexc.
Qed.

(** Once an attempt to connect succeeds within the given steps, [send_otp]
    runs to its end: it returns or raises. *)
Lemma send_otp_finishes fuel email otp (ch : option chan) w es w1 c w' :
  refused w es w1 ->
  BlockingConnection RABBITMQ_URL w1 = (Ret c, w') ->
  length es < fuel ->
  (run (send_otp fuel email otp ch) w).1 <> Running.
Proof.
  intros Hr Hok Hlen. unfold run. rewrite send_otp_eq. unfold bind.
  replace fuel with (length es + S (fuel - S (length es))) by lia.
  rewrite (connect_after_refused _ _ _ Hr), connect_step, Hok.
  destruct (send_otp_connected_run email otp c w'
              (([] ++ retry_log es) ++ [EConnect RABBITMQ_URL None]))
    as (o & new & w2 & Hshape & ->).
  by apply connected_shape_finished in Hshape.
Qed.

(** *** Provisioning never deletes *)

Lemma send_otp_never_deletes fuel email otp (ch : option chan) w :
  List.filter is_queue_delete (log_of (run (send_otp fuel email otp ch) w)) = [].
Proof.
  assert (forall es, List.filter is_queue_delete (retry_log es) = []) as Hes.
  { induction es as [|e es IH]; [done|]. exact IH. }
  destruct (send_otp_run fuel email otp ch w) as [es|es e' He'|es o new Hnew].
  - apply Hes.
  - by rewrite List.filter_app, Hes.
  - rewrite List.filter_app, Hes. cbn.
    destruct Hnew as [e'|o1 l1 o2 l2 r l3 Htry Hexc Hfin]; [done|]. cbn.
    rewrite !List.filter_app.
    assert (List.filter is_queue_delete l1 = []) as ->.
    { destruct Htry as [? pre Hpre|? pre Hpre ?|? pre ? Hpre ?|pre ? Hpre ?];
        rewrite ?List.filter_app; by destruct Hpre. }
    assert (List.filter is_queue_delete l2 = []) as -> by (by destruct Hexc).
    by destruct Hfin.
Qed.
End SendOtpFacts.

(** ** OcrRpcClient *)

Section RpcFacts.
Context {W conn chan : Type} `{!Pika W conn chan} `{!JsonCodec}.
Implicit Types self : OcrRpcClient conn chan.

Lemma set_response_same self : set_response self (response self) = self.
Proof. by destruct self. Qed.

Lemma on_response_eq self cid d :
  corr_id self = Some cid ->
  on_response self (d_properties d) (d_body d) =
  Ret (if matching cid d then set_response self (Some (d_body d)) else self).
Proof.
  intros Hc. unfold on_response, matching. rewrite Hc.
  destruct (decide (Some cid = correlation_id (d_properties d))) as [Heq|Hne].
  - by rewrite bool_decide_eq_true_2.
  - by rewrite bool_decide_eq_false_2.
Qed.

Lemma dispatch_eq self cid batch :
  corr_id self = Some cid ->
  dispatch self batch = Ret (set_response self (deliver cid (response self) batch)).
Proof.
  revert self. induction batch as [|d batch IH]; intros self Hc.
  - cbn. by rewrite set_response_same.
  - cbn [dispatch]. rewrite (on_response_eq _ cid) by done.
    unfold deliver. cbn [fold_left].
    destruct (matching cid d).
    + by rewrite IH.
    + by rewrite IH.
Qed.

Lemma deliver_foreign cid slot batch :
  Forall (fun d => matching cid d = false) batch -> deliver cid slot batch = slot.
Proof.
  unfold deliver. revert slot.
  induction batch as [|d batch IH]; intros slot Hall; [done|].
  apply Forall_cons in Hall as [Hd Hall]. cbn. rewrite Hd. by apply IH.
Qed.

Lemma deliver_is_Some cid slot batch body :
  deliver cid slot batch = Some body ->
  slot = Some body \/
  exists d, d ∈ batch /\ matching cid d = true /\ d_body d = body.
Proof.
  unfold deliver. revert slot.
  induction batch as [|d batch IH]; intros slot; cbn; [by left|].
  intros [Hslot|(d' & Hin & Hm & Hb)]%IH.
  - destruct (matching cid d) eqn:Hd; [|by left].
    right. exists d. split; [by left|]. split; [done|]. by injection Hslot.
  - right. exists d'. split; [by right|done].
Qed.

Lemma deliver_filled cid body batch : deliver cid (Some body) batch <> None.
Proof.
  unfold deliver. revert body.
  induction batch as [|d batch IH]; intros body; cbn; [done|].
  destruct (matching cid d); apply IH.
Qed.

Lemma deliver_None cid batch :
  deliver cid None batch = None -> Forall (fun d => matching cid d = false) batch.
Proof.
  induction batch as [|d batch IH]; [constructor|].
  unfold deliver. cbn [fold_left].
  destruct (matching cid d) eqn:Hd.
  - intros Hn. by apply deliver_filled in Hn.
  - intros Hn. constructor; [done|]. by apply IH.
Qed.

Lemma wait_done fuel self body s :
  response self = Some body -> wait_response fuel self s = (Returned self, s).
Proof. intros Hr. destruct fuel; cbn; by rewrite Hr. Qed.

Lemma wait_step fuel self cid w t :
  corr_id self = Some cid -> response self = None ->
  wait_response (S fuel) self (w, t) =
  match process_data_events (connection self) w with
  | (Ret batch, w1) =>
      wait_response fuel (set_response self (deliver cid None batch))
                    (w1, t ++ [EPump (Ret batch)])
  | (Exc e, w1) => (Raised e, (w1, t ++ [EPump (Exc e)]))
  end.
Proof.
  intros Hc Hr. cbn [wait_response]. rewrite Hr.
  unfold bind, pump. rewrite perform_eq.
  destruct (process_data_events (connection self) w) as [[batch|e] w1]; cbn; [|done].
  by rewrite (dispatch_eq _ cid), Hr.
Qed.

Lemma wait_after_quiet self cid w bs w1 :
  quiet (connection self) cid w bs w1 ->
  corr_id self = Some cid -> response self = None ->
  forall fuel t,
    wait_response (length bs + fuel) self (w, t) =
    wait_response fuel self (w1, t ++ pump_log bs).
Proof.
  intros Hq Hc Hr.
  induction Hq as [w|w batch w1 bs w' Hp Hall _ IH]; intros fuel t.
  - cbn. by rewrite app_nil_r.
  - cbn [length Nat.add]. rewrite (wait_step _ _ cid), Hp by done.
    rewrite (deliver_foreign _ _ _ Hall), <- Hr, set_response_same, IH.
    cbn. by rewrite <- app_assoc.
Qed.

Lemma wait_response_run fuel self cid w t :
  corr_id self = Some cid -> response self = None ->
  wait_run fuel self cid w t (wait_response fuel self (w, t)).
Proof.
  intros Hc Hr. revert w t. induction fuel as [|fuel IH]; intros w t.
  - cbn. rewrite Hr. rewrite <- (app_nil_r t) at 2.
    by apply (wait_waiting 0 self cid w t [] w); [|constructor].
  - rewrite (wait_step _ _ cid) by done.
    destruct (process_data_events (connection self) w) as [[batch|e] w1] eqn:Hp.
    + destruct (deliver cid None batch) as [body|] eqn:Hd.
      * rewrite (wait_done _ _ body) by done.
        apply (wait_replied _ self cid w t [] w batch w1 body);
          [cbn; lia|constructor|done|done].
      * rewrite <- Hr, set_response_same.
        apply deliver_None in Hd.
        destruct (IH w1 (t ++ [EPump (Ret batch)]))
          as [bs w2 batch' w' body Hlen Hq Hp' Hd'|bs w2 e w' Hlen Hq Hp'
             |bs w' Hlen Hq].
        -- rewrite <- app_assoc, (app_assoc [_]).
           apply (wait_replied _ self cid w t (batch :: bs) w2 batch' w' body);
             [cbn; lia|by econstructor|done|done].
        -- rewrite <- app_assoc, (app_assoc [_]).
           apply (wait_broken _ self cid w t (batch :: bs) w2 e w');
             [cbn; lia|by econstructor|done].
        -- rewrite <- app_assoc.
           apply (wait_waiting _ self cid w t (batch :: bs) w');
             [cbn; lia|by econstructor].
    + apply (wait_broken _ self cid w t [] w e w1); [cbn; lia|constructor|done].
Qed.

Lemma call_requested fuel self image_data w cid body w' :
  requested self image_data w cid body w' ->
  run (call fuel self image_data) w =
  decode_reply (wait_response fuel (waiting self cid)
                  (w', [EUuid4 cid; request self cid body None])).
Proof.
  intros (Hu & Hb & Hp). unfold run, call, bind, fresh_uuid, publish.
  destruct (uuid4 w) as [u w1]. cbn in Hu, Hp. subst u.
  fold (envelope image_data). rewrite Hb. cbn.
  fold (waiting self cid). rewrite Hp. cbn.
  unfold request, decode_reply, lift, ret, raise.
  destruct (wait_response fuel (waiting self cid) _) as [[self'| |] s]; [|done..].
  by destruct (json_loads (response_bytes self')).
Qed.

(** A call either fails to encode, fails to publish, or waits. *)
Lemma call_cases fuel self image_data w :
  let cid := (uuid4 w).1 in
  (exists e,
      json_dumps (envelope image_data) = Exc e /\
      run (call fuel self image_data) w = (Raised e, ((uuid4 w).2, [EUuid4 cid])))
  \/ (exists body e w',
        json_dumps (envelope image_data) = Ret body /\
        run (call fuel self image_data) w =
          (Raised e, (w', [EUuid4 cid; request self cid body (Some e)])))
  \/ (exists body w', requested self image_data w cid body w').
Proof.
  cbn zeta.
  destruct (json_dumps (envelope image_data)) as [body|e] eqn:Hb.
  - destruct (basic_publish (channel self) "" "ocr_service"
                (request_properties (waiting self (uuid4 w).1)) body (uuid4 w).2)
      as [[[]|e] w'] eqn:Hp.
    + right; right. by exists body, w'.
    + right; left. exists body, e, w'. split; [done|].
      unfold run, call, bind, fresh_uuid, publish.
      destruct (uuid4 w) as [u w1]. cbn in Hp.
      fold (envelope image_data). rewrite Hb. cbn.
      fold (waiting self u). by rewrite Hp.
  - left. exists e. split; [done|].
    unfold run, call, bind, fresh_uuid.
    destruct (uuid4 w) as [u w1]. fold (envelope image_data). by rewrite Hb.
Qed.

Lemma publishes_pump_log bs : publishes (pump_log bs) = [].
Proof. induction bs as [|b bs IH]; [done|]. exact IH. Qed.

Lemma matching_true cid d :
  matching cid d = true <-> correlation_id (d_properties d) = Some cid.
Proof. unfold matching. by rewrite bool_decide_eq_true. Qed.

Lemma matching_false cid d :
  matching cid d = false <-> correlation_id (d_properties d) <> Some cid.
Proof. unfold matching. by rewrite bool_decide_eq_false. Qed.

Lemma quiet_take c cid w bs w' n :
  quiet c cid w bs w' -> exists w1, quiet c cid w (take n bs) w1.
Proof.
  intros Hq. revert n.
  induction Hq as [w|w batch w1 bs w' Hp Hall _ IH]; intros n.
  - exists w. rewrite take_nil. constructor.
  - destruct n as [|n]; [exists w; constructor|].
    destruct (IH n) as (w2 & Hq). exists w2. by econstructor.
Qed.

(** While the rounds bring nothing for this call, it is still waiting. *)
Lemma call_still_waiting fuel self image_data w cid body w2 bs w3 :
  requested self image_data w cid body w2 ->
  quiet (connection self) cid w2 bs w3 ->
  length bs = fuel ->
  run (call fuel self image_data) w =
  (Running, (w3, [EUuid4 cid; request self cid body None] ++ pump_log bs)).
Proof.
  intros Hreq Hq <-. rewrite (call_requested _ _ _ _ _ _ _ Hreq).
  rewrite <- (Nat.add_0_r (length bs)).
  by rewrite (wait_after_quiet (waiting self cid) cid w2 bs w3).
Qed.

(** Once a round brings a reply, the call ends with its decoding. *)
Lemma call_replied fuel self image_data w cid body w2 bs w3 batch w4 reply :
  requested self image_data w cid body w2 ->
  quiet (connection self) cid w2 bs w3 ->
  process_data_events (connection self) w3 = (Ret batch, w4) ->
  deliver cid None batch = Some reply ->
  length bs < fuel ->
  run (call fuel self image_data) w =
  (match json_loads reply with
   | Ret v => Returned (v, set_response (waiting self cid) (Some reply))
   | Exc e => Raised e
   end,
   (w4, [EUuid4 cid; request self cid body None] ++ pump_log bs
        ++ [EPump (Ret batch)])).
Proof.
  intros Hreq Hq Hp Hd Hlen. rewrite (call_requested _ _ _ _ _ _ _ Hreq).
  replace fuel with (length bs + S (fuel - S (length bs))) by lia.
  rewrite (wait_after_quiet (waiting self cid) cid w2 bs w3) by done.
  rewrite (wait_step _ _ cid) by done. cbn [connection waiting set_corr_id
    set_response] in *. rewrite Hp, Hd.
  rewrite (wait_done _ _ reply) by done.
  unfold decode_reply, response_bytes. cbn.
  by destruct (json_loads reply).
Qed.

Lemma call_run fuel self image_data w :
  call_shape fuel self image_data w (run (call fuel self image_data) w).
Proof.
  destruct (call_cases fuel self image_data w)
    as [(e & Hb & ->)|[(body & e & w' & Hb & ->)|(body & w2 & Hreq)]].
  - by constructor.
  - by constructor.
  - rewrite (call_requested _ _ _ _ _ _ _ Hreq).
    apply (call_waited _ _ _ _ body w2); [done|].
    by apply wait_response_run.
Qed.

Lemma init_returned w c s :
  run OcrRpcClient_init w = (Returned c, s) ->
  s.2 = [EConnect RABBITMQ_URL None; EChannel None;
         EQueueDeclare "" false false true (Ret (callback_queue c));
         EConsume (callback_queue c) true None]
  /\ response c = None /\ corr_id c = None.
Proof.
  unfold run, OcrRpcClient_init, bind, connect, open_channel, declare, consume, ret.
  rewrite perform_eq.
  destruct (BlockingConnection RABBITMQ_URL w) as [[cn|e] w1]; cbn; [|done].
  destruct (connection_channel cn w1) as [[ch|e] w2]; cbn; [|done].
  destruct (queue_declare ch "" false false true w2) as [[q|e] w3]; cbn; [|done].
  destruct (basic_consume ch q true w3) as [[[]|e] w4]; cbn; [|done].
  by intros [= <- <-].
Qed.

(** C1. A message whose correlation id differs from the one the call is
    waiting for leaves the client as it was, without error; a batch of
    messages changes nothing but the response slot, and only to the body
    of one of its messages with that id; and what [call] returns is the
    decoding of a delivered message carrying the id drawn by this call. *)
Theorem call_returns_only_matching_reply
    (fuel : nat) self (image_data : pyvalue) (w : W) :
  let cid := (uuid4 w).1 in
  let r := run (call fuel self image_data) w in
  (forall self0 d,
      corr_id self0 = Some cid ->
      correlation_id (d_properties d) <> Some cid ->
      on_response self0 (d_properties d) (d_body d) = Ret self0)
  /\ (forall self0 batch,
        corr_id self0 = Some cid ->
        exists slot,
          dispatch self0 batch = Ret (set_response self0 slot) /\
          (slot = response self0 \/
           exists d, d ∈ batch /\ correlation_id (d_properties d) = Some cid /\
                     slot = Some (d_body d)))
  /\ (forall v self',
        r.1 = Returned (v, self') ->
        exists batch d,
          EPump (Ret batch) ∈ log_of r /\ d ∈ batch /\
          correlation_id (d_properties d) = Some cid /\
          corr_id self' = Some cid /\
          response self' = Some (d_body d) /\
          json_loads (d_body d) = Ret v).
Proof.
  cbn zeta. split; [|split].
  - intros self0 d Hc Hne. rewrite (on_response_eq _ _ _ Hc).
    apply matching_false in Hne. by rewrite Hne.
  - intros self0 batch Hc. exists (deliver (uuid4 w).1 (response self0) batch).
    split; [by apply dispatch_eq|].
    destruct (deliver (uuid4 w).1 (response self0) batch) as [body|] eqn:Hd.
    + apply deliver_is_Some in Hd as [Hs|(d & Hin & Hm & <-)]; [by left|].
      right. exists d. by rewrite <- matching_true.
    + destruct (response self0) as [body|] eqn:Hr; [|by left].
      by apply deliver_filled in Hd.
  - intros v self'.
    destruct (call_run fuel self image_data w) as [e Hb|body e w' Hb|body w2 r Hreq Hw];
      [done|done|].
    destruct Hw as [bs w3 batch w4 reply Hlen Hq Hp Hd| |]; [|done..].
    unfold decode_reply, response_bytes, log_of. cbn.
    destruct (json_loads reply) as [v'|e] eqn:Hl; [|done].
    intros [= <- <-].
    apply deliver_is_Some in Hd as [?|(d & Hin & Hm & <-)]; [done|].
    exists batch, d. apply matching_true in Hm.
    repeat split; try done. cbn [fst snd].
    rewrite !elem_of_cons, elem_of_app, list_elem_of_singleton. auto.
Qed.

Lemma deliver_echo cid reply batch :
  echoes cid reply batch -> deliver cid None batch = Some reply.
Proof.
  intros [(d & Hin & Hm) Hall].
  destruct (deliver cid None batch) as [body|] eqn:Hd.
  - apply deliver_is_Some in Hd as [?|(d' & Hin' & Hm' & <-)]; [done|].
    f_equal. apply Hall; [done|]. by apply matching_true.
  - apply deliver_None in Hd. rewrite Forall_forall in Hd.
    apply matching_true in Hm. by rewrite (Hd d Hin) in Hm.
Qed.

Lemma call_publishes fuel self image_data w :
  let r := run (call fuel self image_data) w in
  publishes (log_of r) = [] \/
  exists body res,
    json_dumps (envelope image_data) = Ret body /\
    publishes (log_of r) = [request self (uuid4 w).1 body res].
Proof.
  cbn zeta.
  destruct (call_run fuel self image_data w) as [e Hb|body e w' Hb|body w2 r Hreq Hw].
  - by left.
  - right. by exists body, (Some e).
  - right. exists body, None. split; [apply Hreq|].
    destruct Hw as [bs w3 batch w4 reply Hlen Hq Hp Hd|bs w3 e w4 Hlen Hq Hp
                   |bs w3 Hlen Hq];
      unfold decode_reply, log_of; try destruct (json_loads _); cbn [fst snd].
    all: change (EUuid4 ?u :: ?x :: ?l) with ([EUuid4 u; x] ++ l).
    all: by rewrite !publishes_app, publishes_pump_log.
Qed.

(** C9. [call] first draws a fresh id; it publishes at most once, and
    what it publishes goes to [ocr_service] through the default exchange
    with the JSON encoding of the one-key dict as body, the callback queue
    as [reply_to] and that id as correlation id; when the reply to that id
    arrives, the call ends with the JSON decoding of its body; and the
    callback queue is the name the broker gave to the exclusive queue
    declared in [__init__]. *)
Theorem call_request_and_reply (fuel : nat) self (image_data : pyvalue) (w : W) :
  let cid := (uuid4 w).1 in
  let r := run (call fuel self image_data) w in
  (exists rest, log_of r = EUuid4 cid :: rest)
  /\ length (publishes (log_of r)) <= 1
  /\ (forall ev,
        ev ∈ publishes (log_of r) ->
        exists body res,
          ev = EPublish "" "ocr_service"
                 {| reply_to := Some (callback_queue self);
                    correlation_id := Some cid;
                    delivery_mode := None |} body res /\
          json_dumps (PyDict [("image_data", image_data)]) = Ret body)
  /\ (forall n batch reply,
        answered self image_data w n batch ->
        deliver cid None batch = Some reply ->
        n < fuel ->
        match json_loads reply with
        | Ret v => exists self', r.1 = Returned (v, self') /\
                                 response self' = Some reply
        | Exc e => r.1 = Raised e
        end)
  /\ (forall w0 c s,
        run OcrRpcClient_init w0 = (Returned c, s) ->
        EQueueDeclare "" false false true (Ret (callback_queue c)) ∈ s.2 /\
        EConsume (callback_queue c) true None ∈ s.2).
Proof.
  cbn zeta. split; [|split; [|split; [|split]]].
  - destruct (call_run fuel self image_data w) as [e Hb|body e w' Hb|body w2 r Hreq Hw].
    + by eexists.
    + by eexists.
    + destruct Hw; unfold decode_reply, log_of; try destruct (json_loads _);
        by eexists.
  - destruct (call_publishes fuel self image_data w) as [->|(b & res & _ & ->)];
      cbn; lia.
  - intros ev.
    destruct (call_publishes fuel self image_data w) as [->|(b & res & Hb & ->)].
    + by intros ?%elem_of_nil.
    + intros ->%list_elem_of_singleton. by exists b, res.
  - intros n batch reply (body & w2 & bs & w3 & w4 & Hreq & Hq & <- & Hp) Hd Hlen.
    rewrite (call_replied _ _ _ _ _ _ _ _ _ _ _ _ Hreq Hq Hp Hd Hlen).
    destruct (json_loads reply); [|done]. by eexists.
  - intros w0 c s (-> & _ & _)%init_returned.
    rewrite !elem_of_cons. split; auto 6.
Qed.

(** C5. When the worker answers the request of [call] with the JSON text
    of the payload itself, under the correlation id of the request, and
    this text decodes to the payload, [call] returns the payload. *)
Theorem call_round_trip (fuel : nat) self (image_data : pyvalue) (w : W)
    (n : nat) (batch : list delivery) (reply : string) :
  answered self image_data w n batch ->
  echoes (uuid4 w).1 reply batch ->
  json_dumps image_data = Ret reply ->
  json_loads reply = Ret image_data ->
  n < fuel ->
  exists self', (run (call fuel self image_data) w).1 = Returned (image_data, self').
Proof.
  intros (body & w2 & bs & w3 & w4 & Hreq & Hq & <- & Hp) Hecho _ Hl Hlen.
  apply deliver_echo in Hecho.
  rewrite (call_replied _ _ _ _ _ _ _ _ _ _ _ _ Hreq Hq Hp Hecho Hlen), Hl.
  by eexists.
Qed.

(** C2, as the code has it. The wait has no bound: if the [n] rounds
    after the request bring no message with the id of this call, then
    after any [fuel <= n] of them the call is still in its loop. *)
Theorem call_waits_without_bound (fuel : nat) self (image_data : pyvalue) (w : W)
    (n : nat) :
  unanswered self image_data w n ->
  fuel <= n ->
  (run (call fuel self image_data) w).1 = Running.
Proof.
  intros (body & w2 & bs & w3 & Hreq & Hq & <-) Hle.
  destruct (quiet_take _ _ _ _ _ fuel Hq) as (w' & Hq').
  rewrite (call_still_waiting _ _ _ _ _ _ _ _ _ Hreq Hq'); [done|].
  rewrite length_take. lia.
Qed.
End RpcFacts.

(** ** The JSON codec on strings *)

Module PyJsonFacts.
Import PyJson.

Lemma append_assoc (a b c : string) : (a +:+ b) +:+ c = a +:+ b +:+ c.
Proof.
  induction a as [|x a IH]; [done|].
  change (String x ((a +:+ b) +:+ c) = String x (a +:+ b +:+ c)). by rewrite IH.
Qed.

Lemma parse_string_escape_char c rest :
  parse_string (escape_char c +:+ rest) = push c (parse_string rest).
Proof. destruct c as [[] [] [] [] [] [] [] []]; reflexivity. Qed.

Lemma parse_string_escape s rest :
  parse_string (escape s +:+ dquote +:+ rest) = Some (s, rest).
Proof.
  induction s as [|c s IH]; [reflexivity|].
  cbn [escape]. by rewrite append_assoc, parse_string_escape_char, IH.
Qed.

(** What [json.dumps] writes for a string, [json.loads] reads back. *)
Lemma decode_quote s : decode (quote s) = Ret (PyStr s).
Proof.
  unfold decode, quote.
  change (dquote +:+ escape s +:+ dquote)
    with (String (ascii_of_nat 34) (escape s +:+ dquote +:+ "")).
  pose proof (parse_string_escape s "") as Hs.
  set (t := escape s +:+ dquote +:+ "") in *.
  clearbody t. cbv -[parse_string]. by rewrite Hs.
Qed.
End PyJsonFacts.

(** * Runs against the broker *)

Module Scenarios.
Import Broker Worlds.
#[local] Existing Instance Broker.pika.
#[local] Existing Instance PyJson.codec.

(** On the started broker [send_otp] publishes and returns. *)
Example send_otp_on_started_broker :
  run (send_otp 1 "a@b.com" "123456" (Some 1)) auth_started =
  (Returned tt,
   (world_of (run (send_otp 1 "a@b.com" "123456" (Some 1)) auth_started),
    [EConnect (Some "rabbitmq") None; EChannel None;
     EQueueDeclare "email_notification" true false false (Ret "email_notification");
     EPublish "" "email_notification" persistent_properties otp_json None;
     EPrint "Sent OTP email notification";
     EChannelClose None; EConnectionClose None])).
Proof. vm_compute. reflexivity. Qed.

(** C4 fails on the code. Over the queue that [auth/main.py] declared
    non-durable, [send_otp] completes its provisioning and publishes, yet
    it neither deletes nor redeclares the queue, which is still not
    durable afterwards. *)
Theorem send_otp_leaves_queue_non_durable :
  let r := run (send_otp 1 "a@b.com" "123456" (Some 1)) auth_started in
  r.1 = Returned tt
  /\ EPrint "Sent OTP email notification" ∈ log_of r
  /\ q_durable <$> (queues (world_of r) !! "email_notification") = Some false
  /\ List.filter
       (fun ev => match ev with
                  | EQueueDelete _ _ | EQueueDeclare _ false _ _ _ => true
                  | _ => false
                  end) (log_of r) = [].
Proof.
  cbn zeta. rewrite send_otp_on_started_broker.
  split; [done|]. split; [|split].
  - cbn. rewrite !elem_of_cons. auto 8.
  - vm_compute. reflexivity.
  - reflexivity.
Qed.



Lemma unreachable_refused n :
  refused unreachable (replicate n connection_refused) unreachable.
Proof. induction n as [|n IH]; [constructor|]. by econstructor. Qed.


(** While the broker cannot be reached, [connect_to_rabbitmq] has not
    returned, whatever the number of attempts. *)
Example connect_retries_forever :
  forall fuel, (run (connect_to_rabbitmq fuel) unreachable).1 = Running.
Proof.
  intros fuel. unfold run.
  pose proof (connect_after_refused _ _ _ (unreachable_refused fuel) 0 []) as Hrun.
  rewrite length_replicate, Nat.add_0_r in Hrun. by rewrite Hrun.
Qed.


Example ocr_rpc_created f delay :
  run OcrRpcClient_init (gateway_started f delay) =
  (Returned ocr_rpc,
   (gateway_ready f delay,
    [EConnect (Some "rabbitmq") None; EChannel None;
     EQueueDeclare "" false false true (Ret "amq.gen-4");
     EConsume "amq.gen-4" true None])).
Proof. vm_compute. reflexivity. Qed.

Lemma payload_requested payload f delay :
  requested ocr_rpc payload (gateway_ready f delay) "uuid-5"
            (PyJson.encode (envelope payload)) (gateway_requested payload f delay).
Proof.
  split; [reflexivity|]. split; [reflexivity|].
  unfold gateway_requested, request_for.
  generalize (PyJson.encode (envelope payload)). intros body.
  vm_compute. reflexivity.
Qed.

(** Without a worker every round is empty and leaves the broker as it is. *)
Lemma no_worker_quiet payload n :
  quiet 2 "uuid-5" (gateway_requested payload None 0) (replicate n [])
        (gateway_requested payload None 0).
Proof.
  induction n as [|n IH]; [constructor|].
  econstructor; [|constructor|exact IH].
  unfold gateway_requested, request_for.
  generalize (PyJson.encode (envelope payload)). intros body.
  vm_compute. reflexivity.
Qed.

(** A worker that is [delay] rounds away leaves that many rounds empty. *)
Lemma worker_delay_quiet payload f delay :
  quiet 2 "uuid-5" (gateway_requested payload (Some f) delay) (replicate delay [])
        (gateway_requested payload (Some f) 0).
Proof.
  induction delay as [|delay IH]; [constructor|].
  econstructor; [|constructor|exact IH].
  unfold gateway_requested, request_for.
  generalize (PyJson.encode (envelope payload)). intros body.
  vm_compute. reflexivity.
Qed.

Lemma echo_answered payload delay :
  answered ocr_rpc payload (gateway_ready (Some (echo_worker payload)) delay) delay
           [reply_for payload].
Proof.
  exists (PyJson.encode (envelope payload)),
    (gateway_requested payload (Some (echo_worker payload)) delay),
    (replicate delay []),
    (gateway_requested payload (Some (echo_worker payload)) 0),
    (process_data_events 2
       (gateway_requested payload (Some (echo_worker payload)) 0)).2.
  split; [apply payload_requested|]. split; [apply worker_delay_quiet|].
  split; [apply length_replicate|].
  unfold gateway_requested, request_for, reply_for, echo_worker.
  generalize (PyJson.encode (envelope payload)), (PyJson.encode payload).
  intros body reply. vm_compute. reflexivity.
Qed.

Lemma reply_echoes payload :
  echoes "uuid-5" (PyJson.encode payload) [reply_for payload].
Proof.
  split.
  - exists (reply_for payload). split; [by left|done].
  - by intros d ->%list_elem_of_singleton _.
Qed.

(** Round trip through the stub worker, however late it answers, for every
    payload whose JSON text reads back as the payload. *)
Example call_through_echo_worker payload delay fuel :
  json_loads (PyJson.encode payload) = Ret payload ->
  delay < fuel ->
  (run (call fuel ocr_rpc payload)
       (gateway_ready (Some (echo_worker payload)) delay)).1 =
  Returned (payload,
            mk_client 2 3 "amq.gen-4" (Some (PyJson.encode payload)) (Some "uuid-5")).
Proof.
  intros Hl Hlen.
  destruct (echo_answered payload delay)
    as (body & w2 & bs & w3 & w4 & Hreq & Hq & Hbs & Hp).
  rewrite (call_replied fuel ocr_rpc payload _ _ _ _ _ _ _ _ (PyJson.encode payload)
             Hreq Hq Hp); [by rewrite Hl| |lia].
  apply deliver_echo, reply_echoes.
Qed.

(** Every string payload makes the round trip. *)
Example call_through_echo_worker_string s delay :
  (run (call (S delay) ocr_rpc (PyStr s))
       (gateway_ready (Some (echo_worker (PyStr s))) delay)).1 =
  Returned (PyStr s,
            mk_client 2 3 "amq.gen-4" (Some (PyJson.quote s)) (Some "uuid-5")).
Proof.
  apply (call_through_echo_worker (PyStr s)); [|lia].
  apply PyJsonFacts.decode_quote.
Qed.

(** C2 fails on the code. With no worker answering, no number of rounds
    makes [call] return anything, [TimedOut] included. *)
Lemma call_never_times_out :
  ~ exists fuel, (run (call fuel ocr_rpc image) (gateway_ready None 0)).1 <> Running.
Proof.
  intros (fuel & Hrun). apply Hrun.
  rewrite (call_still_waiting fuel ocr_rpc image (gateway_ready None 0) "uuid-5"
             (PyJson.encode (envelope image)) (gateway_requested image None 0)
             (replicate fuel []) (gateway_requested image None 0)); [done|..].
  - apply payload_requested.
  - apply no_worker_quiet.
  - apply length_replicate.
Qed.

Lemma call_waits_without_bound_witness :
  (run (call 7 ocr_rpc image) (gateway_ready None 0)).1 = Running.
Proof.
  apply (call_waits_without_bound 7 ocr_rpc image (gateway_ready None 0) 7);
    [|lia].
  exists (PyJson.encode (envelope image)), (gateway_requested image None 0),
    (replicate 7 []), (gateway_requested image None 0).
  split; [apply payload_requested|]. split; [apply (no_worker_quiet image 7)|].
  reflexivity.
Defined.

Lemma call_round_trip_witness :
  exists self',
    (run (call 2 ocr_rpc image) (gateway_ready (Some (echo_worker image)) 1)).1 =
    Returned (image, self').
Proof.
  apply (call_round_trip 2 ocr_rpc image
           (gateway_ready (Some (echo_worker image)) 1) 1 [reply_for image]
           (PyJson.encode image)).
  - apply echo_answered.
  - apply reply_echoes.
  - reflexivity.
  - vm_compute. reflexivity.
  - lia.
Defined.

(** The stale reply and the echo arrive in one batch; the call returns
    the echo. *)
Example call_discards_stale_reply :
  run (call 1 ocr_rpc image) (gateway_ready (Some (noisy_echo_worker image)) 0) =
  (Returned (image, mk_client 2 3 "amq.gen-4" (Some (PyJson.encode image))
                              (Some "uuid-5")),
   (world_of (run (call 1 ocr_rpc image)
                  (gateway_ready (Some (noisy_echo_worker image)) 0)),
    [EUuid4 "uuid-5";
     request ocr_rpc "uuid-5" (PyJson.encode (envelope image)) None;
     EPump (Ret [stale_reply; reply_for image])])).
Proof. vm_compute. reflexivity. Qed.

Lemma call_returns_only_matching_reply_witness :
  let r := run (call 1 ocr_rpc image)
               (gateway_ready (Some (noisy_echo_worker image)) 0) in
  exists batch d,
    EPump (Ret batch) ∈ log_of r /\ stale_reply ∈ batch /\ d ∈ batch /\
    correlation_id (d_properties d) = Some "uuid-5" /\
    json_loads (d_body d) = Ret image.
Proof.
  cbn zeta.
  destruct (proj2 (proj2 (call_returns_only_matching_reply 1 ocr_rpc image
              (gateway_ready (Some (noisy_echo_worker image)) 0)))
              image
              (mk_client 2 3 "amq.gen-4" (Some (PyJson.encode image))
                         (Some "uuid-5")))
    as (batch & d & Hpump & Hin & Hc & _ & _ & Hl).
  { by rewrite call_discards_stale_reply. }
  exists batch, d. repeat split; try done.
  rewrite call_discards_stale_reply in Hpump. unfold log_of in Hpump.
  cbn [fst snd] in Hpump.
  rewrite !elem_of_cons, elem_of_nil in Hpump.
  destruct Hpump as [?|[?|[[= ->]|[]]]]; [done|done|]. by left.
Defined.

Lemma call_request_and_reply_witness :
  exists self',
    (run (call 2 ocr_rpc image) (gateway_ready (Some (echo_worker image)) 1)).1 =
      Returned (image, self') /\
    response self' = Some (PyJson.encode image).
Proof.
  pose proof (proj1 (proj2 (proj2 (proj2 (call_request_and_reply 2 ocr_rpc image
                (gateway_ready (Some (echo_worker image)) 1)))))
                1 [reply_for image] (PyJson.encode image)
                (echo_answered image 1)) as Hreply.
  assert (json_loads (PyJson.encode image) = Ret image) as Hl
    by (vm_compute; reflexivity).
  rewrite Hl in Hreply. apply Hreply; [|lia].
  vm_compute. reflexivity.
Defined.

Lemma send_otp_body_shape_witness :
  exists properties body r d text,
    EPublish "" "email_notification" persistent_properties otp_json None =
      EPublish "" "email_notification" properties body r /\
    json_dumps (PyDict d) = Ret body /\
    d.*1 = ["email"; "subject"; "other"; "body"] /\
    dict_get d "email" = Some (PyStr "a@b.com") /\
    dict_get d "body" = Some (PyStr text) /\
    contains "123456" text.
Proof.
  apply (send_otp_body_shape 1 "a@b.com" "123456" (Some 1) auth_started).
  rewrite send_otp_on_started_broker. cbn. by left.
Defined.

(** What the consumer of [email_notification] reads back. *)
Example otp_json_decoded :
  json_loads otp_json = Ret (otp_message "a@b.com" "123456").
Proof. vm_compute. reflexivity. Qed.

Example call_with_body_echo :
  (run (call 1 ocr_rpc image) (gateway_ready (Some body_echo_worker) 0)).1 =
  Returned (PyDict [("image_data", image)],
            mk_client 2 3 "amq.gen-4" (Some (PyJson.encode (envelope image)))
                      (Some "uuid-5")).
Proof. vm_compute. reflexivity. Qed.

(** On a broker without the queue the passive declare closes the channel:
    nothing is declared or published, the failure is printed, and the
    [finally] clause raises on the closed channel. *)
Example send_otp_on_missing_queue :
  let r := run (send_otp 1 "a@b.com" "123456" None) (starting 0) in
  r.1 = Raised channel_is_closed
  /\ queues (world_of r) = ∅
  /\ log_of r =
       [EConnect (Some "rabbitmq") None; EChannel None;
        EQueueDeclare "email_notification" true false false
          (Exc (not_found "email_notification"));
        EPrint (failed_line (not_found "email_notification"));
        EChannelClose (Some channel_is_closed)].
Proof. cbn zeta. split; [|split]; vm_compute; reflexivity. Qed.

End Scenarios.

(** * Runs without a broker address *)

Module UnconfiguredScenarios.
#[local] Existing Instance Unconfigured.pika.

End UnconfiguredScenarios.

(** * Further properties *)

(** ** send_otp: provisioning, clean-up and what can escape *)

Section SendOtpMore.
Context {W conn chan : Type} `{!Pika W conn chan} `{!JsonCodec}.

Lemma elem_of_filter_true (p : event -> bool) ev l :
  p ev = true -> ev ∈ l <-> ev ∈ List.filter p l.
Proof. intros Hp. rewrite !list_elem_of_In, List.filter_In. tauto. Qed.

Lemma declares_app l1 l2 : declares (l1 ++ l2) = declares l1 ++ declares l2.
Proof. apply List.filter_app. Qed.

Lemma declares_retry_log es : declares (retry_log es) = [].
Proof. induction es as [|e es IH]; [done|]. exact IH. Qed.

Lemma declares_provision r pre : provision_shape r pre -> declares pre = pre.
Proof. by destruct 1. Qed.

Lemma declares_try message o l :
  try_shape message o l ->
  exists r pre, provision_shape r pre /\ declares l = pre
                /\ (publishes l <> [] -> r = None)
                /\ (EPrint sent_line ∈ l -> r = None)
                /\ (forall e, r = Some e -> o = Raised e /\ l = pre).
Proof.
  destruct 1 as [e pre Hpre|e pre Hpre Hb|e pre body Hpre Hb|pre body Hpre Hb];
    rewrite ?declares_app, ?publishes_app, (declares_provision _ _ Hpre),
      ?(publishes_provision _ _ Hpre); cbn; rewrite ?app_nil_r.
  - exists (Some e), pre. split; [done|]. split; [done|]. split; [done|].
    split; [|by intros ? [= <-]].
    intros Hin. by apply (sent_not_in_provision _ _ Hpre) in Hin.
  - exists None, pre. by repeat split.
  - exists None, pre. by repeat split.
  - exists None, pre. by repeat split.
Qed.

Lemma declares_connected message o l :
  connected_shape message o l ->
  declares l = [] /\ publishes l = [] /\ EPrint sent_line ∉ l
  \/ exists r pre, provision_shape r pre /\ declares l = pre
                   /\ (publishes l <> [] -> r = None)
                   /\ (EPrint sent_line ∈ l -> r = None)
                   /\ forall e, r = Some e -> is_Exception e = true ->
                                EPrint (failed_line e) ∈ l.
Proof.
  destruct 1 as [e|o1 l1 o2 l2 r l3 Htry Hexc Hfin].
  { left. repeat split; [done..|]. rewrite not_elem_of_cons. split; [done|].
    apply not_elem_of_nil. }
  right.
  change (EChannel None :: l1 ++ l2 ++ l3) with ([EChannel None] ++ l1 ++ l2 ++ l3).
  destruct (declares_try _ _ _ Htry) as (r0 & pre & Hpre & Hd & Hp & Hs & Hr).
  exists r0, pre. rewrite !declares_app, !publishes_app, Hd.
  rewrite (publishes_except _ _ _ Hexc), (publishes_finally _ _ Hfin).
  assert (declares l2 = []) as -> by (by destruct Hexc).
  assert (declares l3 = []) as -> by (by destruct Hfin).
  cbn. rewrite !app_nil_r. repeat split; [done..| |].
  - rewrite !elem_of_cons, !elem_of_app. intros [?|[?|[Hin|Hin]]]; [done|auto| |].
    + destruct Hexc; rewrite ?elem_of_cons, ?elem_of_nil in Hin; naive_solver.
    + destruct Hfin; rewrite ?elem_of_cons, ?elem_of_nil in Hin; naive_solver.
  - intros e -> He. destruct (Hr e eq_refl) as [-> ->].
    inversion Hexc; subst; [|congruence].
    rewrite !elem_of_cons, !elem_of_app, !elem_of_cons. auto.
Qed.

Lemma declares_send_otp fuel email otp (ch : option chan) w :
  let l := log_of (run (send_otp fuel email otp ch) w) in
  declares l = [] /\ publishes l = [] /\ EPrint sent_line ∉ l
  \/ exists r pre, provision_shape r pre /\ declares l = pre
                   /\ (publishes l <> [] -> r = None)
                   /\ (EPrint sent_line ∈ l -> r = None)
                   /\ forall e, r = Some e -> is_Exception e = true ->
                                EPrint (failed_line e) ∈ l.
Proof.
  cbn zeta.
  destruct (send_otp_run fuel email otp ch w) as [es|es e He|es o new Hnew].
  - left. rewrite declares_retry_log, publishes_retry_log.
    repeat split; [done..|]. apply sent_not_in_retry_log.
  - left. rewrite declares_app, publishes_app, declares_retry_log,
      publishes_retry_log. repeat split; [done..|].
    rewrite elem_of_app, list_elem_of_singleton.
    intros [Hin|?]; [|done]. by apply sent_not_in_retry_log in Hin.
  - change (EConnect RABBITMQ_URL None :: new)
      with ([EConnect RABBITMQ_URL None] ++ new).
    rewrite !declares_app, !publishes_app, declares_retry_log,
      publishes_retry_log. cbn [declares publishes List.filter is_declare
      is_publish app].
    assert (forall ev, ev ∈ new -> ev ∈ retry_log es ++ [EConnect RABBITMQ_URL None] ++ new)
      as Hsub by (intros ev ?; rewrite !elem_of_app; auto).
    assert (EPrint sent_line ∈ retry_log es ++ [EConnect RABBITMQ_URL None] ++ new
            -> EPrint sent_line ∈ new) as Hsent.
    { rewrite !elem_of_app, list_elem_of_singleton.
      intros [Hin|[?|?]]; [|done..]. by apply sent_not_in_retry_log in Hin. }
    destruct (declares_connected _ _ _ Hnew)
      as [(Hd & Hp & Hs)|(r & pre & Hpre & Hd & Hp & Hs & Hf)].
    + left. repeat split; [done..|]. intros Hin. by apply Hs, Hsent.
    + right. exists r, pre. repeat split; [done..| |]; [auto|].
      intros e He1 He2. by apply Hsub, Hf.
Qed.

(** X1. [send_otp] never deletes a queue, and it declares no queue but
    [email_notification]: first passively, and then durable only when the
    passive declare answered with an empty name. *)
Theorem send_otp_declares_passively_first
    (fuel : nat) (email otp : string) (ch : option chan) (w : W) :
  let l := log_of (run (send_otp fuel email otp ch) w) in
  List.filter is_queue_delete l = []
  /\ (declares l = []
      \/ (exists r, declares l = [passive_declare r] /\ r <> Ret "")
      \/ (exists r, declares l = [passive_declare (Ret ""); durable_declare r])).
Proof.
  cbn zeta. split; [apply send_otp_never_deletes|].
  destruct (declares_send_otp fuel email otp ch w)
    as [(Hd & _)|(r & pre & Hpre & Hd & _)]; [by left|].
  right. rewrite Hd. destruct Hpre as [q Hq|e|r].
  - left. exists (Ret q). split; [done|]. intros [= ->]. done.
  - left. by exists (Exc e).
  - right. by exists r.
Qed.

(** X2. A missing queue loses the message: when the passive declare raises,
    [send_otp] declares nothing else, publishes nothing and does not print
    the success line; an [Exception] is reported on the failure line. *)
Theorem send_otp_needs_the_queue
    (fuel : nat) (email otp : string) (ch : option chan) (w : W) (e : exn) :
  let l := log_of (run (send_otp fuel email otp ch) w) in
  passive_declare (Exc e) ∈ l ->
  declares l = [passive_declare (Exc e)]
  /\ publishes l = []
  /\ (EPrint sent_line ∉ l)
  /\ (is_Exception e = true -> EPrint (failed_line e) ∈ l).
Proof.
  cbn zeta. intros Hin.
  apply (elem_of_filter_true is_declare) in Hin; [|done].
  fold (declares (log_of (run (send_otp fuel email otp ch) w))) in Hin.
  destruct (declares_send_otp fuel email otp ch w)
    as [(Hd & _)|(r & pre & Hpre & Hd & Hp & Hs & Hf)].
  { rewrite Hd in Hin. by apply elem_of_nil in Hin. }
  rewrite Hd in Hin |- *.
  assert (r = Some e /\ pre = [passive_declare (Exc e)]) as [-> ->].
  { destruct Hpre as [q Hq|e'|r];
      rewrite ?elem_of_cons, ?elem_of_nil in Hin;
      destruct Hin as [Hin|[Hin|[]]] || destruct Hin as [Hin|[]];
      try discriminate; by injection Hin as ->. }
  split; [done|]. split; [|split].
  - destruct (publishes _) eqn:Hpub; [done|]. by discriminate Hp.
  - intros Hsent. by discriminate Hs.
  - by apply Hf.
Qed.

Lemma closes_try message o l : try_shape message o l -> closes l = [].
Proof.
  destruct 1 as [e pre Hpre|e pre Hpre Hb|e pre body Hpre Hb|pre body Hpre Hb];
    by rewrite ?closes_app, (closes_provision _ _ Hpre).
Qed.

Lemma closes_except o1 o2 l : except_shape o1 o2 l -> closes l = [].
Proof. by destruct 1. Qed.

Lemma channel_not_in_retry_log r es : EChannel r ∉ retry_log es.
Proof. by intros [(? & ?)|[?|?]]%elem_of_retry_log. Qed.

Lemma send_otp_returned_closes fuel email otp (ch : option chan) w :
  (run (send_otp fuel email otp ch) w).1 = Returned tt ->
  closes (log_of (run (send_otp fuel email otp ch) w)) =
    [EChannelClose None; EConnectionClose None].
Proof.
  destruct (send_otp_run fuel email otp ch w) as [es|es e He|es o new Hnew];
    [done..|].
  intros Ho.
  change (EConnect RABBITMQ_URL None :: new)
    with ([EConnect RABBITMQ_URL None] ++ new).
  rewrite !closes_app, closes_retry_log. cbn [closes List.filter is_close app].
  destruct Hnew as [e|o1 l1 o2 l2 r l3 Htry Hexc Hfin]; [done|].
  change (EChannel None :: l1 ++ l2 ++ l3) with ([EChannel None] ++ l1 ++ l2 ++ l3).
  rewrite !closes_app, (closes_try _ _ _ Htry), (closes_except _ _ _ Hexc),
    (closes_finally _ _ Hfin). cbn.
  by destruct Hfin as [e|[e|]].
Qed.

(** X3. [send_otp] closes in order and at most once: nothing is closed
    when no channel was obtained (an open connection is then left behind);
    otherwise [channel.close()] is called once, and [connection.close()] is
    called, once, exactly when [channel.close()] returned. What a close
    raises is what [send_otp] raises. *)
Theorem send_otp_closes_in_order
    (fuel : nat) (email otp : string) (ch : option chan) (w : W) :
  let r := run (send_otp fuel email otp ch) w in
((EChannel None ∉ log_of r) /\ closes (log_of r) = [])
  \/ (EChannel None ∈ log_of r /\
      ((exists e, closes (log_of r) = [EChannelClose (Some e)] /\ r.1 = Raised e)
       \/ (exists res,
             closes (log_of r) = [EChannelClose None; EConnectionClose res] /\
             forall e, res = Some e -> r.1 = Raised e))).
Proof.
  cbn zeta.
  destruct (send_otp_run fuel email otp ch w) as [es|es e He|es o new Hnew].
  - left. split; [apply channel_not_in_retry_log|apply closes_retry_log].
  - left. rewrite closes_app, closes_retry_log. split; [|done].
    rewrite elem_of_app, list_elem_of_singleton.
    intros [Hin|?]; [|done]. by apply channel_not_in_retry_log in Hin.
  - change (EConnect RABBITMQ_URL None :: new)
      with ([EConnect RABBITMQ_URL None] ++ new).
    rewrite !closes_app, closes_retry_log. cbn [closes List.filter is_close app].
    destruct Hnew as [e|o1 l1 o2 l2 r l3 Htry Hexc Hfin].
    + left. split; [|done].
      rewrite !elem_of_app, !elem_of_cons, elem_of_nil.
      intros [Hin|[?|[?|[]]]]; [|done..]. by apply channel_not_in_retry_log in Hin.
    + right. split.
      { rewrite !elem_of_app, !elem_of_cons. auto. }
      change (EChannel None :: l1 ++ l2 ++ l3) with ([EChannel None] ++ l1 ++ l2 ++ l3).
      rewrite !closes_app, (closes_try _ _ _ Htry), (closes_except _ _ _ Hexc),
        (closes_finally _ _ Hfin). cbn.
      destruct Hfin as [e|res].
      * left. by exists e.
      * right. exists res. split; [done|]. by intros e ->.
Qed.


(** X5. [send_otp] has no loop of its own: within any number of steps it
    is still running exactly when [connect_to_rabbitmq] is. *)
Theorem send_otp_waits_only_for_the_connection
    (fuel : nat) (email otp : string) (ch : option chan) (w : W) :
  (run (send_otp fuel email otp ch) w).1 = Running <->
  (run (connect_to_rabbitmq fuel) w).1 = Running.
Proof.
  unfold run. rewrite send_otp_eq. unfold bind.
  destruct (connect_to_rabbitmq_run fuel w [])
    as [es w1 c w' Hlen Hr Hok|es w1 e' w' Hlen Hr Hex He|es w' Hlen Hr];
    cbn; [|done..].
  destruct (send_otp_connected_run email otp c w'
              (retry_log es ++ [EConnect RABBITMQ_URL None]))
    as (o & new & w2 & Hshape & ->).
  apply connected_shape_finished in Hshape. cbn. by split.
Qed.
End SendOtpMore.

(** ** connect_to_rabbitmq: the other exceptions *)

Section ConnectMore.
Context {W conn chan : Type} `{!Pika W conn chan}.

End ConnectMore.

(** ** OcrRpcClient: failures and what it leaves alone *)

Section RpcMore.
Context {W conn chan : Type} `{!Pika W conn chan} `{!JsonCodec}.
Implicit Types self : OcrRpcClient conn chan.

Lemma log_of_decode_reply (r : outcome (OcrRpcClient conn chan) * (W * list event)) :
  log_of (decode_reply r) = log_of r.
Proof.
  destruct r as [[self'|e|] s]; cbn; [|done..].
  by destruct (json_loads (response_bytes self')).
Qed.

Lemma filter_pump_log (p : event -> bool) bs :
  (forall r, p (EPump r) = false) -> List.filter p (pump_log bs) = [].
Proof.
  intros Hp. induction bs as [|b bs IH]; [done|]. cbn. by rewrite Hp.
Qed.

Lemma filter_wait_run (p : event -> bool) fuel self cid w t r :
  (forall r, p (EPump r) = false) ->
  wait_run fuel self cid w t r ->
  List.filter p (log_of r) = List.filter p t.
Proof.
  intros Hp [bs w1 batch w' body Hlen Hq Hpump Hd|bs w1 e w' Hlen Hq Hpump
            |bs w' Hlen Hq]; unfold log_of; cbn [snd];
    rewrite !List.filter_app, (filter_pump_log p bs Hp); cbn;
    rewrite ?Hp, ?app_nil_r; done.
Qed.

Lemma filter_call (p : event -> bool) fuel self image_data w :
  (forall r, p (EPump r) = false) ->
  (forall s, p (EUuid4 s) = false) ->
  (forall x k props body r, p (EPublish x k props body r) = false) ->
  List.filter p (log_of (run (call fuel self image_data) w)) = [].
Proof.
  intros Hpump Hu Hpub.
  destruct (call_run fuel self image_data w) as [e Hb|body e w' Hb|body w2 r Hreq Hw].
  - cbn. by rewrite Hu.
  - cbn. unfold request. by rewrite Hu, Hpub.
  - rewrite log_of_decode_reply, (filter_wait_run p _ _ _ _ _ _ Hpump Hw).
    cbn. unfold request. by rewrite Hu, Hpub.
Qed.

(** X7. A request that cannot be sent ends the call at once: when
    [json.dumps] raises, [call] raises the same exception having published
    nothing; when [basic_publish] raises, [call] raises the same exception;
    in neither case does it wait for a reply. *)
Theorem call_fails_before_waiting
    (fuel : nat) self (image_data : pyvalue) (w : W) :
  let r := run (call fuel self image_data) w in
  let cid := (uuid4 w).1 in
  (forall e, json_dumps (envelope image_data) = Exc e ->
             r = (Raised e, ((uuid4 w).2, [EUuid4 cid])))
  /\ (forall body e,
        request self cid body (Some e) ∈ log_of r ->
        r.1 = Raised e /\
        log_of r = [EUuid4 cid; request self cid body (Some e)]).
Proof.
  cbn zeta. split.
  - intros e He.
    destruct (call_cases fuel self image_data w)
      as [(e' & Hb & ->)|[(body & e' & w' & Hb & _)|(body & w' & _ & Hb & _)]];
      congruence.
  - intros body e Hin.
    destruct (call_run fuel self image_data w) as [e' Hb|body' e' w' Hb|body' w2 r Hreq Hw].
    + cbn in Hin. rewrite list_elem_of_singleton in Hin. discriminate.
    + cbn in Hin |- *. rewrite !elem_of_cons, elem_of_nil in Hin.
      destruct Hin as [Hin|[Hin|[]]]; [discriminate|].
      unfold request in Hin. by injection Hin as -> ->.
    + exfalso. apply (elem_of_filter_true is_publish) in Hin; [|done].
      rewrite log_of_decode_reply in Hin.
      assert (forall l, request self (uuid4 w).1 body (Some e) ∈ publishes l ->
                        request self (uuid4 w).1 body (Some e) ∈ l) as Hsub.
      { intros l. rewrite !list_elem_of_In. unfold publishes.
        rewrite List.filter_In. tauto. }
      fold (publishes (log_of r)) in Hin.
      unfold publishes in Hin.
      rewrite (filter_wait_run is_publish _ _ _ _ _ _ (fun _ => eq_refl) Hw) in Hin.
      cbn in Hin. rewrite list_elem_of_singleton in Hin.
      unfold request in Hin. discriminate.
Qed.

(** X8. A connection that breaks while the call waits ends the call: when
    [process_data_events] raises before a reply with the call's id has
    come, [call] raises that exception. *)
Theorem call_raises_when_polling_raises
    (fuel : nat) self (image_data : pyvalue) (w : W)
    (cid body : string) (w2 : W) (bs : list (list delivery)) (w3 : W)
    (e : exn) (w4 : W) :
  requested self image_data w cid body w2 ->
  quiet (connection self) cid w2 bs w3 ->
  process_data_events (connection self) w3 = (Exc e, w4) ->
  length bs < fuel ->
  run (call fuel self image_data) w =
  (Raised e,
   (w4, [EUuid4 cid; request self cid body None] ++ pump_log bs
        ++ [EPump (Exc e)])).
Proof.
  intros Hreq Hq Hp Hlen. rewrite (call_requested _ _ _ _ _ _ _ Hreq).
  replace fuel with (length bs + S (fuel - S (length bs))) by lia.
  rewrite (wait_after_quiet (waiting self cid) cid w2 bs w3) by done.
  rewrite (wait_step _ _ cid) by done.
  cbn [connection waiting set_corr_id set_response] in *. by rewrite Hp.
Qed.

(** X9. When one round hands over several messages with the id the client
    waits for, the body of the last of them is the response: each one
    overwrites the slot. *)
Theorem dispatch_keeps_last_matching_reply
    self (cid : string) (batch : list delivery) (d : delivery)
    (rest : list delivery) :
  corr_id self = Some cid ->
  matching cid d = true ->
  Forall (fun d' => matching cid d' = false) rest ->
  dispatch self (batch ++ d :: rest) = Ret (set_response self (Some (d_body d))).
Proof.
  intros Hc Hd Hrest. rewrite (dispatch_eq _ cid) by done.
  unfold deliver. rewrite fold_left_app. cbn [fold_left]. rewrite Hd.
  by rewrite (deliver_foreign cid (Some (d_body d)) rest Hrest
              : fold_left _ rest _ = _).
Qed.

(** X10. The client leaves the broker as it finds it apart from its own
    callback queue: neither [__init__] nor [call] ever closes the channel or
    the connection or deletes a queue (also when a step of theirs raises),
    [__init__] declares nothing but one exclusive queue named by the broker,
    and [call] declares nothing: the queue [ocr_service] it publishes to is
    never created by the client. *)
Theorem rpc_client_never_closes
    (fuel : nat) self (image_data : pyvalue) (w w' : W) :
  let li := log_of (run OcrRpcClient_init w) in
  let lc := log_of (run (call fuel self image_data) w') in
  closes li = [] /\ closes lc = []
  /\ List.filter is_queue_delete li = [] /\ List.filter is_queue_delete lc = []
  /\ (declares li = [] \/
      exists r, declares li = [EQueueDeclare "" false false true r])
  /\ declares lc = [].
Proof.
  cbn zeta.
  assert (closes (log_of (run (call fuel self image_data) w')) = []) as ->
    by (by apply filter_call).
  assert (List.filter is_queue_delete (log_of (run (call fuel self image_data) w')) = [])
    as -> by (by apply filter_call).
  assert (declares (log_of (run (call fuel self image_data) w')) = []) as ->
    by (by apply filter_call).
  unfold run, log_of, OcrRpcClient_init, bind, connect, open_channel, declare,
    consume, ret.
  rewrite perform_eq.
  destruct (BlockingConnection RABBITMQ_URL w) as [[cn|e] w1]; cbn; [|by auto 10].
  destruct (connection_channel cn w1) as [[ch|e] w2]; cbn; [|by auto 10].
  destruct (queue_declare ch "" false false true w2) as [[q|e] w3]; cbn;
    [|by eauto 10].
  destruct (basic_consume ch q true w3) as [[[]|e] w4]; cbn; by eauto 10.
Qed.
End RpcMore.

(** ** Passwords and one-time codes *)

Section Passwords.

Lemma sha256_hexdigest_length s :
  String.length (Hashlib.sha256_hexdigest s) = 64.
Proof.
  unfold Hashlib.sha256_hexdigest.
  by destruct (Hashlib.sha256 (Hashlib.bytes_of s)) as [[[[[[[a b] c] d] e] f] g] h].
Qed.

(** The digest of the three bytes [abc], as in FIPS 180-4. *)
Lemma sha256_hexdigest_abc :
  Hashlib.sha256_hexdigest "abc" =
  "ba7816bf8f01cfea414140de5dae2223b00361a396177a9cb410ff61f20015ad".
Proof. vm_compute. reflexivity. Qed.

Lemma prepare_password_length (password : string) :
  String.length (_prepare_password password) <= 72.
Proof.
  unfold _prepare_password.
  destruct (72 <? String.length password) eqn:Hlen.
  - rewrite sha256_hexdigest_length. lia.
  - by apply Nat.ltb_ge.
Qed.

(** X12. What [_prepare_password] hands to bcrypt never exceeds 72 bytes,
    and preparing twice changes nothing more. *)
Theorem prepare_password_fits_bcrypt (password : string) :
  String.length (_prepare_password password) <= 72
  /\ _prepare_password (_prepare_password password) = _prepare_password password.
Proof.
  unfold _prepare_password.
  destruct (72 <? String.length password) eqn:Hlen.
  - rewrite sha256_hexdigest_length. split; [lia|done].
  - rewrite Hlen. split; [|done]. by apply Nat.ltb_ge.
Qed.

(** X13. A password longer than 72 bytes is replaced by its SHA-256
    digest in hexadecimal, so that digest, typed as a password, is prepared
    to the same bcrypt input although it is a different string. *)
Theorem prepare_password_digest_is_equivalent (password : string) :
  72 < String.length password ->
  let digest := Hashlib.sha256_hexdigest password in
  digest <> password
  /\ _prepare_password password = digest
  /\ _prepare_password digest = digest.
Proof.
  intros Hlen digest. unfold _prepare_password.
  pose proof (sha256_hexdigest_length password) as Hd. fold digest in Hd.
  rewrite (proj2 (Nat.ltb_lt _ _) Hlen). fold digest. rewrite Hd.
  split; [|done]. intros Heq. rewrite Heq in Hd. lia.
Qed.
End Passwords.

Section Otp.
Context {W : Type} `{!Random W}.

Lemma pretty_six_digits (n : N) :
  (100000 <= n <= 999999)%N ->
  pretty n =
  String (pretty_N_char ((n / 100000) `mod` 10))
   (String (pretty_N_char ((n / 10000) `mod` 10))
     (String (pretty_N_char ((n / 1000) `mod` 10))
       (String (pretty_N_char ((n / 100) `mod` 10))
         (String (pretty_N_char ((n / 10) `mod` 10))
           (String (pretty_N_char (n `mod` 10)) ""))))).
Proof.
  intros Hn. unfold pretty, pretty_N.
  destruct (decide (n = 0%N)) as [->|_]; [lia|].
  assert (forall a b c : N, (a / b / c = a / (b * c))%N) as Hdiv
    by (intros; apply N.Div0.div_div).
  rewrite pretty_N_go_step by lia.
  rewrite pretty_N_go_step by (apply N.div_str_pos; lia).
  rewrite !Hdiv.
  rewrite pretty_N_go_step by (apply N.div_str_pos; lia).
  rewrite !Hdiv.
  rewrite pretty_N_go_step by (apply N.div_str_pos; lia).
  rewrite !Hdiv.
  rewrite pretty_N_go_step by (apply N.div_str_pos; lia).
  rewrite !Hdiv.
  rewrite pretty_N_go_step by (apply N.div_str_pos; lia).
  rewrite !Hdiv.
  change (10 * 10 * 10 * 10 * 10 * 10)%N with 1000000%N.
  change (10 * 10 * 10 * 10 * 10)%N with 100000%N.
  change (10 * 10 * 10 * 10)%N with 10000%N.
  change (10 * 10 * 10)%N with 1000%N.
  change (10 * 10)%N with 100%N.
  rewrite (N.div_small n 1000000) by lia.
  by rewrite pretty_N_go_0.
Qed.

Lemma pretty_N_char_digit (d : N) : (d < 10)%N -> is_digit (pretty_N_char d) = true.
Proof.
  intros Hd.
  assert (d = 0 \/ d = 1 \/ d = 2 \/ d = 3 \/ d = 4 \/ d = 5 \/ d = 6
          \/ d = 7 \/ d = 8 \/ d = 9)%N as Hcases by lia.
  decompose [or] Hcases; by subst.
Qed.

(** X14. [generate_otp] gives a string of exactly six decimal digits, the
    first of which is not 0: the numeral of the number drawn between
    100000 and 999999. *)
Theorem generate_otp_six_digits (w : W) :
  let otp := (generate_otp w).1 in
  String.length otp = 6
  /\ Forall (fun c => is_digit c = true) (list_ascii_of_string otp)
  /\ (exists c rest, otp = String c rest /\ c <> "0"%char)
  /\ exists n, (100000 <= n <= 999999)%Z /\ otp = pretty n.
Proof.
  cbn zeta. unfold generate_otp.
  pose proof (randint_range 100000 999999 w) as Hn.
  destruct (randint 100000 999999 w) as [n w']. cbn [fst] in *.
  specialize (Hn ltac:(lia)).
  assert (pretty n = pretty (Z.to_N n)) as Hp.
  { destruct n as [|p|p]; [lia|done|lia]. }
  assert (100000 <= Z.to_N n <= 999999)%N as Hm by lia.
  split; [|split; [|split]].
  - by rewrite Hp, (pretty_six_digits _ Hm).
  - rewrite Hp, (pretty_six_digits _ Hm). cbn [list_ascii_of_string].
    repeat (apply Forall_cons; split;
            [apply pretty_N_char_digit, N.mod_lt; lia|]).
    constructor.
  - rewrite Hp, (pretty_six_digits _ Hm). eexists _, _. split; [done|].
    assert (1 <= Z.to_N n / 100000 < 10)%N as Hd.
    { split; [apply N.div_le_lower_bound; lia|apply N.Div0.div_lt_upper_bound; lia]. }
    rewrite N.mod_small by lia.
    generalize dependent (Z.to_N n / 100000)%N. intros d Hd.
    assert (d = 1 \/ d = 2 \/ d = 3 \/ d = 4 \/ d = 5 \/ d = 6 \/ d = 7
            \/ d = 8 \/ d = 9)%N as Hcases by lia.
    decompose [or] Hcases; by subst.
  - by exists n.
Qed.
End Otp.

(** ** Elementary steps of the routes *)

(** Membership in a log that is written out. *)
Ltac log_cases H :=
  cbn [app fst snd failure] in H;
  repeat (rewrite elem_of_app in H || rewrite elem_of_cons in H
          || rewrite elem_of_nil in H);
  try contradiction;
  decompose [or] H; try clear H; try contradiction; simplify_eq.

Ltac in_log :=
  cbn [app fst snd failure];
  repeat (rewrite elem_of_app || rewrite elem_of_cons || rewrite elem_of_nil);
  solve [auto 12].

Section AppSteps.
Context {W : Type}.

Lemma app_perform_eq {A} (op : W -> app_result A * W)
    (log : app_result A -> app_event) w t :
  app_perform op log (w, t) =
  (match (op w).1 with Value a => Done a | Throws e => Failed e end,
   ((op w).2, t ++ [log (op w).1])).
Proof. unfold app_perform. by destruct (op w). Qed.

Lemma from_M_eq {A} (m : M W A) w t :
  from_M m (w, t) =
  (match (run m w).1 with
   | Returned a => Done a
   | Raised e => Failed (Library e)
   | Running => Pending
   end, (world_of (run m w), t ++ map Amqp (log_of (run m w)))).
Proof. unfold from_M, run, world_of, log_of. by destruct (m (w, [])) as [o [w' l]]. Qed.

Lemma from_M_perform {A} (op : W -> result A * W) (log : result A -> event) w t :
  from_M (perform op log) (w, t) =
  (match (op w).1 with Ret a => Done a | Exc e => Failed (Library e) end,
   ((op w).2, t ++ [Amqp (log (op w).1)])).
Proof. rewrite from_M_eq. unfold run. rewrite perform_eq. cbn. by destruct (op w).1. Qed.

Lemma amqp_of_app l1 l2 : amqp_of (l1 ++ l2) = amqp_of l1 ++ amqp_of l2.
Proof. apply omap_app. Qed.

Lemma amqp_of_map l : amqp_of (map Amqp l) = l.
Proof.
  unfold amqp_of. induction l as [|ev l IH]; [done|]. cbn. by rewrite IH.
Qed.
End AppSteps.

(** ** auth/service.py: accounts and tokens *)

Section AuthServiceFacts.
Import AuthService.
Context {W conn chan user : Type} `{!Pika W conn chan} `{!JsonCodec}
  `{!Database W user} `{!Tokens user} `{!Registration W} `{!Random W}.

(** X15. What [create_user] gives to bcrypt is [_prepare_password] of the
    password, never more than 72 bytes: the password itself when it has at
    most 72 bytes, its SHA-256 hex digest otherwise. What it stores is the
    name it was given, the address the validator returned and the hash
    bcrypt returned for the prepared password. An address the validator
    rejects is answered with 404 before anything is hashed or stored. *)
Theorem create_user_stores_hash_of_prepared_password
    (name email password : string) (w : W) :
  let r := run_app (AuthService.create_user name email password) w in
  (forall secret res,
      BcryptHash secret res ∈ r.2.2 ->
      secret = _prepare_password password /\ String.length secret <= 72)
  /\ (forall email' name' hashed res,
        DbInsert email' name' hashed res ∈ r.2.2 ->
        ValidateEmail email (Value email') ∈ r.2.2 /\ name' = name /\
        BcryptHash (_prepare_password password) (Value hashed) ∈ r.2.2)
  /\ (forall msg,
        (validate_email email w).1 = Throws (EmailNotValidError msg) ->
        r.1 = Failed (HTTPException 404 (PyStr "Please enter a valid email")) /\
        r.2.2 = [ValidateEmail email (Throws (EmailNotValidError msg))]).
Proof.
  cbn zeta.
  pose proof (prepare_password_length password) as Hfits.
  unfold run_app, AuthService.create_user, app_bind, app_try, on_operational_error.
  rewrite app_perform_eq.
  destruct (validate_email email w) as [[email'|e] w1]; cbn [fst snd].
  - rewrite app_perform_eq.
    destruct (bcrypt_hash (_prepare_password password) w1) as [[hashed|e] w2];
      cbn [fst snd].
    + rewrite app_perform_eq.
      destruct (insert_user email' name hashed w2) as [[u|e] w3]; cbn [fst snd];
        [|destruct e; cbn [fst snd app_raise]].
      all: split; [|split; [|done]].
      all: try (intros secret res Hin; log_cases Hin; done).
      all: intros em nm hs res Hin; log_cases Hin; split; [in_log|split; [done|in_log]].
    + destruct e; cbn [fst snd app_raise].
      all: split; [|split; [|done]].
      all: try (intros secret res Hin; log_cases Hin; done).
      all: intros em nm hs res Hin; log_cases Hin.
  - destruct e; cbn [fst snd app_raise].
    all: split; [|split].
    all: try (intros secret res Hin; log_cases Hin; done).
    all: try (intros em nm hs res Hin; log_cases Hin; done).
    all: by intros msg' [= ->].
Qed.

(** X16. [get_current_user] answers every failure on the way to the user
    with 401 "Invalid Email or Password": a token that does not decode, a
    payload without [id], and also a database that is down, whose
    [DatabaseUnavailable] the bare [except] swallows. It returns exactly
    what [from_orm] makes of the answer of the database to the query for
    the [id] of the token, after that one query, and it fails otherwise
    only where [from_orm] fails on that answer. *)
Theorem get_current_user_answers_401 (token : string) (w : W) :
  let r := run_app (get_current_user token) w in
  r.1 <> Pending
  /\ (forall e, r.1 = Failed e ->
        e = invalid_email_or_password \/
        exists payload id u,
          jwt_decode token = Value payload /\ subscript payload "id" = Value id /\
          (get_by_id id w).1 = Value u /\ from_orm u = Throws e)
  /\ (forall id e, DbGet id (Some e) ∈ r.2.2 ->
                   r.1 = Failed invalid_email_or_password)
  /\ (forall e, jwt_decode token = Throws e ->
                r = (Failed invalid_email_or_password, (w, [])))
  /\ (forall payload e,
        jwt_decode token = Value payload -> subscript payload "id" = Throws e ->
        r = (Failed invalid_email_or_password, (w, [])))
  /\ (forall v, r.1 = Done v <->
        exists payload id u,
          jwt_decode token = Value payload /\ subscript payload "id" = Value id /\
          (get_by_id id w).1 = Value u /\ from_orm u = Value v)
  /\ (forall v, r.1 = Done v ->
        exists payload id,
          jwt_decode token = Value payload /\ subscript payload "id" = Value id /\
          r.2 = ((get_by_id id w).2, [DbGet id None])).
Proof.
  cbn zeta.
  unfold run_app, get_current_user, app_bind, app_try, app_lift, app_ret, app_raise.
  destruct (jwt_decode token) as [payload|e0] eqn:Hj; cbn [fst snd].
  2: { split; [done|]. split; [intros ? [= <-]; by left|].
       split; [intros ?? Hin; log_cases Hin|]. split; [done|].
       split; [by intros ?? [=]|]. split; [|by intros ? [=]].
       intros v. split; [by intros [=]|]. by intros (? & ? & ? & [=] & _). }
  destruct (subscript payload "id") as [id|e0] eqn:Hsub; cbn [fst snd].
  2: { assert (forall v : pyvalue,
                 ~ exists payload0 id u,
                     Value payload = Value payload0 /\
                     subscript payload0 "id" = Value id /\
                     (get_by_id id w).1 = Value u /\ from_orm u = Value v) as Hno.
       { intros v (? & ? & ? & [= <-] & Hs & _). congruence. }
       destruct e0; cbn [on_operational_error fst snd app_raise].
       all: split; [done|]; split; [intros ? [= <-]; by left|].
       all: split; [intros ?? Hin; log_cases Hin|]; split; [done|].
       all: split; [done|]; split; [|by intros ? [=]].
       all: intros v; split; [by intros [=]|]; intros Hv; by destruct (Hno v). }
  rewrite app_perform_eq.
  destruct (get_by_id id w) as [[u|e0] w1] eqn:Hg; cbn [fst snd].
  - destruct (from_orm u) as [v|e1] eqn:Hv; cbn [fst snd].
    + split; [done|]. split; [done|].
      split; [intros ?? Hin; log_cases Hin|]. split; [done|].
      split; [intros ?? [= <-]; congruence|]. split.
      * intros v'. split.
        -- intros [= <-]. exists payload, id, u. by rewrite Hg.
        -- intros (p' & id' & u' & [= <-] & Hs & Hq & Hf).
           rewrite Hsub in Hs. injection Hs as <-. rewrite Hg in Hq.
           cbn in Hq. injection Hq as <-. congruence.
      * intros v' _. exists payload, id. by rewrite Hg.
    + split; [done|]. split.
      { intros ? [= <-]. right. exists payload, id, u. by rewrite Hg. }
      split; [intros ?? Hin; log_cases Hin|]. split; [done|].
      split; [intros ?? [= <-]; congruence|]. split; [|by intros ? [=]].
      intros v'. split; [by intros [=]|].
      intros (p' & id' & u' & [= <-] & Hs & Hq & Hf).
      rewrite Hsub in Hs. injection Hs as <-. rewrite Hg in Hq.
      cbn in Hq. injection Hq as <-. congruence.
  - assert (forall v : pyvalue,
              ~ exists payload0 id0 u,
                  Value payload = Value payload0 /\
                  subscript payload0 "id" = Value id0 /\
                  (get_by_id id0 w).1 = Value u /\ from_orm u = Value v) as Hno.
    { intros v (p' & id' & u' & [= <-] & Hs & Hq & _).
      rewrite Hsub in Hs. injection Hs as <-. rewrite Hg in Hq. done. }
    destruct e0; cbn [on_operational_error fst snd app_raise].
    all: split; [done|]; split; [intros ? [= <-]; by left|].
    all: split; [done|]; split; [done|].
    all: split; [intros ?? [= <-]; congruence|]; split; [|by intros ? [=]].
    all: intros v; split; [by intros [=]|]; intros Hv; by destruct (Hno v).
Qed.
End AuthServiceFacts.

(** ** auth/main.py: the routes *)

Section AuthMainFacts.
Import AuthService AuthMain.
Context {W conn chan user : Type} `{!Pika W conn chan} `{!JsonCodec}
  `{!Database W user} `{!Tokens user} `{!Registration W} `{!Random W}.

Lemma get_user_by_email_eq email w t :
  get_user_by_email email (w, t) =
  (match (first_by_email email w).1 with
   | Value u => Done u
   | Throws (OperationalError _) => Failed database_is_unavailable
   | Throws e => Failed e
   end,
   ((first_by_email email w).2,
    t ++ [DbFirst email (failure (first_by_email email w).1)])).
Proof.
  unfold get_user_by_email, app_try. rewrite app_perform_eq.
  destruct (first_by_email email w) as [[u|e] w1]; cbn [fst snd]; [done|].
  by destruct e.
Qed.

Lemma generate_token_run username password w :
  run_app (generate_token username password) w =
  let q := first_by_email username w in
  match q.1 with
  | Throws e =>
      (Failed (match e with
               | OperationalError _ | DatabaseUnavailable _ =>
                   database_service_is_unavailable
               | _ => e
               end), (q.2, [DbFirst username (Some e)]))
  | Value None =>
      (Failed (HTTPException 401 (PyStr "Invalid Credentials")),
       (q.2, [DbFirst username None; Logging INFO "Invalid Credentials" None]))
  | Value (Some u) =>
      if is_verified u then
        match verify_password u password with
        | Value true =>
            handled_503 (create_token u
              (q.2, [DbFirst username None; Logging INFO "JWT Token Generated" None]))
        | Value false =>
            (Failed (HTTPException 401 (PyStr "Invalid Credentials")),
             (q.2, [DbFirst username None; Logging INFO "Invalid Credentials" None]))
        | Throws e =>
            (Failed (match e with
                     | DatabaseUnavailable _ => database_service_is_unavailable
                     | _ => e
                     end), (q.2, [DbFirst username None]))
        end
      else
        (Failed (HTTPException 403 (PyStr verification_pending)),
         (q.2, [DbFirst username None;
                Logging INFO "Email verification is pending. Please verify your email to proceed. " None]))
  end.
Proof.
  cbn zeta.
  unfold run_app, generate_token, authenticate_user, app_try.
  unfold app_bind at 1 2. rewrite get_user_by_email_eq.
  destruct (first_by_email username w) as [[[u|]|e] w1]; cbn [fst snd failure app].
  - destruct (is_verified u) eqn:Hu; cbn [negb]; [|done].
    unfold app_bind at 1, app_lift.
    destruct (verify_password u password) as [[]|e] eqn:Hp; cbn; [|done|by destruct e].
    unfold handled_503.
    destruct (create_token u _) as [[v|e|] s']; [done| |done].
    by destruct e.
  - done.
  - by destruct e.
Qed.

Lemma create_token_done u (s s' : W * list app_event) v :
  create_token u s = (Done v, s') ->
  exists token,
    v = PyDict [("access_token", PyStr token); ("token_type", PyStr "bearer")].
Proof.
  unfold create_token, app_bind, app_lift, app_ret, app_raise.
  destruct (model_dump u) as [d|e]; cbn; [|done].
  destruct (dict_del d "date_created") as [d'|e]; cbn; [|done].
  destruct (jwt_encode d') as [token|e]; cbn; [|done].
  intros [= <- _]. by exists token.
Qed.

(** X17. [generate_token] answers an unverified account with 403 whatever
    the password is: the password is not looked at. An unknown address and
    a wrong password get the same 401, with the same log line. A database
    that is down at the lookup gives 503, and a token is returned only for
    a verified user whose password verifies. *)
Theorem generate_token_answers (username password : string) (w : W) :
  let r := run_app (generate_token username password) w in
  let q := first_by_email username w in
  (forall u, q.1 = Value (Some u) -> is_verified u = false ->
     r = (Failed (HTTPException 403 (PyStr verification_pending)),
          (q.2, [DbFirst username None;
                 Logging INFO "Email verification is pending. Please verify your email to proceed. " None])))
  /\ (q.1 = Value None \/
      (exists u, q.1 = Value (Some u) /\ is_verified u = true /\
                 verify_password u password = Value false) ->
      r = (Failed (HTTPException 401 (PyStr "Invalid Credentials")),
           (q.2, [DbFirst username None; Logging INFO "Invalid Credentials" None])))
  /\ (forall msg, q.1 = Throws (OperationalError msg) ->
      r = (Failed database_service_is_unavailable,
           (q.2, [DbFirst username (Some (OperationalError msg))])))
  /\ (forall v, r.1 = Done v ->
      exists u token,
        q.1 = Value (Some u) /\ is_verified u = true /\
        verify_password u password = Value true /\
        v = PyDict [("access_token", PyStr token); ("token_type", PyStr "bearer")]).
Proof.
  cbn zeta. rewrite generate_token_run. cbn zeta.
  destruct (first_by_email username w) as [[[u|]|e] w1]; cbn [fst snd].
  - split; [by intros ? [= <-] ->|].
    split.
    { intros [[=]|(? & [= <-] & -> & ->)]. done. }
    split; [by intros ? [=]|].
    destruct (is_verified u) eqn:Hu; [|done].
    destruct (verify_password u password) as [[]|e] eqn:Hp; [|done..].
    intros v Hv. unfold handled_503 in Hv.
    destruct (create_token u _) as [[v'|e|] s'] eqn:Hc; [| |done].
    + injection Hv as ->. apply create_token_done in Hc as (token & ->).
      by exists u, token.
    + by destruct e.
  - split; [by intros ? [=]|]. split; [done|]. split; [by intros ? [=]|]. done.
  - split; [by intros ? [=]|]. split; [intros [[=]|(? & [=] & _)]|].
    split; [by intros ? [= ->]|]. done.
Qed.




Lemma connect_broker_facts (w1 : W) t r :
  r = connect_broker (w1, t) -> amqp_of t = [] ->
  let l := amqp_of r.2.2 in
  r.1 <> Pending
  /\ (forall e, r.1 = Failed e -> app_is_Exception e = false)
  /\ closes l = []
  /\ (exists res, List.filter is_connect l = [EConnect (Some "localhost") res])
  /\ (declares l = [] \/
      exists res,
        declares l = [EQueueDeclare "email_notification" false false false res])
  /\ (forall connection channel,
        r.1 = Done (connection, channel) ->
        (connection <> None <-> EConnect (Some "localhost") None ∈ l) /\
        (channel <> None <-> EChannel None ∈ l)).
Proof.
  intros Hr Ht. unfold connect_broker in Hr.
  unfold app_try at 1, app_bind at 1, connect in Hr. rewrite from_M_perform in Hr.
  destruct (BlockingConnection (Some "localhost") w1) as [[c|e] w2];
    cbn [fst snd raised] in Hr.
  2: { unfold rabbitmq_failed in Hr. cbn [app_is_Exception] in Hr.
       destruct (is_Exception e) eqn:He; unfold app_bind, app_ret, app_raise, logging_info, logging_error in Hr; cbn in Hr; subst r; cbn [fst snd];
         rewrite ?amqp_of_app, Ht; cbn.
       all: split; [done|]; split; [by intros ? [= <-]|]; split; [done|].
       all: split; [by eexists|]; split; [by left|].
       all: try done.
       intros ?? [= <- <-]. split; (split; [done|]); intros Hin; log_cases Hin. }
  unfold app_try at 1, app_bind at 1, open_channel in Hr.
  rewrite from_M_perform in Hr.
  destruct (connection_channel c w2) as [[ch|e] w3]; cbn [fst snd raised] in Hr.
  2: { unfold rabbitmq_failed at 1 in Hr. cbn [app_is_Exception] in Hr.
       destruct (is_Exception e) eqn:He; unfold app_bind, app_ret, app_raise, logging_info, logging_error in Hr; cbn in Hr;
         [|unfold rabbitmq_failed in Hr; cbn [app_is_Exception] in Hr;
           unfold app_bind, app_ret, app_raise, logging_info, logging_error in Hr;
        repeat (rewrite He in Hr; cbn in Hr)];
         subst r; cbn [fst snd]; rewrite ?amqp_of_app, Ht; cbn.
       all: split; [done|]; split; [by intros ? [= <-]|]; split; [done|].
       all: split; [by eexists|]; split; [by left|].
       all: try done.
       intros ?? [= <- <-]. split; split; try done.
       - intros _. in_log.
       - intros Hin. log_cases Hin. }
  unfold app_try at 1, app_bind at 1, declare in Hr. rewrite from_M_perform in Hr.
  destruct (queue_declare ch "email_notification" false false false w3)
    as [[q|e] w4]; cbn [fst snd] in Hr.
  - unfold app_bind, app_ret, app_raise, logging_info, logging_error in Hr; cbn in Hr. subst r. cbn [fst snd]. rewrite ?amqp_of_app, Ht. cbn.
    split; [done|]. split; [done|]. split; [done|].
    split; [by eexists|]. split; [right; by eexists|].
    intros ?? [= <- <-]. split; (split; [intros _; in_log|done]).
  - unfold rabbitmq_failed at 1 in Hr. cbn [app_is_Exception] in Hr.
    destruct (is_Exception e) eqn:He; unfold app_bind, app_ret, app_raise, logging_info, logging_error in Hr; cbn in Hr;
      [|unfold rabbitmq_failed in Hr; cbn [app_is_Exception] in Hr;
        unfold app_bind, app_ret, app_raise, logging_info, logging_error in Hr;
        repeat (rewrite He in Hr; cbn in Hr)];
      subst r; cbn [fst snd]; rewrite ?amqp_of_app, Ht; cbn.
    all: split; [done|]; split; [by intros ? [= <-]|]; split; [done|].
    all: split; [by eexists|]; split; [right; by eexists|].
    all: try done.
    intros ?? [= <- <-]. split; (split; [intros _; in_log|done]).
Qed.

(** X20. The start-up of the auth service never fails on an [Exception]
    of the database or of the broker, and never retries: it makes at most
    one connection attempt, always at [localhost], declares at most
    [email_notification], with the default flags (so not durable), and
    closes nothing, also when a later step fails. The globals it leaves
    are set exactly as far as it got. *)
Theorem lifespan_starts_degraded (w : W) :
  let r := run_app AuthMain.lifespan w in
  let l := amqp_of r.2.2 in
  r.1 <> Pending
  /\ (forall e, r.1 = Failed e -> app_is_Exception e = false)
  /\ closes l = []
  /\ (List.filter is_connect l = [] \/
      exists res, List.filter is_connect l = [EConnect (Some "localhost") res])
  /\ (declares l = [] \/
      exists res,
        declares l = [EQueueDeclare "email_notification" false false false res])
  /\ (forall connection channel,
        r.1 = Done (connection, channel) ->
        (connection <> None <-> EConnect (Some "localhost") None ∈ l) /\
        (channel <> None <-> EChannel None ∈ l)).
Proof.
  cbn zeta. remember (run_app lifespan w) as r eqn:Hr.
  unfold run_app, lifespan, create_tables in Hr.
  unfold app_bind at 1 in Hr. unfold app_try at 1 in Hr.
  unfold app_bind at 1 in Hr. rewrite app_perform_eq in Hr.
  destruct (create_all w) as [[[]|e] w1]; cbn [fst snd failure] in Hr.
  - unfold logging_info in Hr. cbn [app] in Hr.
    destruct (connect_broker_facts _ _ _ Hr eq_refl) as (?&?&?&(?&?)&?&?).
    eauto 10.
  - destruct (app_is_Exception e) eqn:He.
    + unfold logging_error in Hr. cbn [app] in Hr.
      destruct (connect_broker_facts _ _ _ Hr eq_refl) as (?&?&?&(?&?)&?&?).
      eauto 10.
    + subst r. cbn. split; [done|]. split; [by intros ? [= <-]|].
      split; [done|]. split; [by left|]. split; [by left|]. done.
Qed.
End AuthMainFacts.

(** ** gateway/main.py *)

Section GatewayMainFacts.
Import GatewayMain.
Context {W conn chan : Type} `{!Pika W conn chan} `{!JsonCodec}
  `{!Requests W} `{!Files W}.





(** X22. The start-up of the gateway never fails on an [Exception] and
    never retries: one connection attempt at [RABBITMQ_URL], nothing closed.
    It declares [gatewayservice] and then [ocr_service], both with the
    default flags, and stops at the first step that raises: when the first
    declare fails, [ocr_service] is not declared at all. The success line is
    logged exactly when both declares returned. *)
Theorem gateway_lifespan_declares_in_order (w : W) :
  let r := run_app GatewayMain.lifespan w in
  let l := amqp_of r.2.2 in
  r.1 <> Pending
  /\ (forall e, r.1 = Failed e -> app_is_Exception e = false)
  /\ closes l = []
  /\ (exists res, List.filter is_connect l = [EConnect RABBITMQ_URL res])
  /\ (declares l = []
      \/ (exists e,
            declares l = [EQueueDeclare "gatewayservice" false false false (Exc e)])
      \/ (exists q res,
            declares l = [EQueueDeclare "gatewayservice" false false false (Ret q);
                          EQueueDeclare "ocr_service" false false false res]))
  /\ (Logging INFO "Connected to RabbitMQ and declared queues" None ∈ r.2.2 <->
      exists q q',
        declares l = [EQueueDeclare "gatewayservice" false false false (Ret q);
                      EQueueDeclare "ocr_service" false false false (Ret q')]).
Proof.
  cbn zeta. remember (run_app GatewayMain.lifespan w) as r eqn:Hr.
  unfold run_app, GatewayMain.lifespan in Hr.
  unfold app_try, app_bind at 1, connect in Hr. rewrite from_M_perform in Hr.
  destruct (BlockingConnection RABBITMQ_URL w) as [[c|e] w1];
    cbn [fst snd raised app_is_Exception] in Hr.
  2: { destruct (is_Exception e) eqn:He;
         unfold logging_error in Hr; cbn in Hr; subst r; cbn.
       all: split; [done|]; split; [by intros ? [= <-]|]; split; [done|].
       all: split; [by eexists|]; split; [by left|].
       all: split; [intros Hin; log_cases Hin|by intros (?&?&?)]. }
  unfold app_bind at 1, open_channel in Hr. rewrite from_M_perform in Hr.
  destruct (connection_channel c w1) as [[ch|e] w2];
    cbn [fst snd raised app_is_Exception] in Hr.
  2: { destruct (is_Exception e) eqn:He;
         unfold logging_error in Hr; cbn in Hr; subst r; cbn.
       all: split; [done|]; split; [by intros ? [= <-]|]; split; [done|].
       all: split; [by eexists|]; split; [by left|].
       all: split; [intros Hin; log_cases Hin|by intros (?&?&?)]. }
  unfold app_bind at 1, declare in Hr. rewrite from_M_perform in Hr.
  destruct (queue_declare ch "gatewayservice" false false false w2) as [[q|e] w3];
    cbn [fst snd raised app_is_Exception] in Hr.
  2: { destruct (is_Exception e) eqn:He;
         unfold logging_error in Hr; cbn in Hr; subst r; cbn.
       all: split; [done|]; split; [by intros ? [= <-]|]; split; [done|].
       all: split; [by eexists|]; split; [right; left; by eexists|].
       all: split; [intros Hin; log_cases Hin|by intros (?&?&?)]. }
  unfold app_bind at 1 in Hr. rewrite from_M_perform in Hr.
  destruct (queue_declare ch "ocr_service" false false false w3) as [[q'|e] w4];
    cbn [fst snd raised app_is_Exception] in Hr.
  2: { destruct (is_Exception e) eqn:He;
         unfold logging_error in Hr; cbn in Hr; subst r; cbn.
       all: split; [done|]; split; [by intros ? [= <-]|]; split; [done|].
       all: split; [by eexists|]; split; [right; right; by eexists _, _|].
       all: split; [intros Hin; log_cases Hin|by intros (?&?&?)]. }
  unfold logging_info in Hr. cbn in Hr. subst r. cbn.
  split; [done|]. split; [done|]. split; [done|].
  split; [by eexists|]. split; [right; right; by eexists _, _|].
  split; [by eexists _, _|]. intros _. in_log.
Qed.

Lemma filter_init (p : event -> bool) w :
  (forall h r, p (EConnect h r) = false) ->
  (forall r, p (EChannel r) = false) ->
  (forall q a b c r, p (EQueueDeclare q a b c r) = false) ->
  (forall q a r, p (EConsume q a r) = false) ->
  List.filter p (log_of (run OcrRpcClient_init w)) = [].
Proof.
  intros H1 H2 H3 H4.
  unfold run, log_of, OcrRpcClient_init, bind, connect, open_channel, declare,
    consume, ret.
  rewrite perform_eq.
  destruct (BlockingConnection RABBITMQ_URL w) as [[cn|e] w1]; cbn;
    rewrite ?H1, ?H2, ?H3, ?H4; [|done].
  destruct (connection_channel cn w1) as [[ch|e] w2]; cbn;
    rewrite ?H1, ?H2, ?H3, ?H4; [|done].
  destruct (queue_declare ch "" false false true w2) as [[q|e] w3]; cbn;
    rewrite ?H1, ?H2, ?H3, ?H4; [|done].
  destruct (basic_consume ch q true w3) as [[[]|e] w4]; cbn;
    by rewrite ?H1, ?H2, ?H3, ?H4.
Qed.

Lemma removes_app l1 l2 : removes (l1 ++ l2) = removes l1 ++ removes l2.
Proof. apply List.filter_app. Qed.

Lemma removes_amqp l : removes (map Amqp l) = [].
Proof. induction l as [|ev l IH]; [done|]. exact IH. Qed.

Lemma removes_cons ev l :
  removes (ev :: l) = (if is_remove ev then [ev] else []) ++ removes l.
Proof. unfold removes. cbn. by destruct (is_remove ev). Qed.

Lemma amqp_of_cons ev l :
  amqp_of (ev :: l) = match ev with Amqp e => [e] | _ => [] end ++ amqp_of l.
Proof. unfold amqp_of. cbn. by destruct ev. Qed.

Ltac norm_log :=
  cbn [fst snd];
  repeat (rewrite removes_app || rewrite removes_cons || rewrite removes_amqp
          || rewrite amqp_of_app || rewrite amqp_of_cons || rewrite amqp_of_map
          || rewrite closes_app);
  change (removes []) with (@nil app_event);
  change (amqp_of []) with (@nil event);
  cbn [app is_remove].

Lemma ocr_request_sent (fuel : nat) (self : OcrRpcClient conn chan)
    (image_data : pyvalue) (w : W) l :
  l = log_of (run (call fuel self image_data) w) ->
  closes l = []
  /\ (publishes l = [] \/
      exists props body res,
        json_dumps (envelope image_data) = Ret body /\
        publishes l = [EPublish "" "ocr_service" props body res]).
Proof.
  intros ->. split; [by apply filter_call|].
  destruct (call_publishes fuel self image_data w) as [?|(body & res & ? & ?)];
    [by left|].
  right. by eexists _, body, res.
Qed.

(** X23. The [/ocr] route removes the uploaded file only as its last step:
    [os.remove] is called at most once, and only after [call] has returned a
    reply. While the call waits for the worker, and whenever a step after
    the write raises, the file stays where it was written. The connection
    the route opens for its client is never closed. *)
Theorem ocr_removes_file_only_after_reply
    (fuel : nat) (filename upload : string) (payload : pyvalue) (w : W) :
  let r := run_app (ocr fuel filename upload payload) w in
  (forall v, r.1 = Done v -> removes r.2.2 = [FileRemove filename None])
  /\ (r.1 = Pending ->
      removes r.2.2 = [] /\ FileWrite filename upload None ∈ r.2.2)
  /\ (forall e, r.1 = Failed e ->
        removes r.2.2 = [] \/ removes r.2.2 = [FileRemove filename (Some e)])
  /\ closes (amqp_of r.2.2) = [].
Proof.
  cbn zeta. remember (run_app (ocr fuel filename upload payload) w) as r eqn:Hr.
  unfold run_app, ocr in Hr.
  unfold app_bind at 1 in Hr. rewrite app_perform_eq in Hr.
  destruct (file_write filename upload w) as [[[]|e] w1]; cbn [fst snd failure] in Hr.
  2: { subst r. cbn. split; [done|]. split; [done|]. split; [|done].
       intros ? _. by left. }
  unfold app_bind at 1 in Hr. rewrite from_M_eq in Hr.
  pose proof (filter_init is_close w1 ltac:(done) ltac:(done) ltac:(done)
                ltac:(done)) as Hci.
  destruct (run OcrRpcClient_init w1) as [[ocr_rpc|e|] [w2 li]];
    unfold log_of, world_of in Hr, Hci; cbn [fst snd] in Hr, Hci;
    fold (closes li) in Hci.
  2,3: subst r; norm_log.
  2: { split; [done|]. split; [done|]. split; [|done]. intros ? _. by left. }
  2: { split; [done|]. split; [|done]. intros _. split; [done|]. in_log. }
  unfold app_bind at 1 in Hr. rewrite app_perform_eq in Hr.
  destruct (file_read filename w2) as [[data|e] w3]; cbn [fst snd] in Hr.
  2: { subst r. norm_log. rewrite ?app_nil_r, ?Hci.
       split; [done|]. split; [done|]. split; [|done]. intros ? _. by left. }
  unfold app_bind at 1, app_lift in Hr.
  destruct (subscript payload "name") as [user_name|e]; cbn in Hr.
  2: { subst r. norm_log. rewrite ?app_nil_r, ?Hci.
       split; [done|]. split; [done|]. split; [|done]. intros ? _. by left. }
  unfold app_bind at 1, app_lift in Hr.
  destruct (subscript payload "email") as [user_email|e]; cbn in Hr.
  2: { subst r. norm_log. rewrite ?app_nil_r, ?Hci.
       split; [done|]. split; [done|]. split; [|done]. intros ? _. by left. }
  unfold app_bind at 1, app_lift in Hr.
  destruct (subscript payload "id") as [user_id|e]; cbn in Hr.
  2: { subst r. norm_log. rewrite ?app_nil_r, ?Hci.
       split; [done|]. split; [done|]. split; [|done]. intros ? _. by left. }
  unfold app_bind at 1 in Hr. rewrite from_M_eq in Hr.
  match type of Hr with context [run (call fuel ocr_rpc ?d) w3] =>
    destruct (ocr_request_sent fuel ocr_rpc d w3 _ eq_refl) as [Hcc _];
    destruct (run (call fuel ocr_rpc d) w3) as [[response|e|] [w4 lc]]
  end; unfold log_of, world_of in Hr, Hcc; cbn [fst snd] in Hr, Hcc.
  all: change (closes lc = []) in Hcc.
  2,3: subst r; norm_log; rewrite ?closes_app, ?app_nil_r, ?Hci, ?Hcc.
  2: { split; [done|]. split; [done|]. split; [|done]. intros ? _. by left. }
  2: { split; [done|]. split; [|done]. intros _. split; [done|]. in_log. }
  unfold app_bind at 1 in Hr. rewrite app_perform_eq in Hr.
  destruct (os_remove filename w4) as [[[]|e] w5]; unfold app_ret in Hr;
    cbn in Hr; subst r; norm_log; rewrite ?closes_app, ?app_nil_r, ?Hci, ?Hcc.
  - split; [done|]. split; [done|]. split; [done|]. done.
  - split; [done|]. split; [done|]. split; [|done]. intros ? [= <-]. by right.
Qed.

(** X24. What the [/ocr] route publishes, if anything, is one message to
    [ocr_service] whose body is the JSON text of the dict with the three
    fields of the token payload and the base64 text of the file as it was
    read back from disk. *)
Theorem ocr_sends_file_as_read
    (fuel : nat) (filename upload : string) (payload : pyvalue) (w : W) :
  let r := run_app (ocr fuel filename upload payload) w in
  publishes (amqp_of r.2.2) = [] \/
  exists data user_name user_email user_id props body res,
    FileRead filename (Value data) ∈ r.2.2 /\
    subscript payload "name" = Value user_name /\
    subscript payload "email" = Value user_email /\
    subscript payload "id" = Value user_id /\
    json_dumps (envelope (ocr_request user_name user_email user_id data)) = Ret body /\
    publishes (amqp_of r.2.2) = [EPublish "" "ocr_service" props body res].
Proof.
  cbn zeta. remember (run_app (ocr fuel filename upload payload) w) as r eqn:Hr.
  unfold run_app, ocr in Hr.
  unfold app_bind at 1 in Hr. rewrite app_perform_eq in Hr.
  destruct (file_write filename upload w) as [[[]|e] w1]; cbn [fst snd failure] in Hr.
  2: { subst r. by left. }
  unfold app_bind at 1 in Hr. rewrite from_M_eq in Hr.
  pose proof (filter_init is_publish w1 ltac:(done) ltac:(done) ltac:(done)
                ltac:(done)) as Hpi.
  destruct (run OcrRpcClient_init w1) as [[ocr_rpc|e|] [w2 li]];
    unfold log_of, world_of in Hr, Hpi; cbn [fst snd] in Hr, Hpi;
    fold (publishes li) in Hpi.
  2,3: subst r; norm_log; left; by rewrite ?publishes_app, Hpi.
  unfold app_bind at 1 in Hr. rewrite app_perform_eq in Hr.
  destruct (file_read filename w2) as [[data|e] w3]; cbn [fst snd] in Hr.
  2: { subst r. norm_log. left. by rewrite ?publishes_app, Hpi. }
  unfold app_bind at 1, app_lift in Hr.
  destruct (subscript payload "name") as [user_name|e] eqn:Hn; cbn in Hr.
  2: { subst r. norm_log. left. by rewrite ?publishes_app, Hpi. }
  unfold app_bind at 1, app_lift in Hr.
  destruct (subscript payload "email") as [user_email|e] eqn:He; cbn in Hr.
  2: { subst r. norm_log. left. by rewrite ?publishes_app, Hpi. }
  unfold app_bind at 1, app_lift in Hr.
  destruct (subscript payload "id") as [user_id|e] eqn:Hi; cbn in Hr.
  2: { subst r. norm_log. left. by rewrite ?publishes_app, Hpi. }
  unfold app_bind at 1 in Hr. rewrite from_M_eq in Hr.
  fold (ocr_request user_name user_email user_id data) in Hr.
  destruct (ocr_request_sent fuel ocr_rpc
              (ocr_request user_name user_email user_id data) w3 _ eq_refl)
    as [_ Hpc].
  assert (forall l : list app_event,
    FileRead filename (Value data) ∈ l ->
    publishes (amqp_of l) =
      publishes (log_of (run (call fuel ocr_rpc
        (ocr_request user_name user_email user_id data)) w3)) ->
    publishes (amqp_of l) = [] \/
    exists data user_name user_email user_id props body res,
      FileRead filename (Value data) ∈ l /\
      subscript payload "name" = Value user_name /\
      subscript payload "email" = Value user_email /\
      subscript payload "id" = Value user_id /\
      json_dumps (envelope (ocr_request user_name user_email user_id data)) = Ret body /\
      publishes (amqp_of l) = [EPublish "" "ocr_service" props body res]) as Hend.
  { intros l Hin ->. destruct Hpc as [->|(props & body & res & Hb & ->)]; [by left|].
    right. by exists data, user_name, user_email, user_id, props, body, res. }
  destruct (run (call fuel ocr_rpc _) w3) as [[response|e|] [w4 lc]];
    unfold log_of, world_of in Hr, Hend; cbn [fst snd] in Hr, Hend.
  2,3: subst r; cbn [fst snd]; rewrite <- Hn, <- He, <- Hi; apply Hend; [in_log|];
       norm_log; by rewrite ?publishes_app, Hpi.
  unfold app_bind at 1 in Hr. rewrite app_perform_eq in Hr.
  destruct (os_remove filename w4) as [[[]|e] w5]; unfold app_ret in Hr;
    cbn in Hr; subst r; cbn [fst snd]; rewrite <- Hn, <- He, <- Hi;
    (apply Hend; [in_log|]);
    norm_log; by rewrite ?publishes_app, Hpi, ?app_nil_r.
Qed.
End GatewayMainFacts.

(** ** check_services.py *)

Section Frames.
Context {W : Type}.





End Frames.

(** One step of a run kept in the hypothesis [H]: the next call to the
    outside world is made and its result named. *)
Ltac run_step H :=
  first
    [ progress cbn [fst snd failure raised app andb] in H
    | progress unfold app_ret in H
    | rewrite app_perform_eq in H
    | rewrite from_M_perform in H
    | match type of H with
      | context [stdout_print ?a ?b ?w] =>
          destruct (stdout_print a b w) as [[[]|?] ?] eqn:?
      | context [app_is_Exception ?e] =>
          destruct (app_is_Exception e) eqn:?
      end ].

(** Membership in a log that is written out, by computation. *)
Ltac fast_in := apply list_elem_of_In; cbn [In]; solve [eauto 14].



(** [raised_in_try] on a log that is written out. *)
Ltac in_try :=
  unfold CheckServices.raised_in_try;
  first [ left; eexists; split; [reflexivity|]; first [left; fast_in | right; fast_in]
        | right; fast_in ].

(** An equivalence between two facts that are both plain or both absurd. *)
Ltac plain_iff :=
  split; intros; cbn [last] in *;
  solve [ done | simplify_eq | congruence ].




(** The two ways [check_rabbitmq] ends without [True]. *)
Ltac answered_false :=
  first
    [ by intros [=]
    | intros _;
      match goal with
      | H : app_is_Exception ?x = true |- _ =>
          exists x; split; [exact H|]; split; [in_try|fast_in]
      end ].

Ltac raised_from :=
  first
    [ by intros ? [=]
    | intros ? [= <-];
      first
        [ left; split; [assumption|in_try]
        | right;
          match goal with
          | H : app_is_Exception ?x = true |- _ =>
              exists x; split; [exact H|]; split; [in_try|];
              first [left; fast_in | right; fast_in]
          end ] ].

Section CheckServicesFacts.
Import CheckServices.
Context {W conn chan pgconn : Type} `{!Pika W conn chan} `{!Postgres W pgconn}
  `{!Console W}.




(** X11. [check_rabbitmq] makes a single attempt, at [RABBITMQ_URL] or at
    [localhost] when the variable is unset, and never sleeps. It answers
    [True] exactly when the connection attempt, [connection.close()] and
    the print of the success line all returned. An [Exception] raised by
    one of the three, the print included, sends it to the handler, where it
    answers [False] exactly when both lines of the handler were printed. It
    raises what is not an [Exception] from the [try] block, and whatever a
    print of the handler raises. *)
Theorem check_rabbitmq_single_attempt (w : W) :
  let r := run_app check_rabbitmq w in
  let l := r.2.2 in
  let host := Some (default "localhost" RABBITMQ_URL) in
  (exists res, List.filter is_connect (amqp_of l) = [EConnect host res])
  /\ List.filter is_sleep (amqp_of l) = []
  /\ (r.1 = Done true <->
      l = [Amqp (EConnect host None); Amqp (EConnectionClose None);
           Stdout rabbitmq_ok_line None None])
  /\ (r.1 = Done true <->
      exists c w1 w2 w3,
        BlockingConnection host w = (Ret c, w1) /\
        connection_close c w1 = (Ret tt, w2) /\
        stdout_print rabbitmq_ok_line None w2 = (Value tt, w3))
  /\ (r.1 = Done false <-> last l = Some (Stdout rabbitmq_hint_line None None))
  /\ (r.1 = Done false ->
      exists e, app_is_Exception e = true /\ raised_in_try host e l /\
                Stdout rabbitmq_down_text (Some e) None ∈ l)
  /\ (forall e, r.1 = Failed e ->
        (app_is_Exception e = false /\ raised_in_try host e l)
        \/ (exists e0,
              app_is_Exception e0 = true /\ raised_in_try host e0 l /\
              (Stdout rabbitmq_down_text (Some e0) (Some e) ∈ l \/
               Stdout rabbitmq_hint_line None (Some e) ∈ l)))
  /\ r.1 <> Pending.
Proof.
  cbn zeta. remember (run_app check_rabbitmq w) as r eqn:Hr.
  unfold run_app, check_rabbitmq, app_try, app_bind, say, say_error, connect,
    close_connection in Hr.
  rewrite from_M_perform in Hr.
  destruct (BlockingConnection (Some (default "localhost" RABBITMQ_URL)) w)
    as [[c|e] w1] eqn:Hc; cbn [fst snd] in Hr.
  - rewrite from_M_perform in Hr.
    destruct (connection_close c w1) as [[[]|e] w2] eqn:Hd; cbn [fst snd] in Hr.
    all: repeat run_step Hr.
    all: subst r; cbn [fst snd].
    all: split; [by eexists|]; split; [done|].
    all: split; [plain_iff|].
    all: split; [split; [intros; simplify_eq; eauto 10|
                         intros (? & ? & ? & ? & ? & ? & ?); simplify_eq; congruence]|].
    all: split; [plain_iff|].
    all: split; [answered_false|]; split; [raised_from|done].
  - repeat run_step Hr.
    all: subst r; cbn [fst snd].
    all: split; [by eexists|]; split; [done|].
    all: split; [plain_iff|].
    all: split; [split; [intros; simplify_eq; eauto 10|
                         intros (? & ? & ? & ? & ? & ? & ?); simplify_eq; congruence]|].
    all: split; [plain_iff|].
    all: split; [answered_false|]; split; [raised_from|done].
Qed.


End CheckServicesFacts.

(** * More runs against the broker and the site *)

Module MoreScenarios.
Import Broker Worlds MoreWorlds.
#[local] Existing Instance Broker.pika.
#[local] Existing Instance PyJson.codec.

Lemma send_otp_needs_the_queue_witness :
  let l := log_of (run (send_otp 1 "a@b.com" "123456" None) (starting 0)) in
  declares l = [passive_declare (Exc (not_found "email_notification"))]
  /\ publishes l = []
  /\ (EPrint sent_line ∉ l)
  /\ (is_Exception (not_found "email_notification") = true ->
      EPrint (failed_line (not_found "email_notification")) ∈ l).
Proof.
  apply (send_otp_needs_the_queue 1 "a@b.com" "123456" None (starting 0)).
  apply list_elem_of_In. vm_compute. auto 8.
Defined.


Lemma call_raises_when_polling_raises_witness :
  run (call 1 ocr_rpc image) gateway_connection_lost =
  (Raised connection_is_closed,
   (world_of (run (call 1 ocr_rpc image) gateway_connection_lost),
    [EUuid4 "uuid-5";
     request ocr_rpc "uuid-5" (PyJson.encode (envelope image)) None]
    ++ pump_log [] ++ [EPump (Exc connection_is_closed)])).
Proof.
  apply (call_raises_when_polling_raises 1 ocr_rpc image gateway_connection_lost
           "uuid-5" (PyJson.encode (envelope image))
           (world_of (run (call 1 ocr_rpc image) gateway_connection_lost)) []
           (world_of (run (call 1 ocr_rpc image) gateway_connection_lost))).
  - repeat split; vm_compute; reflexivity.
  - constructor.
  - vm_compute. reflexivity.
  - cbn. lia.
Defined.

Lemma dispatch_keeps_last_matching_reply_witness :
  dispatch waiting_client ([first_reply] ++ second_reply :: [stale_reply]) =
  Ret (set_response waiting_client (Some (d_body second_reply))).
Proof.
  apply (dispatch_keeps_last_matching_reply waiting_client "uuid-5").
  - reflexivity.
  - reflexivity.
  - repeat constructor.
Defined.

Lemma prepare_password_digest_is_equivalent_witness :
  let digest := Hashlib.sha256_hexdigest long_password in
  digest <> long_password
  /\ _prepare_password long_password = digest
  /\ _prepare_password digest = digest.
Proof.
  apply (prepare_password_digest_is_equivalent long_password).
  cbn. lia.
Defined.
End MoreScenarios.

Module SiteScenarios.
Import Site AuthService AuthMain.
#[local] Existing Instance Site.pika.
#[local] Existing Instance Site.database.
#[local] Existing Instance Site.tokens.
#[local] Existing Instance Site.registration.
#[local] Existing Instance Site.random.
#[local] Existing Instance Site.requests.
#[local] Existing Instance Site.file_system.
#[local] Existing Instance Site.postgres.
#[local] Existing Instance Site.console.
#[local] Existing Instance PyJson.codec.



(** The start-up on a broker without the queue leaves the broker that the
    runs of [send_otp] above start from: connection 0 with channel 1 and
    the queue [email_notification], not durable. *)
Example lifespan_on_fresh_site :
  let r := run_app lifespan fresh in
  r.1 = Done (Some 0, Some 1)
  /\ broker r.2.1 = Worlds.auth_started
  /\ amqp_of r.2.2 =
       [EConnect (Some "localhost") None; EChannel None;
        EQueueDeclare "email_notification" false false false
          (Ret "email_notification")].
Proof. cbn zeta. split; [|split]; vm_compute; reflexivity. Qed.

(** After that start-up the route answers, and the code it stored is the
    one in the message that waits in the queue. *)
Example send_otp_mail_after_lifespan :
  let w := (run_app lifespan fresh).2.1 in
  let r := run_app (send_otp_mail 1 (Some 1) "a@b.com") w in
  r.1 = Done otp_sent
  /\ account_otp <$> accounts r.2.1 = [Some "123456"]
  /\ (Broker.q_durable <$> (Broker.queues (broker r.2.1) !! "email_notification")) = Some false
  /\ (d_body <$> Broker.pending "email_notification" (Broker.queues (broker r.2.1)))
       = [Worlds.otp_json].
Proof. cbn zeta. repeat split; vm_compute; reflexivity. Qed.

(** A new user with a password of 73 bytes: what is stored is the stand-in
    hash of the digest, and the typed password is nowhere in the log. *)
Example create_user_with_long_password :
  let r := run_app (AuthService.create_user "Bob" "bob@b.com"
                      MoreWorlds.long_password) started in
  let digest := Hashlib.sha256_hexdigest MoreWorlds.long_password in
  r.2.2 = [ValidateEmail "bob@b.com" (Value "bob@b.com");
           BcryptHash digest (Value (hashed digest));
           DbInsert "bob@b.com" "Bob" (hashed digest) None]
  /\ account_password <$> accounts r.2.1 = [hashed "secret"; hashed digest].
Proof. cbn zeta. split; vm_compute; reflexivity. Qed.

(** The token a verified user gets is accepted by [get_current_user],
    which answers with that user. *)
Example token_round_trip :
  let w := site Worlds.auth_started [alice_verified] in
  exists token,
    (run_app (generate_token "a@b.com" "secret") w).1 =
      Done (PyDict [("access_token", PyStr token); ("token_type", PyStr "bearer")])
    /\ (run_app (get_current_user token) w).1 = Done (PyDict (public alice_verified)).
Proof.
  cbn zeta. eexists. split; [vm_compute; reflexivity|]. vm_compute. reflexivity.
Qed.

(** With the database down, [get_current_user] calls the same token
    invalid. *)
Example get_current_user_database_down :
  let w := with_database_budget (site Worlds.auth_started [alice_verified]) (Some 0) in
  run_app (get_current_user (PyJson.encode (PyDict [("id", PyInt 1)]))) w =
  (Failed invalid_email_or_password, (w, [DbGet (PyInt 1) (Some database_down)])).
Proof. vm_compute. reflexivity. Qed.

(** The gateway turns the 401 of the auth service into 500. *)
Example login_with_wrong_password :
  let r := run_app (GatewayMain.login "a@b.com" "wrong") started in
  r.1 = Failed GatewayMain.internal_server_error
  /\ r.2.2 =
       [Post "http://auth:5000/api/token"
          (PyDict [("username", PyStr "a@b.com"); ("password", PyStr "wrong")])
          (Value 401%Z);
        Logging ERROR "Error during login: "
          (Some (HTTPException 401
                   (PyDict [("detail", PyStr "Invalid Credentials")])))].
Proof. cbn zeta. split; vm_compute; reflexivity. Qed.

(** The [/ocr] route with a worker: the reply comes back and the file is
    gone, while the connection of the route's client stays open. *)
Example ocr_with_worker :
  let w := gateway (Some (Worlds.echo_worker (PyStr "text"))) 0 in
  let r := run_app (GatewayMain.ocr 1 "scan.png" "hello" token_payload) w in
  r.1 = Done (PyStr "text")
  /\ files r.2.1 = ∅
  /\ Broker.conns (broker r.2.1) = [2; 0]
  /\ publishes (amqp_of r.2.2) =
       [EPublish "" "ocr_service"
          {| reply_to := Some "amq.gen-4"; correlation_id := Some "uuid-5";
             delivery_mode := None |}
          (PyJson.encode (envelope
             (ocr_request (PyStr "Alice") (PyStr "a@b.com") (PyInt 1) "hello")))
          None].
Proof. cbn zeta. repeat split; vm_compute; reflexivity. Qed.

(** Without a worker the route is still waiting after five rounds, and the
    file is still there. *)
Example ocr_without_worker :
  let w := gateway None 0 in
  let r := run_app (GatewayMain.ocr 5 "scan.png" "hello" token_payload) w in
  r.1 = Pending /\ files r.2.1 !! "scan.png" = Some "hello".
Proof. cbn zeta. split; vm_compute; reflexivity. Qed.

(** The health check with everything up, and with the database down. *)
Example check_services_all_up :
  let r := run_app (CheckServices.main (pgconn := unit)) started in
  r.1 = Done tt
  /\ last r.2.2 = Some (Stdout CheckServices.all_running_line None None).
Proof. cbn zeta. split; vm_compute; reflexivity. Qed.

Example check_services_database_down :
  let r := run_app (CheckServices.main (pgconn := unit))
             (with_database_budget started (Some 0)) in
  r.1 = Done tt
  /\ last r.2.2 = Some (Stdout CheckServices.returns_503_line None None).
Proof. cbn zeta. split; vm_compute; reflexivity. Qed.

(** On a stream in ascii the first status mark ends the script with
    [UnicodeEncodeError], although both services are up, and
    [check_rabbitmq] on its own raises from its handler after a successful
    connection. *)
Example check_services_on_ascii_stdout :
  run_app (@CheckServices.main _ _ _ unit _ _ ascii_console) started =
  (Failed cannot_encode,
   (started,
    [Stdout CheckServices.checking_line None None;
     PgConnect None; PgClose None;
     Stdout CheckServices.postgresql_ok_line None (Some cannot_encode)])).
Proof. vm_compute. reflexivity. Qed.

Example check_rabbitmq_on_ascii_stdout :
  let r := run_app (@CheckServices.check_rabbitmq _ _ _ _ ascii_console) started in
  r.1 = Failed cannot_encode
  /\ r.2.2 =
       [Amqp (EConnect (Some "rabbitmq") None); Amqp (EConnectionClose None);
        Stdout CheckServices.rabbitmq_ok_line None (Some cannot_encode);
        Stdout CheckServices.rabbitmq_down_text (Some cannot_encode)
               (Some cannot_encode)].
Proof. cbn zeta. split; vm_compute; reflexivity. Qed.
End SiteScenarios.
